(** * The VirtualMachine and VirtualMachineService reconcilers

    A shallow embedding of
    [controllers/virtualmachine/virtualmachine_controller.go] and of the
    endpoints part of the VirtualMachineService controller.

    A reconcile pass mutates the VirtualMachine it holds a pointer to, talks
    to the API server through [client.Client] and to the infrastructure
    through [vmprovider.VirtualMachineProviderInterface].  Both are Go
    interfaces; here they are records of functions.  A pass is a computation
    in a small monad that threads the mutable state, collects the calls made
    to the outside in a trace, and knows Go's [return] and [defer].  Writing
    to the log has no part in it.

    The file has the model first (the API objects, the monad, the two
    controllers), then the vocabulary of the statements and a small cluster
    to try them on, then the proofs: finalizers, deletion, class bindings,
    create slots, resource policies, metadata, images, endpoints, and the
    phase over the life of an object. *)

From Stdlib Require Import ZArith List Ascii String Bool Lia DecimalString.
Import ListNotations.
Local Open Scope string_scope.
Local Open Scope list_scope.
Local Open Scope Z_scope.

Set Implicit Arguments.

(** ** Go base types *)

(** [time.Duration]: a count of nanoseconds. *)
Definition Duration := Z.
Definition Second : Duration := 1000000000.

(** [metav1.Time], as an offset from Go's zero instant. *)
Definition Time := Z.

(** [IsZero] on a [metav1.Time] pointer: nil or the zero instant. *)
Definition IsZero (t : option Time) : bool :=
  match t with
  | None => true
  | Some t => t =? 0
  end.

(** Go's [int] on the 64-bit platforms the operator is built for. *)
Definition wrap_int (z : Z) : Z := (z + 2 ^ 63) mod 2 ^ 64 - 2 ^ 63.

(** A Go [map[string]string]; the code only looks keys up. *)
Definition StringMap := list (string * string).

Fixpoint lookup (k : string) (m : StringMap) : option string :=
  match m with
  | [] => None
  | (k', v) :: m' => if String.eqb k' k then Some v else lookup k m'
  end.

(** [m[k]]: the zero value when the key is absent. *)
Definition index (m : StringMap) (k : string) : string :=
  match lookup k m with
  | Some v => v
  | None => ""
  end.

(** ** Errors *)

Inductive StatusReason :=
| StatusReasonNotFound
| StatusReasonForbidden
| StatusReasonConflict
| StatusReasonInternalError.

(** The values of Go's [error] interface the controllers meet: API status
    errors, [fmt.Errorf] values and [errors.Wrap]ped ones. *)
Inductive error :=
| StatusError (reason : StatusReason) (message : string)
| Errorf (message : string)
| Wrap (cause : error) (message : string).

Fixpoint Error (e : error) : string :=
  match e with
  | StatusError _ m => m
  | Errorf m => m
  | Wrap c m => (m ++ ": " ++ Error c)%string
  end.

(** [apiErrors.IsNotFound]. *)
Definition IsNotFound (e : error) : bool :=
  match e with
  | StatusError StatusReasonNotFound _ => true
  | _ => false
  end.

(** [apiErrors.IsForbidden]. *)
Definition IsForbidden (e : error) : bool :=
  match e with
  | StatusError StatusReasonForbidden _ => true
  | _ => false
  end.

(** [client.IgnoreNotFound]. *)
Definition IgnoreNotFound (e : error) : option error :=
  if IsNotFound e then None else Some e.

(** A Go result pair [(T, error)]. *)
Inductive result (A : Type) :=
| Ok (a : A)
| Err (e : error).
Arguments Ok {A} a.
Arguments Err {A} e.

(** ** API objects *)

Record ObjectKey := {
  keyNamespace : string;
  keyName : string
}.

Record OwnerReference := {
  ownerKind : string;
  ownerName : string;
  ownerUID : string
}.

Record ObjectMeta := {
  Name : string;
  Namespace : string;
  UID : string;
  ResourceVersion : string;
  Labels : StringMap;
  Annotations : StringMap;
  OwnerReferences : list OwnerReference;
  Finalizers : list string;
  DeletionTimestamp : option Time
}.

Definition emptyMeta : ObjectMeta :=
  {| Name := ""; Namespace := ""; UID := ""; ResourceVersion := "";
     Labels := []; Annotations := []; OwnerReferences := [];
     Finalizers := []; DeletionTimestamp := None |}.

Definition set_Finalizers (om : ObjectMeta) (fs : list string) : ObjectMeta :=
  {| Name := Name om; Namespace := Namespace om; UID := UID om;
     ResourceVersion := ResourceVersion om; Labels := Labels om;
     Annotations := Annotations om; OwnerReferences := OwnerReferences om;
     Finalizers := fs; DeletionTimestamp := DeletionTimestamp om |}.

Definition set_DeletionTimestamp (om : ObjectMeta) (t : option Time) : ObjectMeta :=
  {| Name := Name om; Namespace := Namespace om; UID := UID om;
     ResourceVersion := ResourceVersion om; Labels := Labels om;
     Annotations := Annotations om; OwnerReferences := OwnerReferences om;
     Finalizers := Finalizers om; DeletionTimestamp := t |}.

(** Modelled from the spec: the API package (vm-operator-api) is not among
    the sources.  The phase is one of unset, Creating, Created, Deleting,
    Deleted; the controller uses the four named constants and the zero
    value. *)
Inductive VMStatusPhase :=
| PhaseUnset
| Creating
| Created
| Deleting
| Deleted.

(** Modelled from the spec: the power state of the API package, with its
    zero value. *)
Inductive VirtualMachinePowerState :=
| PowerStateUnset
| VirtualMachinePoweredOff
| VirtualMachinePoweredOn.

Definition phase_eqb (a b : VMStatusPhase) : bool :=
  match a, b with
  | PhaseUnset, PhaseUnset | Creating, Creating | Created, Created
  | Deleting, Deleting | Deleted, Deleted => true
  | _, _ => false
  end.

Definition power_eqb (a b : VirtualMachinePowerState) : bool :=
  match a, b with
  | PowerStateUnset, PowerStateUnset
  | VirtualMachinePoweredOff, VirtualMachinePoweredOff
  | VirtualMachinePoweredOn, VirtualMachinePoweredOn => true
  | _, _ => false
  end.

(** Modelled from the spec: a condition carries a status, a reason, a
    severity and a free-text message, under a type name. *)
Inductive ConditionStatus := ConditionTrue | ConditionFalse | ConditionUnknown.
Inductive ConditionSeverity :=
| ConditionSeverityNone
| ConditionSeverityError
| ConditionSeverityWarning
| ConditionSeverityInfo.

Record Condition := {
  condType : string;
  condStatus : ConditionStatus;
  condSeverity : ConditionSeverity;
  condReason : string;
  condMessage : string
}.

Definition VirtualMachinePrereqReadyCondition := "VirtualMachinePrereqReady".
Definition VirtualMachineClassNotFoundReason := "VirtualMachineClassNotFound".
Definition VirtualMachineClassBindingNotFoundReason := "VirtualMachineClassBindingNotFound".
Definition VirtualMachineImageNotFoundReason := "VirtualMachineImageNotFound".
Definition ContentSourceBindingNotFoundReason := "ContentSourceBindingNotFound".

Inductive IntOrString :=
| FromInt (IntVal : Z)
| FromString (StrVal : string).

Record TCPSocketAction := {
  tcpPort : IntOrString;
  tcpHost : string
}.

Record Probe := {
  TCPSocket : option TCPSocketAction;
  TimeoutSeconds : Z
}.

Record VirtualMachinePort := {
  vmPortPort : Z;
  vmPortName : string;
  vmPortProtocol : string
}.

Record VirtualMachineMetadata := {
  ConfigMapName : string;
  SecretName : string;
  Transport : string
}.

Record InstanceVolumeClaimVolumeSource := {
  ivcStorageClass : string;
  ivcSize : Z
}.

Record PersistentVolumeClaimVolumeSource := {
  ClaimName : string;
  ReadOnly : bool;
  InstanceVolumeClaim : option InstanceVolumeClaimVolumeSource
}.

Record VirtualMachineVolume := {
  volName : string;
  PersistentVolumeClaim : option PersistentVolumeClaimVolumeSource
}.

Record VirtualMachineSpec := {
  ImageName : string;
  ClassName : string;
  SpecPowerState : VirtualMachinePowerState;
  Ports : list VirtualMachinePort;
  VmMetadata : option VirtualMachineMetadata;
  StorageClass : string;
  ResourcePolicyName : string;
  Volumes : list VirtualMachineVolume;
  ReadinessProbe : option Probe
}.

Record VirtualMachineStatus := {
  Host : string;
  PowerState : VirtualMachinePowerState;
  Phase : VMStatusPhase;
  VmIp : string;
  Conditions : list Condition
}.

Record VirtualMachine := {
  vmMeta : ObjectMeta;
  Spec : VirtualMachineSpec;
  Status : VirtualMachineStatus
}.

Definition emptyVM : VirtualMachine :=
  {| vmMeta := emptyMeta;
     Spec := {| ImageName := ""; ClassName := ""; SpecPowerState := PowerStateUnset;
                Ports := []; VmMetadata := None; StorageClass := "";
                ResourcePolicyName := ""; Volumes := []; ReadinessProbe := None |};
     Status := {| Host := ""; PowerState := PowerStateUnset; Phase := PhaseUnset;
                  VmIp := ""; Conditions := [] |} |}.

Definition set_Phase (vm : VirtualMachine) (ph : VMStatusPhase) : VirtualMachine :=
  {| vmMeta := vmMeta vm; Spec := Spec vm;
     Status := {| Host := Host (Status vm); PowerState := PowerState (Status vm);
                  Phase := ph; VmIp := VmIp (Status vm);
                  Conditions := Conditions (Status vm) |} |}.

Definition set_Conditions (vm : VirtualMachine) (cs : list Condition) : VirtualMachine :=
  {| vmMeta := vmMeta vm; Spec := Spec vm;
     Status := {| Host := Host (Status vm); PowerState := PowerState (Status vm);
                  Phase := Phase (Status vm); VmIp := VmIp (Status vm);
                  Conditions := cs |} |}.

Definition set_Volumes (vm : VirtualMachine) (vs : list VirtualMachineVolume) : VirtualMachine :=
  {| vmMeta := vmMeta vm;
     Spec := {| ImageName := ImageName (Spec vm); ClassName := ClassName (Spec vm);
                SpecPowerState := SpecPowerState (Spec vm); Ports := Ports (Spec vm);
                VmMetadata := VmMetadata (Spec vm); StorageClass := StorageClass (Spec vm);
                ResourcePolicyName := ResourcePolicyName (Spec vm); Volumes := vs;
                ReadinessProbe := ReadinessProbe (Spec vm) |};
     Status := Status vm |}.

Definition set_vmMeta (vm : VirtualMachine) (om : ObjectMeta) : VirtualMachine :=
  {| vmMeta := om; Spec := Spec vm; Status := Status vm |}.

Definition NamespacedName (om : ObjectMeta) : string :=
  (Namespace om ++ "/" ++ Name om)%string.

Record InstanceStorageVolume := {
  isvSize : Z
}.

Record InstanceStorage := {
  isStorageClass : string;
  isVolumes : list InstanceStorageVolume
}.

(** [vmClass.Spec.Hardware.InstanceStorage] is the one part of the class the
    controller reads. *)
Record VirtualMachineClass := {
  classMeta : ObjectMeta;
  classInstanceStorage : InstanceStorage
}.

Record ObjectRef := {
  refKind : string;
  refName : string
}.

Record VirtualMachineClassBinding := {
  cbMeta : ObjectMeta;
  ClassRef : ObjectRef
}.

Record ContentSourceBinding := {
  csbMeta : ObjectMeta;
  ContentSourceRef : ObjectRef
}.

Record VirtualMachineImage := {
  imageMeta : ObjectMeta
}.

Record ContentLibraryProvider := {
  clpMeta : ObjectMeta;
  clpUUID : string
}.

Record ContentSource := {
  csMeta : ObjectMeta
}.

Record ConfigMap := {
  cmMeta : ObjectMeta;
  cmData : StringMap
}.

(** A Secret's values are byte slices; a Rocq string is a sequence of
    bytes, so [string(v)] is the identity. *)
Record Secret := {
  secretMeta : ObjectMeta;
  secretData : StringMap
}.

Record K8sStorageClass := {
  scMeta : ObjectMeta;
  Parameters : StringMap
}.

Record VirtualMachineSetResourcePolicy := {
  rpMeta : ObjectMeta
}.

(** [vmprovider.VMMetadata]. *)
Record VMMetadata := {
  mdData : StringMap;
  mdTransport : string
}.

(** [vmprovider.VMConfigArgs]: what one pass resolved, handed to the
    provider whole. *)
Record VMConfigArgs := {
  argVMClass : VirtualMachineClass;
  argVMImage : VirtualMachineImage;
  argVMMetadata : VMMetadata;
  argResourcePolicy : option VirtualMachineSetResourcePolicy;
  argStorageProfileID : string;
  argContentLibraryUUID : string
}.

(** ** Objects of the VirtualMachineService controller *)

Record VirtualMachineService := {
  vmsMeta : ObjectMeta;
  vmsAPIVersion : string;
  vmsKind : string;
  vmsSelector : StringMap
}.

Record ServicePort := {
  spName : string;
  spProtocol : string;
  spPort : Z;
  spTargetPort : IntOrString;
  spNodePort : Z
}.

Record Service := {
  svcMeta : ObjectMeta;
  svcPorts : list ServicePort
}.

Record ObjectReference := {
  orAPIVersion : string;
  orKind : string;
  orNamespace : string;
  orName : string;
  orUID : string;
  orResourceVersion : string
}.

Record EndpointAddress := {
  epaIP : string;
  epaTargetRef : option ObjectReference
}.

Record EndpointPort := {
  eppName : string;
  eppPort : Z;
  eppProtocol : string
}.

Record EndpointSubset := {
  Addresses : list EndpointAddress;
  epsPorts : list EndpointPort
}.

Record Endpoints := {
  epMeta : ObjectMeta;
  Subsets : list EndpointSubset
}.

(** ** What a pass does to the outside

    Every call that leaves the reconciler is recorded, in order. *)
Inductive Event :=
| ClientGet (kind : string) (key : ObjectKey)
| ClientList (kind : string) (namespace : string)
| ClientCreateEndpoints (ep : Endpoints) (r : option error)
| ClientUpdateEndpoints (ep : Endpoints) (r : option error)
| PatchHelperPatch (after : VirtualMachine) (r : option error)
| ProviderIsResourcePolicyReady (r : result bool)
| ProviderDoesVirtualMachineExist (r : result bool)
| ProviderCreateVirtualMachine (args : VMConfigArgs) (r : option error)
| ProviderUpdateVirtualMachine (args : VMConfigArgs) (r : option error)
| ProviderDeleteVirtualMachine (r : option error)
| RecorderEmitEvent (op : string) (err : option error)
| ProberAdd (vm : string)
| ProberRemove (vm : string)
| DialTimeout (proto host port : string) (timeout : Duration).

(** A call on the provider driver. *)
Definition provider_call (e : Event) : bool :=
  match e with
  | ProviderIsResourcePolicyReady _ | ProviderDoesVirtualMachineExist _
  | ProviderCreateVirtualMachine _ _ | ProviderUpdateVirtualMachine _ _
  | ProviderDeleteVirtualMachine _ => true
  | _ => false
  end.

Definition is_create (e : Event) : bool :=
  match e with ProviderCreateVirtualMachine _ _ => true | _ => false end.

Definition is_update (e : Event) : bool :=
  match e with ProviderUpdateVirtualMachine _ _ => true | _ => false end.

Definition is_exists (e : Event) : bool :=
  match e with ProviderDoesVirtualMachineExist _ => true | _ => false end.

Definition is_client_get (kind : string) (e : Event) : bool :=
  match e with ClientGet k _ => String.eqb k kind | _ => false end.

Definition is_endpoints_write (e : Event) : bool :=
  match e with
  | ClientCreateEndpoints _ _ | ClientUpdateEndpoints _ _ => true
  | _ => false
  end.

(** ** Go control flow as a monad

    A function body runs on the state [St]; a statement either falls
    through with a value ([Next]) or leaves the function ([Return]).
    [defer] registers a closure that [func] runs, last registered first,
    when the body is left; the closure sees the return value and may
    replace it, as with a named result. *)
Section Go.
Variable St : Type.

Definition Call (R : Type) := St -> R * St * list Event.

Definition Deferred (R : Type) := R -> Call R.

Inductive Outcome (R A : Type) :=
| Next (a : A)
| Return (r : R).

Definition M (R A : Type) :=
  St -> Outcome R A * St * list Event * list (Deferred R).

Definition next {R A} (a : A) : M R A :=
  fun s => (Next R a, s, [], []).

Definition return_ {R A} (r : R) : M R A :=
  fun s => (Return A r, s, [], []).

Definition bind {R A B} (m : M R A) (k : A -> M R B) : M R B :=
  fun s =>
    let '(o, s1, l1, d1) := m s in
    match o with
    | Next _ a =>
        let '(o2, s2, l2, d2) := k a s1 in (o2, s2, l1 ++ l2, d2 ++ d1)
    | Return _ r => (Return B r, s1, l1, d1)
    end.

Definition call {R R'} (f : Call R') : M R R' :=
  fun s => let '(r, s1, l) := f s in (Next R r, s1, l, []).

Definition defer {R} (d : Deferred R) : M R unit :=
  fun s => (Next R tt, s, [], [d]).

Definition gets {R A} (f : St -> A) : M R A :=
  fun s => (Next R (f s), s, [], []).

Definition modify {R} (f : St -> St) : M R unit :=
  fun s => (Next R tt, f s, [], []).

Definition emit {R} (e : Event) : M R unit :=
  fun s => (Next R tt, s, [e], []).

Definition when {R} (b : bool) (body : M R unit) : M R unit :=
  if b then body else next tt.

Fixpoint run_deferred {R} (ds : list (Deferred R)) (r : R) (s : St)
  : R * St * list Event :=
  match ds with
  | [] => (r, s, [])
  | d :: ds' =>
      let '(r1, s1, l1) := d r s in
      let '(r2, s2, l2) := run_deferred ds' r1 s1 in
      (r2, s2, l1 ++ l2)
  end.

Definition func {R} (body : M R R) : Call R :=
  fun s =>
    let '(o, s1, l1, ds) := body s in
    let r := match o with Next _ r => r | Return _ r => r end in
    let '(r', s2, l2) := run_deferred ds r s1 in
    (r', s2, l1 ++ l2).
End Go.

Arguments Next {R A} a.
Arguments Return {R A} r.
Arguments next {St R A} a.
Arguments return_ {St R A} r.
Arguments gets {St R A} f.
Arguments modify {St R} f.
Arguments emit {St R} e.
Arguments defer {St R} d.

Declare Scope go_scope.
Delimit Scope go_scope with go.
Notation "x <- m ;; k" := (bind m (fun x => k))
  (at level 61, m at next level, right associativity) : go_scope.
Notation "m ;; k" := (bind m (fun _ => k))
  (at level 61, right associativity) : go_scope.
Notation "' p <- m ;; k" := (bind m (fun x => let 'p := x in k))
  (at level 61, p pattern, m at next level, right associativity) : go_scope.
Local Open Scope go_scope.

(** What came back from a call, the state it left and the calls it made. *)
Definition returned {St R} (x : R * St * list Event) : R := fst (fst x).
Definition final {St R} (x : R * St * list Event) : St := snd (fst x).
Definition calls {St R} (x : R * St * list Event) : list Event := snd x.

(** ** The interfaces a reconciler is built from *)

Module client.
(** [client.Client], one reader per kind the controllers read, the two
    Endpoints writers, and the patch helper of [pkg/patch] that is created
    on the object as read and, when the pass ends, writes what changed. *)
Record Client := {
  GetVirtualMachine : ObjectKey -> result VirtualMachine;
  GetVirtualMachineClass : ObjectKey -> result VirtualMachineClass;
  ListVirtualMachineClassBindings : string -> result (list VirtualMachineClassBinding);
  GetVirtualMachineImage : ObjectKey -> result VirtualMachineImage;
  GetContentLibraryProvider : ObjectKey -> result ContentLibraryProvider;
  GetContentSource : ObjectKey -> result ContentSource;
  ListContentSourceBindings : string -> result (list ContentSourceBinding);
  GetConfigMap : ObjectKey -> result ConfigMap;
  GetSecret : ObjectKey -> result Secret;
  GetVirtualMachineSetResourcePolicy : ObjectKey -> result VirtualMachineSetResourcePolicy;
  GetStorageClass : ObjectKey -> result K8sStorageClass;
  ListVirtualMachines : string -> StringMap -> result (list VirtualMachine);
  GetEndpoints : ObjectKey -> result Endpoints;
  CreateEndpoints : Endpoints -> option error;
  UpdateEndpoints : Endpoints -> option error;
  NewHelper : VirtualMachine -> option error;
  Patch : VirtualMachine -> VirtualMachine -> option error
}.
End client.

Module vmprovider.
(** [vmprovider.VirtualMachineProviderInterface] over a provider whose own
    state is a [P].  The VirtualMachine is passed by pointer, so a call
    hands back the object as the provider left it. *)
Record VirtualMachineProviderInterface (P : Type) := {
  DoesVirtualMachineExist : P -> VirtualMachine -> P * VirtualMachine * result bool;
  CreateVirtualMachine : P -> VirtualMachine -> VMConfigArgs -> P * VirtualMachine * option error;
  UpdateVirtualMachine : P -> VirtualMachine -> VMConfigArgs -> P * VirtualMachine * option error;
  DeleteVirtualMachine : P -> VirtualMachine -> P * VirtualMachine * option error;
  IsVirtualMachineSetResourcePolicyReady :
    P -> string -> VirtualMachineSetResourcePolicy -> P * result bool
}.
End vmprovider.

(** What the controller imports from packages that are not among the
    sources: the feature switches of [pkg/lib], the annotation and label keys
    of the API, [constants] and [topology] packages,
    [instancestorage.IsConfigured], and the UUID generator (the n-th UUID
    asked for in a pass). *)
Record Imports := {
  IsVMServiceFSSEnabled : bool;
  IsInstanceStorageFSSEnabled : bool;
  PauseAnnotation : string;
  InstanceStoragePVCsBoundAnnotationKey : string;
  InstanceStoragePVCNamePrefix : string;
  KubernetesTopologyZoneLabelKey : string;
  IsConfigured : VirtualMachine -> bool;
  NewUUID : nat -> result string
}.

Module controllerutil.
(** controller-runtime's finalizer helpers. *)
Definition ContainsFinalizer (om : ObjectMeta) (finalizer : string) : bool :=
  existsb (String.eqb finalizer) (Finalizers om).

Definition AddFinalizer (om : ObjectMeta) (finalizer : string) : ObjectMeta :=
  if ContainsFinalizer om finalizer then om
  else set_Finalizers om (Finalizers om ++ [finalizer]).

Definition RemoveFinalizer (om : ObjectMeta) (finalizer : string) : ObjectMeta :=
  set_Finalizers om
    (filter (fun f => negb (String.eqb f finalizer)) (Finalizers om)).
End controllerutil.

Module conditions.
(** Modelled from the spec: [pkg/conditions] is not among the sources.
    Marking a condition writes it under its type name, in place of the
    condition of that type when there is one. *)
Fixpoint Set_ (c : Condition) (cs : list Condition) : list Condition :=
  match cs with
  | [] => [c]
  | x :: cs' =>
      if String.eqb (condType x) (condType c) then c :: cs'
      else x :: Set_ c cs'
  end.

Definition Get (vm : VirtualMachine) (t : string) : option Condition :=
  find (fun c => String.eqb (condType c) t) (Conditions (Status vm)).

Definition MarkTrue (vm : VirtualMachine) (t : string) : VirtualMachine :=
  set_Conditions vm
    (Set_ {| condType := t; condStatus := ConditionTrue;
             condSeverity := ConditionSeverityNone;
             condReason := ""; condMessage := "" |}
          (Conditions (Status vm))).

Definition MarkFalse (vm : VirtualMachine) (t reason : string)
    (severity : ConditionSeverity) (message : string) : VirtualMachine :=
  set_Conditions vm
    (Set_ {| condType := t; condStatus := ConditionFalse;
             condSeverity := severity;
             condReason := reason; condMessage := message |}
          (Conditions (Status vm))).

Definition IsFalse (vm : VirtualMachine) (t : string) : bool :=
  match Get vm t with
  | Some c => match condStatus c with ConditionFalse => true | _ => false end
  | None => false
  end.

Definition IsTrue (vm : VirtualMachine) (t : string) : bool :=
  match Get vm t with
  | Some c => match condStatus c with ConditionTrue => true | _ => false end
  | None => false
  end.
End conditions.

Module ctrl.
(** [ctrl.Result], the same as [reconcile.Result]. *)
Record Result := {
  Requeue : bool;
  RequeueAfter : Duration
}.

Definition emptyResult : Result := {| Requeue := false; RequeueAfter := 0 |}.
End ctrl.

(** * The VirtualMachine controller *)

Module virtualmachine.

Definition finalizerName := "virtualmachine.vmoperator.vmware.com".

(** What a pass can change: the VirtualMachine the context points to, the
    provider behind [VMProvider], and the reconciler's count of creates in
    flight.  The mutex around the count has no effect on a single pass. *)
Record Reconciler (P : Type) := {
  VM : VirtualMachine;
  provider : P;
  NumVMsBeingCreatedOnProvider : Z
}.

Section Reconciler.
Variable P : Type.
Variable c : client.Client.
Variable VMProvider : vmprovider.VirtualMachineProviderInterface P.
Variable imports : Imports.
Variable MaxConcurrentCreateVMsOnProvider : Z.

Local Abbreviation St := (Reconciler P).

Definition updateVM {R} (f : VirtualMachine -> VirtualMachine) : M St R unit :=
  modify (fun s => {| VM := f (VM s); provider := provider s;
                      NumVMsBeingCreatedOnProvider := NumVMsBeingCreatedOnProvider s |}).

Definition setNumVMsBeingCreatedOnProvider (n : Z) : St -> St :=
  fun s => {| VM := VM s; provider := provider s;
              NumVMsBeingCreatedOnProvider := n |}.

(** [r.Get] and [r.List]. *)
Definition Get {A} (kind : string) (get : ObjectKey -> result A) (key : ObjectKey)
  : Call St (result A) :=
  fun s => (get key, s, [ClientGet kind key]).

Definition List_ {A} (kind : string) (list_ : string -> result (list A))
    (namespace : string) : Call St (result (list A)) :=
  fun s => (list_ namespace, s, [ClientList kind namespace]).

(** The calls on [r.VMProvider]. *)
Definition DoesVirtualMachineExist : Call St (result bool) :=
  fun s =>
    let '(p, vm, r) :=
      vmprovider.DoesVirtualMachineExist VMProvider (provider s) (VM s) in
    (r, {| VM := vm; provider := p;
           NumVMsBeingCreatedOnProvider := NumVMsBeingCreatedOnProvider s |},
     [ProviderDoesVirtualMachineExist r]).

Definition CreateVirtualMachine (args : VMConfigArgs) : Call St (option error) :=
  fun s =>
    let '(p, vm, r) :=
      vmprovider.CreateVirtualMachine VMProvider (provider s) (VM s) args in
    (r, {| VM := vm; provider := p;
           NumVMsBeingCreatedOnProvider := NumVMsBeingCreatedOnProvider s |},
     [ProviderCreateVirtualMachine args r]).

Definition UpdateVirtualMachine (args : VMConfigArgs) : Call St (option error) :=
  fun s =>
    let '(p, vm, r) :=
      vmprovider.UpdateVirtualMachine VMProvider (provider s) (VM s) args in
    (r, {| VM := vm; provider := p;
           NumVMsBeingCreatedOnProvider := NumVMsBeingCreatedOnProvider s |},
     [ProviderUpdateVirtualMachine args r]).

Definition DeleteVirtualMachine : Call St (option error) :=
  fun s =>
    let '(p, vm, r) :=
      vmprovider.DeleteVirtualMachine VMProvider (provider s) (VM s) in
    (r, {| VM := vm; provider := p;
           NumVMsBeingCreatedOnProvider := NumVMsBeingCreatedOnProvider s |},
     [ProviderDeleteVirtualMachine r]).

Definition IsVirtualMachineSetResourcePolicyReady (zone : string)
    (rp : VirtualMachineSetResourcePolicy) : Call St (result bool) :=
  fun s =>
    let '(p, r) :=
      vmprovider.IsVirtualMachineSetResourcePolicyReady VMProvider (provider s) zone rp in
    (r, {| VM := VM s; provider := p;
           NumVMsBeingCreatedOnProvider := NumVMsBeingCreatedOnProvider s |},
     [ProviderIsResourcePolicyReady r]).

(** [conditions.MarkFalse(ctx.VM, ...)] and [conditions.MarkTrue]. *)
Definition MarkFalse {R} (t reason : string) (severity : ConditionSeverity)
    (message : string) : M St R unit :=
  updateVM (fun vm => conditions.MarkFalse vm t reason severity message).

Definition MarkTrue {R} (t : string) : M St R unit :=
  updateVM (fun vm => conditions.MarkTrue vm t).

(** [requeueDelay]. *)
Definition requeueDelay (vm : VirtualMachine) : Duration :=
  if phase_eqb (Phase (Status vm)) Creating then 10 * Second
  else if String.eqb (VmIp (Status vm)) ""
          && power_eqb (PowerState (Status vm)) VirtualMachinePoweredOn
  then 10 * Second
  else 0.

(** [deleteVM]; the deferred event sees the error the function returns. *)
Definition deleteVM : Call St (option error) :=
  func (
    defer (fun err s => (err, s, [RecorderEmitEvent "Delete" err])) ;;
    err <- call (R:=option error) DeleteVirtualMachine ;;
    match err with
    | Some e =>
        if IsNotFound e then return_ None else return_ (Some e)
    | None => next tt
    end ;;
    return_ None).

(** [ReconcileDelete]. *)
Definition ReconcileDelete : Call St (option error) :=
  func (
    hasFinalizer <- gets (fun s =>
      controllerutil.ContainsFinalizer (vmMeta (VM s)) finalizerName) ;;
    when hasFinalizer (
      updateVM (fun vm => set_Phase vm Deleting) ;;
      err <- call deleteVM ;;
      match err with
      | Some e => return_ (Some e)
      | None => next tt
      end ;;
      updateVM (fun vm => set_Phase vm Deleted) ;;
      updateVM (fun vm =>
        set_vmMeta vm (controllerutil.RemoveFinalizer (vmMeta vm) finalizerName))) ;;
    vm <- gets (@VM P) ;;
    emit (ProberRemove (NamespacedName (vmMeta vm))) ;;
    return_ None).

(** [getStoragePolicyID]. *)
Definition getStoragePolicyID : Call St (result string) :=
  func (
    scName <- gets (fun s => StorageClass (Spec (VM s))) ;;
    when (String.eqb scName "") (return_ (Ok "")) ;;
    r <- call (Get "StorageClass" (client.GetStorageClass c)
                 {| keyNamespace := ""; keyName := scName |}) ;;
    match r with
    | Err err => return_ (Err err)
    | Ok sc => return_ (Ok (index (Parameters sc) "storagePolicyID"))
    end).

(** [getContentLibraryProviderFromImage]: the first owner reference of
    kind ContentLibraryProvider decides. *)
Definition getContentLibraryProviderFromImage (image : VirtualMachineImage)
  : Call St (result ContentLibraryProvider) :=
  func (
    match find (fun ownerRef => String.eqb (ownerKind ownerRef) "ContentLibraryProvider")
               (OwnerReferences (imageMeta image)) with
    | Some ownerRef =>
        r <- call (Get "ContentLibraryProvider" (client.GetContentLibraryProvider c)
                     {| keyNamespace := ""; keyName := ownerName ownerRef |}) ;;
        match r with
        | Err err => return_ (Err err)
        | Ok clProvider => return_ (Ok clProvider)
        end
    | None =>
        return_ (Err (Errorf
          ("VirtualMachineImage does not have an OwnerReference to the ContentLibraryProvider. imageName: "
           ++ Name (imageMeta image))%string))
    end).

(** [getContentSourceFromCLProvider]. *)
Definition getContentSourceFromCLProvider (clProvider : ContentLibraryProvider)
  : Call St (result ContentSource) :=
  func (
    match find (fun ownerRef => String.eqb (ownerKind ownerRef) "ContentSource")
               (OwnerReferences (clpMeta clProvider)) with
    | Some ownerRef =>
        r <- call (Get "ContentSource" (client.GetContentSource c)
                     {| keyNamespace := ""; keyName := ownerName ownerRef |}) ;;
        match r with
        | Err err => return_ (Err err)
        | Ok cs => return_ (Ok cs)
        end
    | None =>
        return_ (Err (Errorf
          ("ContentLibraryProvider does not have an OwnerReference to the ContentSource. clProviderName: "
           ++ Name (clpMeta clProvider))%string))
    end).

(** [getImageAndContentLibraryUUID]. *)
Definition getImageAndContentLibraryUUID
  : Call St (result (VirtualMachineImage * string)) :=
  func (
    vm <- gets (@VM P) ;;
    let imageName := ImageName (Spec vm) in
    r <- call (Get "VirtualMachineImage" (client.GetVirtualMachineImage c)
                 {| keyNamespace := ""; keyName := imageName |}) ;;
    vmImage <- match r with
               | Err err =>
                   let msg := ("Failed to get VirtualMachineImage " ++ ImageName (Spec vm)
                               ++ ": " ++ Error err)%string in
                   MarkFalse VirtualMachinePrereqReadyCondition
                             VirtualMachineImageNotFoundReason
                             ConditionSeverityError msg ;;
                   return_ (Err err)
               | Ok vmImage => next vmImage
               end ;;
    r <- call (getContentLibraryProviderFromImage vmImage) ;;
    clProvider <- match r with
                  | Err err => return_ (Err err)
                  | Ok clProvider => next clProvider
                  end ;;
    let clUUID := clpUUID clProvider in
    when (IsVMServiceFSSEnabled imports) (
      r <- call (getContentSourceFromCLProvider clProvider) ;;
      contentSource <- match r with
                       | Err err => return_ (Err err)
                       | Ok contentSource => next contentSource
                       end ;;
      r <- call (List_ "ContentSourceBinding" (client.ListContentSourceBindings c)
                   (Namespace (vmMeta vm))) ;;
      csBindingList <- match r with
                       | Err err =>
                           let msg := ("Failed to list ContentSourceBindings in namespace: "
                                       ++ Namespace (vmMeta vm))%string in
                           MarkFalse VirtualMachinePrereqReadyCondition
                                     ContentSourceBindingNotFoundReason
                                     ConditionSeverityError msg ;;
                           return_ (Err (Wrap err msg))
                       | Ok items => next items
                       end ;;
      let matchingContentSourceBinding :=
        existsb (fun csBinding =>
                   String.eqb (refKind (ContentSourceRef csBinding)) "ContentSource"
                   && String.eqb (refName (ContentSourceRef csBinding))
                                 (Name (csMeta contentSource)))
                csBindingList in
      when (negb matchingContentSourceBinding) (
        let msg := ("Namespace does not have access to VirtualMachineImage. imageName: "
                    ++ ImageName (Spec vm) ++ ", contentLibraryUUID: " ++ clUUID
                    ++ ", namespace: " ++ Namespace (vmMeta vm))%string in
        MarkFalse VirtualMachinePrereqReadyCondition
                  ContentSourceBindingNotFoundReason
                  ConditionSeverityError msg ;;
        return_ (Err (Errorf msg)))) ;;
    return_ (Ok (vmImage, clUUID))).

(** [getVMClass]. *)
Definition getVMClass : Call St (result VirtualMachineClass) :=
  func (
    vm <- gets (@VM P) ;;
    let className := ClassName (Spec vm) in
    r <- call (Get "VirtualMachineClass" (client.GetVirtualMachineClass c)
                 {| keyNamespace := ""; keyName := className |}) ;;
    vmClass <- match r with
               | Err err =>
                   let msg := ("Failed to get VirtualMachineClass " ++ ClassName (Spec vm)
                               ++ ": " ++ Error err)%string in
                   MarkFalse VirtualMachinePrereqReadyCondition
                             VirtualMachineClassNotFoundReason
                             ConditionSeverityError msg ;;
                   return_ (Err err)
               | Ok vmClass => next vmClass
               end ;;
    when (IsVMServiceFSSEnabled imports) (
      r <- call (List_ "VirtualMachineClassBinding"
                   (client.ListVirtualMachineClassBindings c) (Namespace (vmMeta vm))) ;;
      classBindingList <- match r with
                          | Err err =>
                              let msg := ("Failed to list VirtualMachineClassBindings in namespace: "
                                          ++ Namespace (vmMeta vm))%string in
                              MarkFalse VirtualMachinePrereqReadyCondition
                                        VirtualMachineClassBindingNotFoundReason
                                        ConditionSeverityError msg ;;
                              return_ (Err (Wrap err msg))
                          | Ok items => next items
                          end ;;
      let matchingClassBinding :=
        existsb (fun classBinding =>
                   String.eqb (refKind (ClassRef classBinding)) "VirtualMachineClass"
                   && String.eqb (refName (ClassRef classBinding)) className)
                classBindingList in
      when (negb matchingClassBinding) (
        let msg := ("Namespace does not have access to VirtualMachineClass. className: "
                    ++ ClassName (Spec vm) ++ ", namespace: "
                    ++ Namespace (vmMeta vm))%string in
        MarkFalse VirtualMachinePrereqReadyCondition
                  VirtualMachineClassBindingNotFoundReason
                  ConditionSeverityError msg ;;
        return_ (Err (Errorf
          ("VirtualMachineClassBinding does not exist for VM Class " ++ className
           ++ " in namespace " ++ Namespace (vmMeta vm))%string)))) ;;
    return_ (Ok vmClass)).

(** [getVMMetadata]. *)
Definition getVMMetadata : Call St (result VMMetadata) :=
  func (
    vm <- gets (@VM P) ;;
    let outMetadata := {| mdData := []; mdTransport := "" |} in
    match VmMetadata (Spec vm) with
    | None => return_ (Ok outMetadata)
    | Some inMetadata =>
        when (negb (String.eqb (ConfigMapName inMetadata) "")
              && negb (String.eqb (SecretName inMetadata) "")) (
          return_ (Err (Errorf
            "failed to get VM metadata. Both configMapName and secretName are specified"))) ;;
        data <- (if negb (String.eqb (ConfigMapName inMetadata) "") then
                   r <- call (Get "ConfigMap" (client.GetConfigMap c)
                                {| keyNamespace := Namespace (vmMeta vm);
                                   keyName := ConfigMapName inMetadata |}) ;;
                   match r with
                   | Err err => return_ (Err err)
                   | Ok vmMetadataConfigMap => next (cmData vmMetadataConfigMap)
                   end
                 else next (mdData outMetadata)) ;;
        data <- (if negb (String.eqb (SecretName inMetadata) "") then
                   r <- call (Get "Secret" (client.GetSecret c)
                                {| keyNamespace := Namespace (vmMeta vm);
                                   keyName := SecretName inMetadata |}) ;;
                   match r with
                   | Err err => return_ (Err err)
                   | Ok vmMetadataSecret => next (secretData vmMetadataSecret)
                   end
                 else next data) ;;
        return_ (Ok {| mdData := data; mdTransport := Transport inMetadata |})
    end).

(** [getResourcePolicy]. *)
Definition getResourcePolicy
  : Call St (result (option VirtualMachineSetResourcePolicy)) :=
  func (
    vm <- gets (@VM P) ;;
    let rpName := ResourcePolicyName (Spec vm) in
    when (String.eqb rpName "") (return_ (Ok None)) ;;
    r <- call (Get "VirtualMachineSetResourcePolicy"
                 (client.GetVirtualMachineSetResourcePolicy c)
                 {| keyNamespace := Namespace (vmMeta vm); keyName := rpName |}) ;;
    resourcePolicy <- match r with
                      | Err err => return_ (Err err)
                      | Ok resourcePolicy => next resourcePolicy
                      end ;;
    r <- call (IsVirtualMachineSetResourcePolicyReady
                 (index (Labels (vmMeta vm)) (KubernetesTopologyZoneLabelKey imports))
                 resourcePolicy) ;;
    rpReady <- match r with
               | Err err => return_ (Err err)
               | Ok rpReady => next rpReady
               end ;;
    when (negb rpReady) (
      return_ (Err (Errorf "VirtualMachineSetResourcePolicy is not yet ready"))) ;;
    return_ (Ok (Some resourcePolicy))).

(** [findInstanceStorageVMPlacementStatus]. *)
Definition findInstanceStorageVMPlacementStatus (vm : VirtualMachine) : bool :=
  if negb (IsConfigured imports vm) then true
  else match lookup (InstanceStoragePVCsBoundAnnotationKey imports)
                    (Annotations (vmMeta vm)) with
       | None => false
       | Some _ => true
       end.

(** The loop of [addInstanceStorageSpec]: one claim per instance volume of
    the class, named by a fresh UUID; [n] counts the UUIDs asked for. *)
Fixpoint instanceStoragePVCs (n : nat) (storageClass : string)
    (volumes : list InstanceStorageVolume) (pvcs : list VirtualMachineVolume)
  : result (list VirtualMachineVolume) :=
  match volumes with
  | [] => Ok pvcs
  | isv :: volumes' =>
      match NewUUID imports n with
      | Err err => Err err
      | Ok uuid =>
          let pvcName := (InstanceStoragePVCNamePrefix imports ++ uuid)%string in
          let vmv :=
            {| volName := pvcName;
               PersistentVolumeClaim :=
                 Some {| ClaimName := pvcName;
                         ReadOnly := false;
                         InstanceVolumeClaim :=
                           Some {| ivcStorageClass := storageClass;
                                   ivcSize := isvSize isv |} |} |} in
          instanceStoragePVCs (S n) storageClass volumes' (pvcs ++ [vmv])
      end
  end.

(** [addInstanceStorageSpec]. *)
Definition addInstanceStorageSpec (instanceStorage : InstanceStorage)
  : Call St (option error) :=
  func (
    match instanceStoragePVCs 0 (isStorageClass instanceStorage)
                              (isVolumes instanceStorage) [] with
    | Err err => return_ (Some err)
    | Ok pvcs =>
        updateVM (fun vm => set_Volumes vm (Volumes (Spec vm) ++ pvcs)) ;;
        return_ None
    end).

(** [reconcileInstanceStorageSpec]. *)
Definition reconcileInstanceStorageSpec (vmClass : VirtualMachineClass)
  : Call St (option error) :=
  func (
    when (negb (IsInstanceStorageFSSEnabled imports)) (return_ None) ;;
    vm <- gets (@VM P) ;;
    when (phase_eqb (Phase (Status vm)) Created) (return_ None) ;;
    when (IsConfigured imports vm) (return_ None) ;;
    let instanceStorage := classInstanceStorage vmClass in
    when (Nat.eqb (List.length (isVolumes instanceStorage)) 0) (return_ None) ;;
    err <- call (addInstanceStorageSpec instanceStorage) ;;
    return_ err).

(** [createOrUpdateVM]. *)
Definition createOrUpdateVM : Call St (option error) :=
  func (
    r <- call getVMClass ;;
    vmClass <- match r with
               | Err err => return_ (Some err)
               | Ok vmClass => next vmClass
               end ;;
    err <- call (reconcileInstanceStorageSpec vmClass) ;;
    match err with
    | Some err => return_ (Some err)
    | None => next tt
    end ;;
    r <- call getImageAndContentLibraryUUID ;;
    '(vmImage, clUUID) <- match r with
                          | Err err => return_ (Some err)
                          | Ok x => next x
                          end ;;
    r <- call getVMMetadata ;;
    vmMetadata <- match r with
                  | Err err => return_ (Some err)
                  | Ok vmMetadata => next vmMetadata
                  end ;;
    r <- call getResourcePolicy ;;
    resourcePolicy <- match r with
                      | Err err => return_ (Some err)
                      | Ok resourcePolicy => next resourcePolicy
                      end ;;
    r <- call getStoragePolicyID ;;
    storagePolicyID <- match r with
                       | Err err => return_ (Some err)
                       | Ok storagePolicyID => next storagePolicyID
                       end ;;
    MarkTrue VirtualMachinePrereqReadyCondition ;;
    let vmConfigArgs :=
      {| argVMClass := vmClass;
         argVMImage := vmImage;
         argVMMetadata := vmMetadata;
         argResourcePolicy := resourcePolicy;
         argStorageProfileID := storagePolicyID;
         argContentLibraryUUID := clUUID |} in
    r <- call DoesVirtualMachineExist ;;
    exists_ <- match r with
               | Err err => return_ (Some err)
               | Ok exists_ => next exists_
               end ;;
    when (negb exists_) (
      updateVM (fun vm => set_Phase vm Creating) ;;
      num <- gets (@NumVMsBeingCreatedOnProvider P) ;;
      when (num >=? MaxConcurrentCreateVMsOnProvider) (return_ None) ;;
      modify (setNumVMsBeingCreatedOnProvider (wrap_int (num + 1))) ;;
      defer (fun ret s =>
               (ret,
                setNumVMsBeingCreatedOnProvider
                  (wrap_int (NumVMsBeingCreatedOnProvider s - 1)) s,
                [])) ;;
      match resourcePolicy with
      | Some rp =>
          when (negb (IsZero (DeletionTimestamp (rpMeta rp)))) (
            let err :=
              Errorf "cannot create VirtualMachine with its resource policy in DELETING state" in
            emit (RecorderEmitEvent "Create" (Some err)) ;;
            return_ (Some err))
      | None => next tt
      end ;;
      err <- call (CreateVirtualMachine vmConfigArgs) ;;
      match err with
      | Some err =>
          emit (RecorderEmitEvent "Create" (Some err)) ;;
          return_ (Some err)
      | None => next tt
      end) ;;
    when (IsInstanceStorageFSSEnabled imports) (
      vm <- gets (@VM P) ;;
      when (negb (findInstanceStorageVMPlacementStatus vm)) (return_ None)) ;;
    updateVM (fun vm => set_Phase vm Created) ;;
    err <- call (UpdateVirtualMachine vmConfigArgs) ;;
    match err with
    | Some err =>
        emit (RecorderEmitEvent "Update" (Some err)) ;;
        return_ (Some err)
    | None => next tt
    end ;;
    return_ None).

(** [ReconcileNormal].  Its deferred closure only writes to the log. *)
Definition ReconcileNormal : Call St (option error) :=
  func (
    hasFinalizer <- gets (fun s =>
      controllerutil.ContainsFinalizer (vmMeta (VM s)) finalizerName) ;;
    when (negb hasFinalizer) (
      updateVM (fun vm =>
        set_vmMeta vm (controllerutil.AddFinalizer (vmMeta vm) finalizerName)) ;;
      return_ None) ;;
    err <- call createOrUpdateVM ;;
    match err with
    | Some err => return_ (Some err)
    | None => next tt
    end ;;
    vm <- gets (@VM P) ;;
    emit (ProberAdd (NamespacedName (vmMeta vm))) ;;
    return_ None).

(** [Reconcile].  The patch helper is created on the object as read; the
    deferred patch writes the object as the pass left it and its error is
    returned when the pass had none.  The context's [String()] in the
    message of a failing helper is rendered as namespace/name. *)
Definition Reconcile (req : ObjectKey) : Call St (ctrl.Result * option error) :=
  func (
    updateVM (fun _ => emptyVM) ;;
    r <- call (Get "VirtualMachine" (client.GetVirtualMachine c) req) ;;
    vm <- match r with
          | Err err => return_ (ctrl.emptyResult, IgnoreNotFound err)
          | Ok vm => next vm
          end ;;
    updateVM (fun _ => vm) ;;
    match lookup (PauseAnnotation imports) (Annotations (vmMeta vm)) with
    | Some _ => return_ (ctrl.emptyResult, None)
    | None => next tt
    end ;;
    match client.NewHelper c vm with
    | Some err =>
        return_ (ctrl.emptyResult,
                 Some (Wrap err ("failed to init patch helper for "
                                 ++ NamespacedName (vmMeta vm))%string))
    | None => next tt
    end ;;
    defer (fun ret s =>
             let err := client.Patch c vm (VM s) in
             (match err, snd ret with
              | Some err, None => (fst ret, Some err)
              | _, _ => ret
              end, s, [PatchHelperPatch (VM s) err])) ;;
    when (negb (IsZero (DeletionTimestamp (vmMeta vm)))) (
      err <- call ReconcileDelete ;;
      return_ (ctrl.emptyResult, err)) ;;
    err <- call ReconcileNormal ;;
    match err with
    | Some err => return_ (ctrl.emptyResult, Some err)
    | None => next tt
    end ;;
    vm <- gets (@VM P) ;;
    return_ ({| ctrl.Requeue := false; ctrl.RequeueAfter := requeueDelay vm |}, None)).

End Reconciler.
End virtualmachine.


(** * The endpoints of a VirtualMachineService *)

Module virtualmachineservice.

Definition ServiceOwnerRefKind := "VirtualMachineService".
Definition ServiceOwnerRefVersion := "vmoperator.vmware.com/v1alpha1".

Definition defaultConnectTimeout : Duration := Second * 10.

Definition probeFailureRequeueTime : Duration := Second * 10.

(** [RequeueAfterError]: an error that asks for the object to be requeued
    after a while. *)
Record RequeueAfterError := {
  RequeueAfter : Duration
}.

Definition GetRequeueAfter (e : RequeueAfterError) : Duration := RequeueAfter e.

(** The errors this controller passes around: its own [*RequeueAfterError]
    or any other error. *)
Inductive goerror :=
| IsRequeueAfterError (e : RequeueAfterError)
| IsError (e : error).

Section Reconciler.
Variable c : client.Client.

(** [net.DialTimeout] followed by closing the connection: the error of
    either, for a protocol, an address and a timeout. *)
Variable dial : string -> string -> Duration -> option error.

(** [pkg.AddAnnotations], which is not among the sources. *)
Variable AddAnnotations : ObjectMeta -> ObjectMeta.

Local Abbreviation St := unit.

(** [MakeObjectMeta]. *)
Definition MakeObjectMeta (vmService : VirtualMachineService) : ObjectMeta :=
  AddAnnotations
    {| Name := Name (vmsMeta vmService);
       Namespace := Namespace (vmsMeta vmService);
       UID := ""; ResourceVersion := "";
       Labels := Labels (vmsMeta vmService);
       Annotations := Annotations (vmsMeta vmService);
       OwnerReferences :=
         [{| ownerKind := ServiceOwnerRefKind;
             ownerName := Name (vmsMeta vmService);
             ownerUID := UID (vmsMeta vmService) |}];
       Finalizers := []; DeletionTimestamp := None |}.

(** [makeEndpoints]. *)
Definition makeEndpoints (vmService : VirtualMachineService)
    (currentEndpoints : Endpoints) (subsets : list EndpointSubset) : Endpoints :=
  {| epMeta := MakeObjectMeta vmService; Subsets := subsets |}.

(** [makeEndpointAddress]. *)
Definition makeEndpointAddress (vmService : VirtualMachineService)
    (vm : VirtualMachine) : EndpointAddress :=
  {| epaIP := VmIp (Status vm);
     epaTargetRef :=
       Some {| orAPIVersion := vmsAPIVersion vmService;
               orKind := vmsKind vmService;
               orNamespace := Namespace (vmsMeta vmService);
               orName := Name (vmsMeta vmService);
               orUID := UID (vmsMeta vmService);
               orResourceVersion := ResourceVersion (vmsMeta vmService) |} |}.

(** [findPort]. *)
Definition findPort (vm : VirtualMachine) (portName : IntOrString)
    (portProto : string) : result Z :=
  match portName with
  | FromString name =>
      match find (fun port => String.eqb (vmPortName port) name
                              && String.eqb (vmPortProtocol port) portProto)
                 (Ports (Spec vm)) with
      | Some port => Ok (vmPortPort port)
      | None => Err (Errorf ("no suitable port for manifest: " ++ UID (vmMeta vm))%string)
      end
  | FromInt i => Ok i
  end.

(** [addEndpointSubset], called with a port. *)
Definition addEndpointSubset (subsets : list EndpointSubset)
    (epa : EndpointAddress) (epp : option EndpointPort) : list EndpointSubset :=
  let ports := match epp with Some p => [p] | None => [] end in
  subsets ++ [{| Addresses := [epa]; epsPorts := ports |}].

(** [net.JoinHostPort]: a host with a colon or a percent sign goes between
    brackets. *)
Fixpoint has_colon_or_percent (s : string) : bool :=
  match s with
  | EmptyString => false
  | String a s' =>
      Ascii.eqb a ":"%char || Ascii.eqb a "%"%char || has_colon_or_percent s'
  end.

Definition JoinHostPort (host port : string) : string :=
  if has_colon_or_percent host then ("[" ++ host ++ "]:" ++ port)%string
  else (host ++ ":" ++ port)%string.

(** [strconv.Itoa]. *)
Definition Itoa (n : Z) : string := NilZero.string_of_int (Z.to_int n).

(** [checkConnection]. *)
Definition checkConnection (proto host port : string) (timeout : Duration)
  : Call St (option error) :=
  fun s =>
    let address := JoinHostPort host port in
    (dial proto address timeout, s, [DialTimeout proto host port timeout]).

(** [runProbe]. *)
Definition runProbe (vmService : VirtualMachineService) (vm : VirtualMachine)
    (p : option Probe) : Call St (option error) :=
  func (
    match p with
    | None => return_ None
    | Some p =>
        match TCPSocket p with
        | Some tcp =>
            let portProto := "TCP" in
            portNum <- match findPort vm (tcpPort tcp) portProto with
                       | Err err => return_ (Some err)
                       | Ok portNum => next portNum
                       end ;;
            let host := if negb (String.eqb (tcpHost tcp) "") then tcpHost tcp
                        else VmIp (Status vm) in
            let timeout := if TimeoutSeconds p <=? 0 then defaultConnectTimeout
                           else TimeoutSeconds p * Second in
            err <- call (checkConnection "tcp" host (Itoa portNum) timeout) ;;
            match err with
            | Some err => return_ (Some err)
            | None => next tt
            end ;;
            return_ None
        | None =>
            return_ (Some (Errorf
              ("unknown action specified for probe in VirtualMachine "
               ++ NamespacedName (vmMeta vm))%string))
        end
    end).

(** The inner loop of [updateEndpoints]: one subset per service port whose
    target port the VirtualMachine has. *)
Fixpoint portSubsets (vm : VirtualMachine) (epa : EndpointAddress)
    (ports : list ServicePort) (subsets : list EndpointSubset)
  : list EndpointSubset :=
  match ports with
  | [] => subsets
  | servicePort :: ports' =>
      let portName := spName servicePort in
      let portProto := spProtocol servicePort in
      match findPort vm (spTargetPort servicePort) portProto with
      | Err _ => portSubsets vm epa ports' subsets
      | Ok portNum =>
          let epp := {| eppName := portName;
                        eppPort := (portNum + 2 ^ 31) mod 2 ^ 32 - 2 ^ 31;
                        eppProtocol := portProto |} in
          portSubsets vm epa ports' (addEndpointSubset subsets epa (Some epp))
      end
  end.

(** The outer loop of [updateEndpoints], over the selected
    VirtualMachines, with its two accumulators. *)
Fixpoint selectEndpoints (vmService : VirtualMachineService) (service : Service)
    (items : list VirtualMachine) (probeFailureCount : Z)
    (subsets : list EndpointSubset) : Call St (Z * list EndpointSubset) :=
  match items with
  | [] => fun s => ((probeFailureCount, subsets), s, [])
  | vm :: items' =>
      let continue := selectEndpoints vmService service items' in
      match DeletionTimestamp (vmMeta vm) with
      | Some _ => continue probeFailureCount subsets
      | None =>
          if Nat.eqb (String.length (VmIp (Status vm))) 0 then
            continue probeFailureCount subsets
          else if String.eqb (Host (Status vm)) "" then
            continue probeFailureCount subsets
          else
            fun s =>
              let '(err, s1, l1) :=
                runProbe vmService vm (ReadinessProbe (Spec vm)) s in
              let '(r, s2, l2) :=
                match err with
                | Some _ => continue (wrap_int (probeFailureCount + 1)) subsets s1
                | None =>
                    let epa := makeEndpointAddress vmService vm in
                    continue probeFailureCount
                             (portSubsets vm epa (svcPorts service) subsets) s1
                end in
              (r, s2, l1 ++ l2)
      end
  end.

Definition EndpointSubset_eq_dec (a b : EndpointSubset) : {a = b} + {a <> b}.
Proof.
  repeat decide equality; try apply string_dec; try apply Z.eq_dec.
Defined.

(** [apiequality.Semantic.DeepEqual] on two lists of subsets; a nil slice
    and an empty one are equal. *)
Definition DeepEqual (a b : list EndpointSubset) : bool :=
  if list_eq_dec EndpointSubset_eq_dec a b then true else false.

(** [updateEndpoints]. *)
Definition updateEndpoints (vmService : VirtualMachineService) (service : Service)
  : Call St (option goerror) :=
  func (
    r <- call (fun s =>
                 (client.ListVirtualMachines c (Namespace (vmsMeta vmService))
                                             (vmsSelector vmService),
                  s, [ClientList "VirtualMachine" (Namespace (vmsMeta vmService))])) ;;
    vmList <- match r with
              | Err err => return_ (Some (IsError err))
              | Ok items => next items
              end ;;
    '(probeFailureCount, subsets) <-
      call (selectEndpoints vmService service vmList 0 []) ;;
    let updateErr :=
      if (probeFailureCount >? 0)
         && (probeFailureCount =? Z.of_nat (List.length vmList))
      then Some (IsRequeueAfterError {| RequeueAfter := probeFailureRequeueTime |})
      else None in
    let key := {| keyNamespace := Namespace (svcMeta service);
                  keyName := Name (svcMeta service) |} in
    r <- call (fun s => (client.GetEndpoints c key, s, [ClientGet "Endpoints" key])) ;;
    currentEndpoints <-
      match r with
      | Err err =>
          when (negb (IsNotFound err)) (return_ (Some (IsError err))) ;;
          next {| epMeta := {| Name := Name (svcMeta service); Namespace := "";
                               UID := ""; ResourceVersion := "";
                               Labels := Labels (svcMeta service);
                               Annotations := []; OwnerReferences := [];
                               Finalizers := []; DeletionTimestamp := None |};
                  Subsets := [] |}
      | Ok currentEndpoints =>
          when (DeepEqual (Subsets currentEndpoints) subsets) (return_ updateErr) ;;
          next currentEndpoints
      end ;;
    let newEndpoints := makeEndpoints vmService currentEndpoints subsets in
    let createEndpoints :=
      Nat.eqb (String.length (ResourceVersion (epMeta currentEndpoints))) 0 in
    err <- (if createEndpoints then
              call (fun s => (client.CreateEndpoints c newEndpoints, s,
                              [ClientCreateEndpoints newEndpoints
                                 (client.CreateEndpoints c newEndpoints)]))
            else
              call (fun s => (client.UpdateEndpoints c newEndpoints, s,
                              [ClientUpdateEndpoints newEndpoints
                                 (client.UpdateEndpoints c newEndpoints)]))) ;;
    match err with
    | Some err => return_ (Some (IsError err))
    | None => next tt
    end ;;
    return_ updateErr).

(** The end of [Reconcile]: what the error of [reconcileVmService], which
    hands on the one of [updateEndpoints], becomes. *)
Definition reconcileResult (err : option goerror)
  : ctrl.Result * option goerror :=
  match err with
  | Some (IsRequeueAfterError requeueErr) =>
      ({| ctrl.Requeue := false;
          ctrl.RequeueAfter := GetRequeueAfter requeueErr |}, None)
  | Some err => (ctrl.emptyResult, Some err)
  | None => (ctrl.emptyResult, None)
  end.

End Reconciler.
End virtualmachineservice.

(** * The watches of the VirtualMachine controller

    [AddToManager] has the controller watch the class bindings and the
    content source bindings; an event on one of them is mapped to reconcile
    requests for VirtualMachines.  The two mappers only read the API
    server. *)
Module watches.

Section Mappers.
Variable c : client.Client.

(** [contentSource.Spec.ProviderRef]; [ContentSource] above keeps the
    metadata only. *)
Variable ProviderRef : ContentSource -> ObjectRef.

(** [c.List(ctx, imageList)]: the images of the cluster. *)
Variable ListVirtualMachineImages : result (list VirtualMachineImage).

Local Abbreviation St := unit.





End Mappers.
End watches.

(** * The VirtualMachineService controller, from the request to the status

    The rest of package [virtualmachineservice]: [Reconcile] with the
    finalizer, the load balancer, the translation of a
    VirtualMachineService into a Service, and the status.  The objects
    above keep what the endpoints need; the records here add the fields
    that this part reads and writes. *)
Module servicecontroller.
Import virtualmachineservice.

Definition finalizerName := "virtualmachineservice.vmoperator.vmware.com".

Definition OpCreate := "CreateVMService".
Definition OpDelete := "DeleteVMService".
Definition OpUpdate := "UpdateVMService".

(** [corev1.LastAppliedConfigAnnotation]. *)
Definition LastAppliedConfigAnnotation := "kubectl.kubernetes.io/last-applied-configuration".

(** [LoadBalancerIngress], of the same shape in [corev1] and in the API of
    the operator. *)
Record LoadBalancerIngress := {
  IP : string;
  Hostname : string
}.

Record VirtualMachineServicePort := {
  vmspName : string;
  vmspProtocol : string;
  vmspPort : Z;
  vmspTargetPort : Z
}.

(** A VirtualMachineService whole: [vmsObject] is the part above, the rest
    is [Spec.Type], [Spec.Ports], [Spec.ExternalName], [Spec.ClusterIP] and
    [Status.LoadBalancer.Ingress]. *)
Record VMService := {
  vmsObject : VirtualMachineService;
  vmsType : string;
  vmsPorts : list VirtualMachineServicePort;
  vmsExternalName : string;
  vmsClusterIP : string;
  vmsIngress : list LoadBalancerIngress
}.

(** A [corev1.Service] whole: [svcObject] is the part above, the rest is
    [Spec.Type], [Spec.ExternalName], [Spec.ClusterIP] and
    [Status.LoadBalancer.Ingress]. *)
Record K8sService := {
  svcObject : Service;
  svcType : string;
  svcExternalName : string;
  svcClusterIP : string;
  svcIngress : list LoadBalancerIngress
}.

Definition set_vmsMeta (vmService : VMService) (om : ObjectMeta) : VMService :=
  {| vmsObject := {| vmsMeta := om;
                     vmsAPIVersion := vmsAPIVersion (vmsObject vmService);
                     vmsKind := vmsKind (vmsObject vmService);
                     vmsSelector := vmsSelector (vmsObject vmService) |};
     vmsType := vmsType vmService; vmsPorts := vmsPorts vmService;
     vmsExternalName := vmsExternalName vmService;
     vmsClusterIP := vmsClusterIP vmService;
     vmsIngress := vmsIngress vmService |}.

Definition set_vmsIngress (vmService : VMService) (ingress : list LoadBalancerIngress)
  : VMService :=
  {| vmsObject := vmsObject vmService;
     vmsType := vmsType vmService; vmsPorts := vmsPorts vmService;
     vmsExternalName := vmsExternalName vmService;
     vmsClusterIP := vmsClusterIP vmService;
     vmsIngress := ingress |}.

Definition set_Labels (om : ObjectMeta) (labels : StringMap) : ObjectMeta :=
  {| Name := Name om; Namespace := Namespace om; UID := UID om;
     ResourceVersion := ResourceVersion om; Labels := labels;
     Annotations := Annotations om; OwnerReferences := OwnerReferences om;
     Finalizers := Finalizers om; DeletionTimestamp := DeletionTimestamp om |}.

Definition set_NodePort (servicePort : ServicePort) (nodePort : Z) : ServicePort :=
  {| spName := spName servicePort; spProtocol := spProtocol servicePort;
     spPort := spPort servicePort; spTargetPort := spTargetPort servicePort;
     spNodePort := nodePort |}.

(** ** What a pass does to the outside

    The calls of this part of the controller, in order; [Earlier] is a call
    of one of the kinds above. *)
Inductive Step :=
| Earlier (e : Event)
| ClientUpdateVirtualMachineService (vmService : VMService) (r : option error)
| ClientStatusUpdate (vmService : VMService) (r : option error)
| ClientCreateService (service : K8sService) (r : option error)
| ClientUpdateService (service : K8sService) (r : option error)
| ProviderGetNetworkName (r : result string)
| ProviderEnsureLoadBalancer (virtualNetworkName : string) (r : option error).

(** The part of [client.Client] that reads and writes VirtualMachineServices
    and Services.  A write hands back the object as the API server returned
    it. *)
Record Client := {
  GetVirtualMachineService : ObjectKey -> result VMService;
  ListVirtualMachineServices : string -> result (list VMService);
  UpdateVirtualMachineService : VMService -> VMService * option error;
  StatusUpdate : VMService -> VMService * option error;
  GetService : ObjectKey -> result K8sService;
  CreateService : K8sService -> K8sService * option error;
  UpdateService : K8sService -> K8sService * option error
}.

(** [providers.LoadbalancerProvider].  The VirtualMachineService is passed
    by pointer. *)
Record LoadbalancerProvider := {
  GetNetworkName : list VirtualMachine -> VMService -> result string;
  EnsureLoadBalancer : VMService -> string -> VMService * option error
}.

Section Reconciler.
Variable c : client.Client.
Variable w : Client.
Variable loadbalancerProvider : LoadbalancerProvider.
Variable dial : string -> string -> Duration -> option error.

(** What the package imports from packages that are not among the sources:
    [pkg.AddAnnotations], [lib.ContainsString] and [lib.RemoveString],
    [utils.VMServiceCompareToLastApplied], the constant
    [VirtualMachineServiceTypeLoadBalancer] of the API, and [json.Marshal]
    on the two kinds of status. *)
Variable AddAnnotations : ObjectMeta -> ObjectMeta.
Variable ContainsString : list string -> string -> bool.
Variable RemoveString : list string -> string -> list string.
Variable VMServiceCompareToLastApplied : VMService -> string -> bool * option error.
Variable VirtualMachineServiceTypeLoadBalancer : string.
Variable MarshalVirtualMachineServiceStatus : list LoadBalancerIngress -> string.
Variable MarshalServiceStatus : list LoadBalancerIngress -> string.

(** The state of a pass is the sequence of the calls made so far. *)
Local Abbreviation St := (list Step).

Definition perform {R} (step : Step) : M St R unit :=
  modify (fun steps => steps ++ [step]).

(** A function of the part above, run as part of this one. *)
Definition lift {R A} (f : Call unit A) : M St R A :=
  fun steps =>
    let '(a, _, l) := f tt in
    (Next a, steps ++ map Earlier l, [], []).

(** [deleteVmService]; the error that the deferred event is given is the
    one at the time of the [defer], nil. *)
Definition deleteVmService (vmService : VMService) : Call St (option error) :=
  func (
    defer (fun ret steps =>
             (ret, steps ++ [Earlier (RecorderEmitEvent OpDelete None)], [])) ;;
    return_ None).

(** [getVirtualNetworkName]. *)
Definition getVirtualNetworkName (vmService : VMService) : Call St (result string) :=
  func (
    let namespace := Namespace (vmsMeta (vmsObject vmService)) in
    perform (Earlier (ClientList "VirtualMachine" namespace)) ;;
    match client.ListVirtualMachines c namespace (vmsSelector (vmsObject vmService)) with
    | Err err => return_ (Err err)
    | Ok items =>
        let r := GetNetworkName loadbalancerProvider items vmService in
        perform (ProviderGetNetworkName r) ;;
        return_ r
    end).

(** [vmServiceToService]. *)
Definition vmServiceToService (vmService : VMService) : K8sService :=
  let servicePorts :=
    map (fun vmPort =>
           {| spName := vmspName vmPort;
              spProtocol := vmspProtocol vmPort;
              spPort := vmspPort vmPort;
              spTargetPort := FromInt (vmspTargetPort vmPort);
              spNodePort := 0 |})
        (vmsPorts vmService) in
  {| svcObject := {| svcMeta := MakeObjectMeta AddAnnotations (vmsObject vmService);
                     svcPorts := servicePorts |};
     svcType := vmsType vmService;
     svcExternalName := vmsExternalName vmService;
     svcClusterIP := vmsClusterIP vmService;
     svcIngress := [] |}.

(** The first loop of [createOrUpdateService]: the map from the port of
    each port of the current Service to its node port; a later port with
    the same number overwrites an earlier one. *)
Definition portNodePortMap (ports : list ServicePort) : Z -> option Z :=
  fold_left (fun m servicePort =>
               fun port => if port =? spPort servicePort
                           then Some (spNodePort servicePort)
                           else m port)
            ports (fun _ => None).

(** The second loop: each port whose number is in the map gets the node
    port found there. *)
Definition keepNodePorts (m : Z -> option Z) (ports : list ServicePort)
  : list ServicePort :=
  map (fun servicePort =>
         match m (spPort servicePort) with
         | Some nodePort => set_NodePort servicePort nodePort
         | None => servicePort
         end)
      ports.

(** [createOrUpdateService].  The Service that the Go function returns
    next to an error is never looked at, so only one of the two is returned
    here.  The event of a create is deferred with the error of the create
    as its argument. *)
Definition createOrUpdateService (vmService : VMService) (service : K8sService)
  : Call St (result K8sService) :=
  func (
    let serviceKey := {| keyNamespace := Namespace (svcMeta (svcObject service));
                         keyName := Name (svcMeta (svcObject service)) |} in
    perform (Earlier (ClientGet "Service" serviceKey)) ;;
    currentService <-
      match GetService w serviceKey with
      | Err err =>
          when (negb (IsNotFound err)) (return_ (Err err)) ;;
          next service
      | Ok currentService =>
          let '(ok, _) :=
            VMServiceCompareToLastApplied vmService
              (index (Annotations (svcMeta (svcObject currentService)))
                     LastAppliedConfigAnnotation) in
          when ok (return_ (Ok currentService)) ;;
          next currentService
      end ;;
    let newService :=
      {| svcObject :=
           {| svcMeta :=
                AddAnnotations
                  (set_Labels (svcMeta (svcObject currentService))
                              (Labels (svcMeta (svcObject service))));
              svcPorts :=
                keepNodePorts (portNodePortMap (svcPorts (svcObject currentService)))
                              (svcPorts (svcObject service)) |};
         svcType := svcType service;
         svcExternalName := svcExternalName service;
         svcClusterIP := svcClusterIP currentService;
         svcIngress := svcIngress currentService |} in
    let createService :=
      Nat.eqb (String.length (ResourceVersion (svcMeta (svcObject currentService)))) 0 in
    if createService then
      let '(created, err) := CreateService w newService in
      perform (ClientCreateService newService err) ;;
      defer (fun ret steps =>
               (ret, steps ++ [Earlier (RecorderEmitEvent OpCreate err)], [])) ;;
      match err with
      | Some err => return_ (Err err)
      | None => return_ (Ok created)
      end
    else
      let '(updated, err) := UpdateService w newService in
      perform (ClientUpdateService newService err) ;;
      match err with
      | Some err => return_ (Err err)
      | None => return_ (Ok updated)
      end).

(** [updateVmServiceStatus]; as above, the object returned next to an error
    is not looked at. *)
Definition updateVmServiceStatus (vmService : VMService) (newService : K8sService)
  : Call St (result VMService) :=
  func (
    vmService <-
      (if String.eqb (vmsType vmService) VirtualMachineServiceTypeLoadBalancer
          && (0 <? Z.of_nat (List.length (svcIngress newService)))
       then
         let vmServiceStatusStr :=
           MarshalVirtualMachineServiceStatus (vmsIngress vmService) in
         let serviceStatusStr := MarshalServiceStatus (svcIngress newService) in
         if negb (String.eqb vmServiceStatusStr serviceStatusStr) then
           let vmService :=
             set_vmsIngress vmService
               (map (fun ingress => {| IP := IP ingress; Hostname := Hostname ingress |})
                    (svcIngress newService)) in
           let '(updated, err) := StatusUpdate w vmService in
           perform (ClientStatusUpdate vmService err) ;;
           match err with
           | Some err => return_ (Err err)
           | None => next updated
           end
         else next vmService
       else next vmService) ;;
    return_ (Ok (set_vmsMeta vmService
                   (AddAnnotations (vmsMeta (vmsObject vmService)))))).

(** [reconcileVmService].  Its error is that of [updateEndpoints] when the
    endpoints fail, so it may be a [RequeueAfterError]. *)
Definition reconcileVmService (vmService : VMService) : Call St (option goerror) :=
  func (
    vmService <-
      (if String.eqb (vmsType vmService) VirtualMachineServiceTypeLoadBalancer then
         r <- call (getVirtualNetworkName vmService) ;;
         virtualNetworkName <- match r with
                               | Err err => return_ (Some (IsError err))
                               | Ok name => next name
                               end ;;
         let '(ensured, err) :=
           EnsureLoadBalancer loadbalancerProvider vmService virtualNetworkName in
         perform (ProviderEnsureLoadBalancer virtualNetworkName err) ;;
         match err with
         | Some err => return_ (Some (IsError err))
         | None => next ensured
         end
       else next vmService) ;;
    let service := vmServiceToService vmService in
    r <- call (createOrUpdateService vmService service) ;;
    newService <- match r with
                  | Err err => return_ (Some (IsError err))
                  | Ok newService => next newService
                  end ;;
    err <- lift (updateEndpoints c dial AddAnnotations (vmsObject vmService)
                                 (svcObject newService)) ;;
    match err with
    | Some err => return_ (Some err)
    | None => next tt
    end ;;
    r <- call (updateVmServiceStatus vmService newService) ;;
    match r with
    | Err err => return_ (Some (IsError err))
    | Ok _ => return_ None
    end).

(** [Reconcile]. *)
Definition Reconcile (request : ObjectKey) : Call St (ctrl.Result * option goerror) :=
  func (
    perform (Earlier (ClientGet "VirtualMachineService" request)) ;;
    instance <- match GetVirtualMachineService w request with
                | Err err =>
                    if IsNotFound err then return_ (ctrl.emptyResult, None)
                    else return_ (ctrl.emptyResult, Some (IsError err))
                | Ok instance => next instance
                end ;;
    let om := vmsMeta (vmsObject instance) in
    when (negb (IsZero (DeletionTimestamp om))) (
      when (ContainsString (Finalizers om) finalizerName) (
        err <- call (deleteVmService instance) ;;
        match err with
        | Some err => return_ (ctrl.emptyResult, Some (IsError err))
        | None => next tt
        end ;;
        let instance :=
          set_vmsMeta instance
            (set_Finalizers om (RemoveString (Finalizers om) finalizerName)) in
        let '(_, err) := UpdateVirtualMachineService w instance in
        perform (ClientUpdateVirtualMachineService instance err) ;;
        match err with
        | Some err => return_ (ctrl.emptyResult, Some (IsError err))
        | None => next tt
        end) ;;
      return_ (ctrl.emptyResult, None)) ;;
    instance <-
      (if negb (ContainsString (Finalizers om) finalizerName) then
         let instance :=
           set_vmsMeta instance (set_Finalizers om (Finalizers om ++ [finalizerName])) in
         let '(updated, err) := UpdateVirtualMachineService w instance in
         perform (ClientUpdateVirtualMachineService instance err) ;;
         match err with
         | Some err => return_ (ctrl.emptyResult, Some (IsError err))
         | None => next updated
         end
       else next instance) ;;
    err <- call (reconcileVmService instance) ;;
    return_ (reconcileResult err)).

(** The loop of [getVirtualMachineServicesSelectingVirtualMachine] with its
    [matchFunc]: a VirtualMachineService is kept when the machines it
    selects hold one with the namespace and the name of [lookupVm]. *)
Fixpoint matchingVmServices (lookupVm : VirtualMachine) (items : list VMService)
    (matching : list VMService) : Call St (result (list VMService)) :=
  match items with
  | [] => fun steps => (Ok matching, steps, [])
  | vmService :: items' =>
      func (
        let namespace := Namespace (vmsMeta (vmsObject vmService)) in
        perform (Earlier (ClientList "VirtualMachine" namespace)) ;;
        match client.ListVirtualMachines c namespace
                (vmsSelector (vmsObject vmService)) with
        | Err err => return_ (Err err)
        | Ok vms =>
            let found :=
              existsb (fun vm =>
                         String.eqb (Namespace (vmMeta vm)) (Namespace (vmMeta lookupVm))
                         && String.eqb (Name (vmMeta vm)) (Name (vmMeta lookupVm)))
                      vms in
            r <- call (matchingVmServices lookupVm items'
                         (if found then matching ++ [vmService] else matching)) ;;
            return_ r
        end)
  end.

(** [getVirtualMachineServicesSelectingVirtualMachine]. *)
Definition getVirtualMachineServicesSelectingVirtualMachine (lookupVm : VirtualMachine)
  : Call St (result (list VMService)) :=
  func (
    let namespace := Namespace (vmMeta lookupVm) in
    perform (Earlier (ClientList "VirtualMachineService" namespace)) ;;
    match ListVirtualMachineServices w namespace with
    | Err err => return_ (Err err)
    | Ok items =>
        r <- call (matchingVmServices lookupVm items []) ;;
        return_ r
    end).

(** [virtualMachineToVirtualMachineServiceMapper]. *)
Definition virtualMachineToVirtualMachineServiceMapper (vm : VirtualMachine)
  : Call St (list ObjectKey) :=
  func (
    r <- call (getVirtualMachineServicesSelectingVirtualMachine vm) ;;
    match r with
    | Err _ => return_ []
    | Ok vmServiceList =>
        return_ (map (fun vmService =>
                        {| keyNamespace := Namespace (vmsMeta (vmsObject vmService));
                           keyName := Name (vmsMeta (vmsObject vmService)) |})
                     vmServiceList)
    end).

End Reconciler.
End servicecontroller.

(** * The validation webhook of the VirtualMachine

    Package [validation]: what is checked of a VirtualMachine when it is
    created or updated.  Each check returns the messages of what it found
    wrong. *)
Module validation.

Record VirtualMachineNetworkInterface := {
  NetworkType : string;
  NetworkName : string
}.

(** [VsphereVolumeSource]; of its capacity the webhook reads
    [Capacity.StorageEphemeral().Value()], a number of bytes. *)
Record VsphereVolumeSource := {
  StorageEphemeral : Z
}.

Record VirtualMachineVolumeProvisioningOptions := {
  ThinProvisioned : option bool;
  EagerZeroed : option bool
}.

Record VirtualMachineAdvancedOptions := {
  DefaultVolumeProvisioningOptions : option VirtualMachineVolumeProvisioningOptions
}.

(** The VirtualMachine as the webhook decodes it.  [object] is the
    VirtualMachine above; the fields of the spec that only the webhook reads
    are kept beside it: the network interfaces, the advanced options and,
    for each volume of the spec in turn, the volume with its
    [VsphereVolume]. *)
Record Decoded := {
  object : VirtualMachine;
  NetworkInterfaces : list VirtualMachineNetworkInterface;
  SpecVolumes : list (VirtualMachineVolume * option VsphereVolumeSource);
  AdvancedOptions : option VirtualMachineAdvancedOptions
}.

(** Package [messages], which is not among the sources.  A message with
    verbs is a function of what [fmt.Sprintf] puts in. *)
Record Messages := {
  MetadataTransportNotSupported : string;
  MetadataTransportConfigMapNotSpecified : string;
  ImageNotSpecified : string;
  ClassNotSpecified : string;
  EagerZeroedAndThinProvisionedNotSupported : string;
  GuestOSCustomizationNotSupported : string -> string -> string;
  NetworkNameNotSpecifiedFmt : Z -> string;
  NetworkTypeNotSupportedFmt : Z -> string;
  MultipleNetworkInterfacesNotSupportedFmt : Z -> string;
  VolumeNameDuplicateFmt : Z -> string;
  VolumeNameNotSpecifiedFmt : Z -> string;
  VolumeNotSpecifiedFmt : Z -> Z -> string;
  MultipleVolumeSpecifiedFmt : Z -> Z -> string;
  PersistentVolumeClaimNameNotSpecifiedFmt : Z -> string;
  VsphereVolumeSizeNotMBMultipleFmt : Z -> string;
  UpdatingImmutableFieldsNotAllowed : list string -> string
}.

(** The constants of the API and of package [vsphere], and the two fields
    of a VirtualMachineImage that the webhook reads. *)
Record Constants := {
  VirtualMachineMetadataExtraConfigTransport : string;
  VirtualMachineMetadataOvfEnvTransport : string;
  VMOperatorVMGOSCustomizeCheckKey : string;
  VMOperatorVMGOSCustomizeDisable : string;
  NsxtNetworkType : string;
  VdsNetworkType : string;
  GuestOSCustomizable : VirtualMachineImage -> option bool;
  OSInfoType : VirtualMachineImage -> string
}.

Section Validator.
Variable c : client.Client.
Variable messages : Messages.
Variable vsphere : Constants.

(** [admission.Response] with the three ways the webhook makes one;
    [common.BuildValidationResponse] is not among the sources. *)
Variable Response : Type.
Variable Allowed : string -> Response.
Variable Errored : Z -> error -> Response.
Variable BuildValidationResponse : list string -> Response.

(** [runtime.Unstructured] and the converter of the validator. *)
Variable Unstructured : Type.
Variable FromUnstructured : Unstructured -> result Decoded.

Definition StatusBadRequest : Z := 400.

(** [validateMetadata]. *)
Definition validateMetadata (vm : Decoded) : list string :=
  let validationErrs := [] in
  match VmMetadata (Spec (object vm)) with
  | None => validationErrs
  | Some metadata =>
      let validationErrs :=
        if negb (String.eqb (Transport metadata)
                            (VirtualMachineMetadataExtraConfigTransport vsphere))
           && negb (String.eqb (Transport metadata)
                               (VirtualMachineMetadataOvfEnvTransport vsphere))
        then validationErrs ++ [MetadataTransportNotSupported messages]
        else validationErrs in
      let validationErrs :=
        if String.eqb (ConfigMapName metadata) ""
        then validationErrs ++ [MetadataTransportConfigMapNotSpecified messages]
        else validationErrs in
      validationErrs
  end.

(** [validateImage]; the one check that reads the API server. *)
Definition validateImage (vm : Decoded) : list string :=
  let validationErrs := [] in
  if String.eqb (ImageName (Spec (object vm))) "" then [ImageNotSpecified messages]
  else
    let val := index (Annotations (vmMeta (object vm)))
                     (VMOperatorVMGOSCustomizeCheckKey vsphere) in
    if negb (String.eqb val (VMOperatorVMGOSCustomizeDisable vsphere)) then
      match client.GetVirtualMachineImage c
              {| keyNamespace := ""; keyName := ImageName (Spec (object vm)) |} with
      | Err err =>
          validationErrs ++ [("error validating image: " ++ Error err)%string]
      | Ok image =>
          match GuestOSCustomizable vsphere image with
          | Some false =>
              validationErrs
                ++ [GuestOSCustomizationNotSupported messages
                      (OSInfoType vsphere image) (Name (imageMeta image))]
          | _ => validationErrs
          end
      end
    else validationErrs.

(** [validateClass]. *)
Definition validateClass (vm : Decoded) : list string :=
  if String.eqb (ClassName (Spec (object vm))) "" then [ClassNotSpecified messages]
  else [].

(** The loop of [validateNetwork] from the interface with the index [i]
    on; [networkNames] are the keys of the map of the names seen. *)
Fixpoint validateNetworkInterfaces (i : Z) (nifs : list VirtualMachineNetworkInterface)
    (networkNames : list string) (validationErrs : list string) : list string :=
  match nifs with
  | [] => validationErrs
  | nif :: nifs' =>
      let validationErrs :=
        if String.eqb (NetworkType nif) (NsxtNetworkType vsphere)
           || String.eqb (NetworkType nif) ""
        then validationErrs
        else if String.eqb (NetworkType nif) (VdsNetworkType vsphere) then
          if String.eqb (NetworkName nif) ""
          then validationErrs ++ [NetworkNameNotSpecifiedFmt messages i]
          else validationErrs
        else validationErrs ++ [NetworkTypeNotSupportedFmt messages i] in
      let validationErrs :=
        if existsb (String.eqb (NetworkName nif)) networkNames
        then validationErrs ++ [MultipleNetworkInterfacesNotSupportedFmt messages i]
        else validationErrs in
      validateNetworkInterfaces (i + 1) nifs' (NetworkName nif :: networkNames)
                                validationErrs
  end.

(** [validateNetwork]. *)
Definition validateNetwork (vm : Decoded) : list string :=
  validateNetworkInterfaces 0 (NetworkInterfaces vm) [] [].

(** [validateVsphereVolume].  Go's [%] is the remainder of the division
    that truncates. *)
Definition validateVsphereVolume (vsphereVolume : option VsphereVolumeSource)
    (specVolIndex : Z) : list string :=
  match vsphereVolume with
  | Some vsphereVolume =>
      let megaByte := 1048576 in
      if negb (Z.rem (StorageEphemeral vsphereVolume) megaByte =? 0)
      then [VsphereVolumeSizeNotMBMultipleFmt messages specVolIndex]
      else []
  | None => []
  end.

(** The loop of [validateVolumes] from the volume with the index [i] on;
    [volumeNames] are the names set to true in the map. *)
Fixpoint validateSpecVolumes (i : Z)
    (volumes : list (VirtualMachineVolume * option VsphereVolumeSource))
    (volumeNames : list string) (validationErrs : list string) : list string :=
  match volumes with
  | [] => validationErrs
  | (volume, vsphereVolume) :: volumes' =>
      let named := negb (String.eqb (volName volume) "") in
      let duplicate := existsb (String.eqb (volName volume)) volumeNames in
      let validationErrs :=
        if named then
          if duplicate then validationErrs ++ [VolumeNameDuplicateFmt messages i]
          else validationErrs
        else validationErrs ++ [VolumeNameNotSpecifiedFmt messages i] in
      let volumeNames :=
        if named && negb duplicate then volName volume :: volumeNames
        else volumeNames in
      let validationErrs :=
        match PersistentVolumeClaim volume, vsphereVolume with
        | None, None => validationErrs ++ [VolumeNotSpecifiedFmt messages i i]
        | _, _ => validationErrs
        end in
      let validationErrs :=
        match PersistentVolumeClaim volume, vsphereVolume with
        | Some _, Some _ => validationErrs ++ [MultipleVolumeSpecifiedFmt messages i i]
        | Some pvc, None =>
            if String.eqb (ClaimName pvc) ""
            then validationErrs ++ [PersistentVolumeClaimNameNotSpecifiedFmt messages i]
            else validationErrs
        | None, _ => validationErrs
        end in
      let validationErrs :=
        match vsphereVolume with
        | Some _ => validationErrs ++ validateVsphereVolume vsphereVolume i
        | None => validationErrs
        end in
      validateSpecVolumes (i + 1) volumes' volumeNames validationErrs
  end.

(** [validateVolumes]. *)
Definition validateVolumes (vm : Decoded) : list string :=
  validateSpecVolumes 0 (SpecVolumes vm) [] [].

(** [validateVmVolumeProvisioningOptions]. *)
Definition validateVmVolumeProvisioningOptions (vm : Decoded) : list string :=
  match AdvancedOptions vm with
  | Some advanced =>
      match DefaultVolumeProvisioningOptions advanced with
      | Some provOpts =>
          match ThinProvisioned provOpts, EagerZeroed provOpts with
          | Some true, Some true => [EagerZeroedAndThinProvisionedNotSupported messages]
          | _, _ => []
          end
      | None => []
      end
  | None => []
  end.

(** [validateAllowedChanges]. *)
Definition validateAllowedChanges (vm oldVM : Decoded) : list string :=
  let fieldNames := [] in
  let allowed := true in
  let '(allowed, fieldNames) :=
    if negb (String.eqb (ImageName (Spec (object vm))) (ImageName (Spec (object oldVM))))
    then (false, fieldNames ++ ["Spec.ImageName"])
    else (allowed, fieldNames) in
  let '(allowed, fieldNames) :=
    if negb (String.eqb (ClassName (Spec (object vm))) (ClassName (Spec (object oldVM))))
    then (false, fieldNames ++ ["Spec.ClassName"])
    else (allowed, fieldNames) in
  let '(allowed, fieldNames) :=
    if negb (String.eqb (StorageClass (Spec (object vm)))
                        (StorageClass (Spec (object oldVM))))
    then (false, fieldNames ++ ["Spec.StorageClass"])
    else (allowed, fieldNames) in
  if negb allowed then [UpdatingImmutableFieldsNotAllowed messages fieldNames]
  else [].

(** [vmFromUnstructured]. *)
Definition vmFromUnstructured (obj : Unstructured) : result Decoded :=
  FromUnstructured obj.

(** [ValidateCreate]. *)
Definition ValidateCreate (obj : Unstructured) : Response :=
  match vmFromUnstructured obj with
  | Err err => Errored StatusBadRequest err
  | Ok vm =>
      let validationErrs := [] in
      let validationErrs := validationErrs ++ validateMetadata vm in
      let validationErrs := validationErrs ++ validateImage vm in
      let validationErrs := validationErrs ++ validateClass vm in
      let validationErrs := validationErrs ++ validateNetwork vm in
      let validationErrs := validationErrs ++ validateVolumes vm in
      let validationErrs := validationErrs ++ validateVmVolumeProvisioningOptions vm in
      BuildValidationResponse validationErrs
  end.

(** [ValidateDelete]. *)
Definition ValidateDelete : Response := Allowed "".

(** [ValidateUpdate]. *)
Definition ValidateUpdate (obj oldObj : Unstructured) : Response :=
  match vmFromUnstructured obj with
  | Err err => Errored StatusBadRequest err
  | Ok vm =>
      match vmFromUnstructured oldObj with
      | Err err => Errored StatusBadRequest err
      | Ok oldVM =>
          let validationErrs := [] in
          let validationErrs := validationErrs ++ validateAllowedChanges vm oldVM in
          BuildValidationResponse validationErrs
      end
  end.

End Validator.
End validation.
(** * Vocabulary for statements about passes *)

Import virtualmachine.

(** The name of a call, for reading a trace at a glance. *)
Definition label (e : Event) : string :=
  match e with
  | ClientGet kind _ => ("Get " ++ kind)%string
  | ClientList kind _ => ("List " ++ kind)%string
  | ClientCreateEndpoints _ _ => "Create Endpoints"
  | ClientUpdateEndpoints _ _ => "Update Endpoints"
  | PatchHelperPatch _ _ => "Patch"
  | ProviderIsResourcePolicyReady _ => "IsVirtualMachineSetResourcePolicyReady"
  | ProviderDoesVirtualMachineExist _ => "DoesVirtualMachineExist"
  | ProviderCreateVirtualMachine _ _ => "CreateVirtualMachine"
  | ProviderUpdateVirtualMachine _ _ => "UpdateVirtualMachine"
  | ProviderDeleteVirtualMachine _ => "DeleteVirtualMachine"
  | RecorderEmitEvent op _ => ("EmitEvent " ++ op)%string
  | ProberAdd _ => "AddToProberManager"
  | ProberRemove _ => "RemoveFromProberManager"
  | DialTimeout _ _ _ _ => "DialTimeout"
  end.

(** ** What dependency resolution leaves alone

    Resolving the prerequisites reads the API server and asks the provider
    whether a resource policy is ready; on the VirtualMachine it writes
    conditions and, for instance storage, volumes. *)
Definition prereq_event (e : Event) : bool :=
  match e with
  | ClientGet _ _ | ClientList _ _ | ProviderIsResourcePolicyReady _ => true
  | _ => false
  end.

(** The VirtualMachine without its conditions and volumes. *)
Definition forget (vm : VirtualMachine) : VirtualMachine :=
  set_Conditions (set_Volumes vm []) [].

(** A read of the API server for the class or the image and what they hang
    on; never one of a ConfigMap or a Secret. *)
Definition early_read (e : Event) : bool :=
  match e with
  | ClientGet kind _ =>
      negb (String.eqb kind "ConfigMap") && negb (String.eqb kind "Secret")
  | ClientList _ _ => true
  | _ => false
  end.

(** A call is quiet when it leaves the object alone but for conditions and
    volumes, leaves the count of creates alone, and makes only calls that
    [ok] admits. *)
Definition quiet_with {P R} (ok : Event -> bool) (f : Call (Reconciler P) R) : Prop :=
  forall s,
    forget (VM (final (f s))) = forget (VM s) /\
    NumVMsBeingCreatedOnProvider (final (f s)) = NumVMsBeingCreatedOnProvider s /\
    Forall (fun e => ok e = true) (calls (f s)).

Definition quiet {P R} (f : Call (Reconciler P) R) : Prop :=
  quiet_with prereq_event f.

(** The reconciler holding the object [vm]. *)
Definition with_VM {P} (s : Reconciler P) (vm : VirtualMachine) : Reconciler P :=
  {| VM := vm; provider := provider s;
     NumVMsBeingCreatedOnProvider := NumVMsBeingCreatedOnProvider s |}.


(** ** What the provider leaves alone

    The finalizers, the deletion timestamp and the phase belong to the
    controller.  A provider call [keeps] them when the object it hands back
    has them as they were. *)
Definition keeps (vm vm' : VirtualMachine) : Prop :=
  Finalizers (vmMeta vm') = Finalizers (vmMeta vm) /\
  DeletionTimestamp (vmMeta vm') = DeletionTimestamp (vmMeta vm) /\
  Phase (Status vm') = Phase (Status vm).

Definition provider_keeps {P} (prov : vmprovider.VirtualMachineProviderInterface P)
  : Prop :=
  (forall p vm, keeps vm (snd (fst (vmprovider.DoesVirtualMachineExist prov p vm)))) /\
  (forall p vm args, keeps vm (snd (fst (vmprovider.CreateVirtualMachine prov p vm args)))) /\
  (forall p vm args, keeps vm (snd (fst (vmprovider.UpdateVirtualMachine prov p vm args)))) /\
  (forall p vm, keeps vm (snd (fst (vmprovider.DeleteVirtualMachine prov p vm)))).

(** A delete pass that completed: no error, phase Deleted, finalizer gone. *)
Definition delete_completed {P} (pass : option error * Reconciler P * list Event)
  : Prop :=
  returned pass = None /\
  Phase (Status (VM (final pass))) = Deleted /\
  controllerutil.ContainsFinalizer (vmMeta (VM (final pass))) finalizerName = false.

(** ** The two halves of [createOrUpdateVM]

    [createOrUpdateVM] first resolves what the VirtualMachine refers to and
    then talks to the provider.  [reconcileOnProvider] is the second half of
    its body, from the existence check on, as a function of the arguments
    the first half resolved; [resolved] is what holds between the two. *)
Definition reconcileOnProvider {P} (VMProvider : vmprovider.VirtualMachineProviderInterface P)
    (imports : Imports) (MaxConcurrentCreateVMsOnProvider : Z)
    (vmConfigArgs : VMConfigArgs)
  : M (Reconciler P) (option error) (option error) :=
  (r <- call (DoesVirtualMachineExist VMProvider) ;;
   exists_ <- match r with
              | Err err => return_ (Some err)
              | Ok exists_ => next exists_
              end ;;
   when (negb exists_) (
     updateVM (fun vm => set_Phase vm Creating) ;;
     num <- gets (@NumVMsBeingCreatedOnProvider P) ;;
     when (num >=? MaxConcurrentCreateVMsOnProvider) (return_ None) ;;
     modify (setNumVMsBeingCreatedOnProvider (wrap_int (num + 1))) ;;
     defer (fun ret s =>
              (ret,
               setNumVMsBeingCreatedOnProvider
                 (wrap_int (NumVMsBeingCreatedOnProvider s - 1)) s,
               [])) ;;
     match argResourcePolicy vmConfigArgs with
     | Some rp =>
         when (negb (IsZero (DeletionTimestamp (rpMeta rp)))) (
           let err :=
             Errorf "cannot create VirtualMachine with its resource policy in DELETING state" in
           emit (RecorderEmitEvent "Create" (Some err)) ;;
           return_ (Some err))
     | None => next tt
     end ;;
     err <- call (CreateVirtualMachine VMProvider vmConfigArgs) ;;
     match err with
     | Some err =>
         emit (RecorderEmitEvent "Create" (Some err)) ;;
         return_ (Some err)
     | None => next tt
     end) ;;
   when (IsInstanceStorageFSSEnabled imports) (
     vm <- gets (@VM P) ;;
     when (negb (findInstanceStorageVMPlacementStatus imports vm)) (return_ None)) ;;
   updateVM (fun vm => set_Phase vm Created) ;;
   err <- call (UpdateVirtualMachine VMProvider vmConfigArgs) ;;
   match err with
   | Some err =>
       emit (RecorderEmitEvent "Update" (Some err)) ;;
       return_ (Some err)
   | None => next tt
   end ;;
   return_ None)%go.

Definition resolved {P} (c : client.Client) (s : Reconciler P)
    (args : VMConfigArgs) (s1 : Reconciler P) (l1 : list Event) : Prop :=
  forget (VM s1) = forget (VM s) /\
  NumVMsBeingCreatedOnProvider s1 = NumVMsBeingCreatedOnProvider s /\
  Forall (fun e => prereq_event e = true) l1 /\
  conditions.IsTrue (VM s1) VirtualMachinePrereqReadyCondition = true /\
  match argResourcePolicy args with
  | None => ResourcePolicyName (Spec (VM s)) = ""
  | Some rp =>
      client.GetVirtualMachineSetResourcePolicy c
        {| keyNamespace := Namespace (vmMeta (VM s));
           keyName := ResourcePolicyName (Spec (VM s)) |} = Ok rp
  end.

(** ** Probing the machines behind a service *)

Import virtualmachineservice.

(** A selected VirtualMachine that gets as far as its readiness probe (it
    is not being deleted and has an IP address and a host) and fails it. *)
Definition reaches_and_fails_probe (dial : string -> string -> Duration -> option error)
    (vmService : VirtualMachineService) (vm : VirtualMachine) : Prop :=
  DeletionTimestamp (vmMeta vm) = None /\
  VmIp (Status vm) <> "" /\
  Host (Status vm) <> "" /\
  exists e,
    returned (runProbe dial vmService vm (ReadinessProbe (Spec vm)) tt) = Some e.

(** The fixed-delay requeue of [updateEndpoints]. *)
Definition requeueAfterProbeFailure : option goerror :=
  Some (IsRequeueAfterError {| RequeueAfter := 10 * Second |}).

(** The outcome of writing [ep], with no subsets, for a pass all of whose
    probes failed: the error of the write, or else the requeue. *)
Definition after_write (written : option error) : option goerror :=
  match written with
  | Some err => Some (IsError err)
  | None => requeueAfterProbeFailure
  end.

(** ** The life of one VirtualMachine

    Between passes the object sits in the API server, where clients may edit
    its spec and its annotations or ask for its deletion.  A pass reads it,
    works on its copy and patches the object at the end; what the patch
    could not write is lost. *)
Definition rank (ph : VMStatusPhase) : Z :=
  match ph with
  | PhaseUnset => 0
  | Creating => 1
  | Created => 2
  | Deleting => 3
  | Deleted => 4
  end.

Record Cluster (P : Type) := {
  stored : VirtualMachine;
  infra : P;
  creating : Z
}.

Inductive Action :=
| Pass (c : client.Client) (imports : Imports)
| AskDeletion (t : Time)
| EditSpec (f : VirtualMachineSpec -> VirtualMachineSpec)
| Annotate (annotations : StringMap).

(** The API server [c] holding the object [vm]. *)
Definition holding (c : client.Client) (vm : VirtualMachine) : client.Client :=
  {| client.GetVirtualMachine := fun _ => Ok vm;
     client.GetVirtualMachineClass := client.GetVirtualMachineClass c;
     client.ListVirtualMachineClassBindings := client.ListVirtualMachineClassBindings c;
     client.GetVirtualMachineImage := client.GetVirtualMachineImage c;
     client.GetContentLibraryProvider := client.GetContentLibraryProvider c;
     client.GetContentSource := client.GetContentSource c;
     client.ListContentSourceBindings := client.ListContentSourceBindings c;
     client.GetConfigMap := client.GetConfigMap c;
     client.GetSecret := client.GetSecret c;
     client.GetVirtualMachineSetResourcePolicy :=
       client.GetVirtualMachineSetResourcePolicy c;
     client.GetStorageClass := client.GetStorageClass c;
     client.ListVirtualMachines := client.ListVirtualMachines c;
     client.GetEndpoints := client.GetEndpoints c;
     client.CreateEndpoints := client.CreateEndpoints c;
     client.UpdateEndpoints := client.UpdateEndpoints c;
     client.NewHelper := client.NewHelper c;
     client.Patch := client.Patch c |}.

(** The object after a pass with the calls [l]: as patched, when the pass
    ended with a patch that went through. *)
Definition persisted (l : list Event) (vm : VirtualMachine) : VirtualMachine :=
  match last l (ClientList "" "") with
  | PatchHelperPatch after None => after
  | _ => vm
  end.

Definition set_Spec (vm : VirtualMachine) (spec : VirtualMachineSpec) : VirtualMachine :=
  {| vmMeta := vmMeta vm; Spec := spec; Status := Status vm |}.

Definition set_Annotations (om : ObjectMeta) (a : StringMap) : ObjectMeta :=
  {| Name := Name om; Namespace := Namespace om; UID := UID om;
     ResourceVersion := ResourceVersion om; Labels := Labels om;
     Annotations := a; OwnerReferences := OwnerReferences om;
     Finalizers := Finalizers om; DeletionTimestamp := DeletionTimestamp om |}.

Section Life.
Variable P : Type.
Variable VMProvider : vmprovider.VirtualMachineProviderInterface P.
Variable MaxConcurrentCreateVMsOnProvider : Z.

(** One action on the cluster, and the calls it made. *)
Definition act (a : Action) (cl : Cluster P) : Cluster P * list Event :=
  match a with
  | Pass c imports =>
      let req := {| keyNamespace := Namespace (vmMeta (stored cl));
                    keyName := Name (vmMeta (stored cl)) |} in
      let pass :=
        Reconcile (holding c (stored cl)) VMProvider imports
                  MaxConcurrentCreateVMsOnProvider req
                  {| VM := emptyVM; provider := infra cl;
                     NumVMsBeingCreatedOnProvider := creating cl |} in
      ({| stored := persisted (calls pass) (stored cl);
          infra := provider (final pass);
          creating := NumVMsBeingCreatedOnProvider (final pass) |},
       calls pass)
  | AskDeletion t =>
      ({| stored :=
            match DeletionTimestamp (vmMeta (stored cl)) with
            | None => set_vmMeta (stored cl)
                        (set_DeletionTimestamp (vmMeta (stored cl)) (Some t))
            | Some _ => stored cl
            end;
          infra := infra cl; creating := creating cl |}, [])
  | EditSpec f =>
      ({| stored := set_Spec (stored cl) (f (Spec (stored cl)));
          infra := infra cl; creating := creating cl |}, [])
  | Annotate a =>
      ({| stored := set_vmMeta (stored cl) (set_Annotations (vmMeta (stored cl)) a);
          infra := infra cl; creating := creating cl |}, [])
  end.

(** The phase of the stored object after each action, with the calls of
    the action. *)
Fixpoint life (actions : list Action) (cl : Cluster P)
  : list (VMStatusPhase * list Event) :=
  match actions with
  | [] => []
  | a :: actions' =>
      let '(cl', l) := act a cl in
      (Phase (Status (stored cl')), l) :: life actions' cl'
  end.
End Life.

(** One step of the phase: forward in the order unset, Creating, Created,
    Deleting, Deleted (or staying), or back from Created to Creating in a
    pass in which the provider said that the virtual machine does not
    exist, so that the create is tried again. *)
Definition forward_or_retry (ph : VMStatusPhase) (next : VMStatusPhase * list Event)
  : Prop :=
  rank ph <= rank (fst next) \/
  (ph = Created /\ fst next = Creating /\
   In (ProviderDoesVirtualMachineExist (Ok false)) (snd next)).

Fixpoint phases_in_order (ph : VMStatusPhase) (l : list (VMStatusPhase * list Event))
  : Prop :=
  match l with
  | [] => True
  | next :: l' => forward_or_retry ph next /\ phases_in_order (fst next) l'
  end.

(** What holds of the stored object all its life: a phase of Deleting or
    Deleted comes with a deletion timestamp, and a phase of Deleted with the
    finalizer gone. *)
Definition settled (vm : VirtualMachine) : Prop :=
  (rank (Phase (Status vm)) >= 3 -> IsZero (DeletionTimestamp (vmMeta vm)) = false) /\
  (Phase (Status vm) = Deleted ->
   controllerutil.ContainsFinalizer (vmMeta vm) finalizerName = false).
(** ** More vocabulary: reads, resolved arguments, the provider protocol *)

(** A read of the API server. *)
Definition client_read (e : Event) : bool :=
  match e with
  | ClientGet _ _ | ClientList _ _ => true
  | _ => false
  end.

(** One of the three calls by which [createOrUpdateVM] reconciles the
    virtual machine on the provider. *)
Definition is_reconcile_call (e : Event) : bool :=
  is_exists e || is_create e || is_update e.

(** The bootstrap data [md] is what the metadata reference of [vm] names in
    the API server [c]. *)
Definition metadata_from (c : client.Client) (vm : VirtualMachine) (md : VMMetadata)
  : Prop :=
  match VmMetadata (Spec vm) with
  | None => md = {| mdData := []; mdTransport := "" |}
  | Some inMetadata =>
      mdTransport md = Transport inMetadata /\
      if String.eqb (SecretName inMetadata) "" then
        if String.eqb (ConfigMapName inMetadata) "" then mdData md = []
        else exists cm,
               client.GetConfigMap c
                 {| keyNamespace := Namespace (vmMeta vm);
                    keyName := ConfigMapName inMetadata |} = Ok cm /\
               mdData md = cmData cm
      else
        ConfigMapName inMetadata = "" /\
        exists sec,
          client.GetSecret c
            {| keyNamespace := Namespace (vmMeta vm);
               keyName := SecretName inMetadata |} = Ok sec /\
          mdData md = secretData sec
  end.

(** The arguments [args] are what the spec of [vm] names in the API server
    [c]: the class and the image under their names, the UUID of the content
    library provider the image hangs on, the bootstrap data, the resource
    policy, and the storage policy of the storage class. *)
Definition resolved_from (c : client.Client) (vm : VirtualMachine) (args : VMConfigArgs)
  : Prop :=
  client.GetVirtualMachineClass c
    {| keyNamespace := ""; keyName := ClassName (Spec vm) |} = Ok (argVMClass args) /\
  client.GetVirtualMachineImage c
    {| keyNamespace := ""; keyName := ImageName (Spec vm) |} = Ok (argVMImage args) /\
  (exists ownerRef clProvider,
     find (fun ownerRef => String.eqb (ownerKind ownerRef) "ContentLibraryProvider")
          (OwnerReferences (imageMeta (argVMImage args))) = Some ownerRef /\
     client.GetContentLibraryProvider c
       {| keyNamespace := ""; keyName := ownerName ownerRef |} = Ok clProvider /\
     argContentLibraryUUID args = clpUUID clProvider) /\
  metadata_from c vm (argVMMetadata args) /\
  match argResourcePolicy args with
  | None => ResourcePolicyName (Spec vm) = ""
  | Some rp =>
      client.GetVirtualMachineSetResourcePolicy c
        {| keyNamespace := Namespace (vmMeta vm);
           keyName := ResourcePolicyName (Spec vm) |} = Ok rp
  end /\
  (if String.eqb (StorageClass (Spec vm)) "" then argStorageProfileID args = ""
   else exists sc,
          client.GetStorageClass c
            {| keyNamespace := ""; keyName := StorageClass (Spec vm) |} = Ok sc /\
          argStorageProfileID args = index (Parameters sc) "storagePolicyID").

(** The VirtualMachine without its volumes. *)
Definition without_volumes (vm : VirtualMachine) : VirtualMachine := set_Volumes vm [].

(** The claim that [addInstanceStorageSpec] makes for the instance volume
    [isv] of a class with the storage class [storageClass], under the name
    [pvcName]. *)
Definition instance_claim (pvcName storageClass : string) (isv : InstanceStorageVolume)
  : VirtualMachineVolume :=
  {| volName := pvcName;
     PersistentVolumeClaim :=
       Some {| ClaimName := pvcName;
               ReadOnly := false;
               InstanceVolumeClaim :=
                 Some {| ivcStorageClass := storageClass;
                         ivcSize := isvSize isv |} |} |}.

(** A volume that claims instance storage. *)
Definition claims_instance_storage (v : VirtualMachineVolume) : bool :=
  match PersistentVolumeClaim v with
  | Some pvc =>
      match InstanceVolumeClaim pvc with
      | Some _ => true
      | None => false
      end
  | None => false
  end.

(** [instancestorage.IsConfigured] answers yes at least on a VirtualMachine
    one of whose volumes claims instance storage. *)
Definition configured_by_claims (imports : Imports) : Prop :=
  forall vm,
    existsb claims_instance_storage (Volumes (Spec vm)) = true ->
    IsConfigured imports vm = true.

(** The pass that [Reconcile] delegates to for the object [vm] as read:
    [ReconcileDelete] when it has a deletion timestamp, [ReconcileNormal]
    otherwise. *)
Definition delegate {P} (c : client.Client)
    (prov : vmprovider.VirtualMachineProviderInterface P) (imports : Imports)
    (max : Z) (s : Reconciler P) (vm : VirtualMachine)
  : option error * Reconciler P * list Event :=
  if IsZero (DeletionTimestamp (vmMeta vm)) then
    ReconcileNormal c prov imports max (with_VM s vm)
  else ReconcileDelete prov (with_VM s vm).

(** A machine that [updateEndpoints] puts behind the service: not being
    deleted, with an address and a host, and passing its readiness probe. *)
Definition ready_backend (dial : string -> string -> Duration -> option error)
    (vmService : VirtualMachineService) (vm : VirtualMachine) : Prop :=
  DeletionTimestamp (vmMeta vm) = None /\
  VmIp (Status vm) <> "" /\
  Host (Status vm) <> "" /\
  returned (runProbe dial vmService vm (ReadinessProbe (Spec vm)) tt) = None.

(** The subset [sub] puts the machine [vm] behind the port [servicePort]. *)
Definition subset_of (vmService : VirtualMachineService) (vm : VirtualMachine)
    (servicePort : ServicePort) (sub : EndpointSubset) : Prop :=
  exists portNum,
    findPort vm (spTargetPort servicePort) (spProtocol servicePort) = Ok portNum /\
    sub = {| Addresses := [makeEndpointAddress vmService vm];
             epsPorts := [{| eppName := spName servicePort;
                             eppPort := (portNum + 2 ^ 31) mod 2 ^ 32 - 2 ^ 31;
                             eppProtocol := spProtocol servicePort |}] |}.

(** Every subset of [subsets] puts a ready machine of [vms] behind a port of
    [service]. *)
Definition only_ready_backends (dial : string -> string -> Duration -> option error)
    (vmService : VirtualMachineService) (service : Service)
    (vms : list VirtualMachine) (subsets : list EndpointSubset) : Prop :=
  Forall (fun sub =>
            exists vm servicePort,
              In vm vms /\ ready_backend dial vmService vm /\
              In servicePort (svcPorts service) /\
              subset_of vmService vm servicePort sub) subsets.

(** The Endpoints object a call wrote, if it is a write. *)
Definition written_endpoints (e : Event) : option Endpoints :=
  match e with
  | ClientCreateEndpoints ep _ | ClientUpdateEndpoints ep _ => Some ep
  | _ => None
  end.

Definition is_patch (e : Event) : bool :=
  match e with PatchHelperPatch _ _ => true | _ => false end.

(** ** Vocabulary for the Service of a VirtualMachineService *)

Section ServiceVocabulary.
Import servicecontroller.

(** The node port that the port numbered [port] has among [ports], going by
    the last port with that number. *)
Definition nodePortIn (ports : list ServicePort) (port : Z) : option Z :=
  match find (fun servicePort => spPort servicePort =? port) (rev ports) with
  | Some servicePort => Some (spNodePort servicePort)
  | None => None
  end.

(** The port [servicePort] of a Service is the port [vmPort] of a
    VirtualMachineService with the node port that port number has in
    [current], or none. *)
Definition translates (current : list ServicePort) (vmPort : VirtualMachineServicePort)
    (servicePort : ServicePort) : Prop :=
  servicePort =
    {| spName := vmspName vmPort;
       spProtocol := vmspProtocol vmPort;
       spPort := vmspPort vmPort;
       spTargetPort := FromInt (vmspTargetPort vmPort);
       spNodePort := match nodePortIn current (vmspPort vmPort) with
                     | Some nodePort => nodePort
                     | None => 0
                     end |}.

(** The Service [sent] follows the VirtualMachineService in its type, its
    external name and its ports, and the Service [current] in its cluster IP
    and the node ports. *)
Definition follows (vmService : VMService) (current sent : K8sService) : Prop :=
  svcType sent = vmsType vmService /\
  svcExternalName sent = vmsExternalName vmService /\
  svcClusterIP sent = svcClusterIP current /\
  Forall2 (translates (svcPorts (svcObject current)))
          (vmsPorts vmService) (svcPorts (svcObject sent)).

(** The steps of each part of [reconcileVmService]. *)
Definition lb_step (st : Step) : bool :=
  match st with
  | Earlier (ClientList kind _) => String.eqb kind "VirtualMachine"
  | ProviderGetNetworkName _ | ProviderEnsureLoadBalancer _ _ => true
  | _ => false
  end.

Definition service_step (st : Step) : bool :=
  match st with
  | Earlier (ClientGet kind _) => String.eqb kind "Service"
  | Earlier (RecorderEmitEvent _ _) => true
  | ClientCreateService _ _ | ClientUpdateService _ _ => true
  | _ => false
  end.

Definition status_step (st : Step) : bool :=
  match st with
  | ClientStatusUpdate _ _ => true
  | _ => false
  end.

(** A call of [updateEndpoints]: listing the selected machines, dialling
    one, reading or writing the Endpoints. *)
Definition endpoints_event (e : Event) : bool :=
  match e with
  | ClientList kind _ => String.eqb kind "VirtualMachine"
  | ClientGet kind _ => String.eqb kind "Endpoints"
  | DialTimeout _ _ _ _ => true
  | ClientCreateEndpoints _ _ | ClientUpdateEndpoints _ _ => true
  | _ => false
  end.

(** A write or a call on the load balancer provider that returned an
    error. *)
Definition failed (st : Step) : bool :=
  match st with
  | Earlier (ClientCreateEndpoints _ (Some _))
  | Earlier (ClientUpdateEndpoints _ (Some _))
  | ClientUpdateVirtualMachineService _ (Some _)
  | ClientStatusUpdate _ (Some _)
  | ClientCreateService _ (Some _)
  | ClientUpdateService _ (Some _)
  | ProviderGetNetworkName (Err _)
  | ProviderEnsureLoadBalancer _ (Some _) => true
  | _ => false
  end.

(** The second half of [reconcileVmService], from the translation on, as a
    function of the VirtualMachineService as the load balancer left it. *)
Definition reconcileTranslated (c : client.Client) (w : Client)
    (dial : string -> string -> Duration -> option error)
    (AddAnnotations : ObjectMeta -> ObjectMeta)
    (VMServiceCompareToLastApplied : VMService -> string -> bool * option error)
    (VirtualMachineServiceTypeLoadBalancer : string)
    (MarshalVirtualMachineServiceStatus MarshalServiceStatus
       : list LoadBalancerIngress -> string)
    (vmService : VMService)
  : M (list Step) (option virtualmachineservice.goerror)
      (option virtualmachineservice.goerror) :=
  (let service := vmServiceToService AddAnnotations vmService in
   r <- call (createOrUpdateService w AddAnnotations VMServiceCompareToLastApplied
                vmService service) ;;
   newService <- match r with
                 | Err err => return_ (Some (virtualmachineservice.IsError err))
                 | Ok newService => next newService
                 end ;;
   err <- lift (virtualmachineservice.updateEndpoints c dial AddAnnotations
                  (vmsObject vmService) (svcObject newService)) ;;
   match err with
   | Some err => return_ (Some err)
   | None => next tt
   end ;;
   r <- call (updateVmServiceStatus w AddAnnotations
                VirtualMachineServiceTypeLoadBalancer
                MarshalVirtualMachineServiceStatus MarshalServiceStatus
                vmService newService) ;;
   match r with
   | Err err => return_ (Some (virtualmachineservice.IsError err))
   | Ok _ => return_ None
   end)%go.

(** Whether the machines that [vmService] selects hold one with the
    namespace and the name of [lookupVm]; not when they cannot be listed. *)
Definition selects (c : client.Client) (vmService : VMService) (lookupVm : VirtualMachine)
  : bool :=
  match client.ListVirtualMachines c (Namespace (vmsMeta (vmsObject vmService)))
                                   (vmsSelector (vmsObject vmService)) with
  | Ok vms =>
      existsb (fun vm =>
                 String.eqb (Namespace (vmMeta vm)) (Namespace (vmMeta lookupVm))
                 && String.eqb (Name (vmMeta vm)) (Name (vmMeta lookupVm)))
              vms
  | Err _ => false
  end.

(** Whether the machines that [vmService] selects can be listed. *)
Definition listable (c : client.Client) (vmService : VMService) : bool :=
  match client.ListVirtualMachines c (Namespace (vmsMeta (vmsObject vmService)))
                                   (vmsSelector (vmsObject vmService)) with
  | Ok _ => true
  | Err _ => false
  end.

End ServiceVocabulary.

(** * What the webhook admits *)
Section ValidationVocabulary.
Import validation.

(** A network interface of a type that the webhook knows: NSX-T or none,
    or VDS with the name of a network. *)
Definition supported (vsphere : Constants) (nif : VirtualMachineNetworkInterface) : Prop :=
  NetworkType nif = NsxtNetworkType vsphere \/
  NetworkType nif = "" \/
  (NetworkType nif = VdsNetworkType vsphere /\ NetworkName nif <> "").

(** A volume with a name and one source: a claim with a name, or a
    vSphere volume of whole mebibytes. *)
Definition well_formed (entry : VirtualMachineVolume * option VsphereVolumeSource) : Prop :=
  volName (fst entry) <> "" /\
  match PersistentVolumeClaim (fst entry), snd entry with
  | Some pvc, None => ClaimName pvc <> ""
  | None, Some vsphereVolume => (1048576 | StorageEphemeral vsphereVolume)
  | _, _ => False
  end.

(** The immutable fields in which [vm] differs from [oldVM], by name. *)
Definition changed_fields (vm oldVM : Decoded) : list string :=
  (if String.eqb (ImageName (Spec (object vm))) (ImageName (Spec (object oldVM)))
   then [] else ["Spec.ImageName"])
  ++ (if String.eqb (ClassName (Spec (object vm))) (ClassName (Spec (object oldVM)))
      then [] else ["Spec.ClassName"])
  ++ (if String.eqb (StorageClass (Spec (object vm))) (StorageClass (Spec (object oldVM)))
      then [] else ["Spec.StorageClass"]).

(** The bootstrap data names a transport that the webhook knows and a
    ConfigMap. *)
Definition metadata_admitted (vsphere : Constants) (vm : Decoded) : Prop :=
  match VmMetadata (Spec (object vm)) with
  | None => True
  | Some metadata =>
      (Transport metadata = VirtualMachineMetadataExtraConfigTransport vsphere \/
       Transport metadata = VirtualMachineMetadataOvfEnvTransport vsphere) /\
      ConfigMapName metadata <> ""
  end.

(** The image is named and, unless the annotation of [vm] turns the check
    off, is in the API server and not marked as one whose guest cannot be
    customized. *)
Definition image_admitted (c : client.Client) (vsphere : Constants) (vm : Decoded) : Prop :=
  ImageName (Spec (object vm)) <> "" /\
  (index (Annotations (vmMeta (object vm))) (VMOperatorVMGOSCustomizeCheckKey vsphere)
     = VMOperatorVMGOSCustomizeDisable vsphere \/
   exists image,
     client.GetVirtualMachineImage c
       {| keyNamespace := ""; keyName := ImageName (Spec (object vm)) |} = Ok image /\
     GuestOSCustomizable vsphere image <> Some false).

(** The default provisioning of volumes asks for thin and for eager-zeroed
    at once. *)
Definition thin_and_eager (vm : Decoded) : Prop :=
  exists advanced provOpts,
    AdvancedOptions vm = Some advanced /\
    DefaultVolumeProvisioningOptions advanced = Some provOpts /\
    ThinProvisioned provOpts = Some true /\
    EagerZeroed provOpts = Some true.

End ValidationVocabulary.

(** * A small cluster

    One namespace with one VirtualMachine, the class and the image it names,
    a resource policy that is being deleted, and a provider that remembers
    whether it holds the virtual machine.  The statements below are tried on
    it. *)
Module Scenario.

Definition meta (namespace name : string) : ObjectMeta :=
  {| Name := name; Namespace := namespace; UID := ""; ResourceVersion := "1";
     Labels := []; Annotations := []; OwnerReferences := [];
     Finalizers := []; DeletionTimestamp := None |}.

Definition owned_by (om : ObjectMeta) (kind name : string) : ObjectMeta :=
  {| Name := Name om; Namespace := Namespace om; UID := UID om;
     ResourceVersion := ResourceVersion om; Labels := Labels om;
     Annotations := Annotations om;
     OwnerReferences := [{| ownerKind := kind; ownerName := name; ownerUID := "" |}];
     Finalizers := Finalizers om; DeletionTimestamp := DeletionTimestamp om |}.

Definition notFound (name : string) : error :=
  StatusError StatusReasonNotFound (name ++ " not found")%string.

Definition small : VirtualMachineClass :=
  {| classMeta := meta "" "small";
     classInstanceStorage := {| isStorageClass := ""; isVolumes := [] |} |}.

(** The image hangs on a content library provider; the provider hangs on
    nothing. *)
Definition photon : VirtualMachineImage :=
  {| imageMeta := owned_by (meta "" "photon") "ContentLibraryProvider" "library" |}.

Definition library : ContentLibraryProvider :=
  {| clpMeta := meta "" "library"; clpUUID := "cl-uuid" |}.

(** The namespace is bound to another class only. *)
Definition binding : VirtualMachineClassBinding :=
  {| cbMeta := meta "dev" "large-binding";
     ClassRef := {| refKind := "VirtualMachineClass"; refName := "large" |} |}.

Definition policy : VirtualMachineSetResourcePolicy :=
  {| rpMeta := set_DeletionTimestamp (meta "dev" "policy") (Some 1700000000) |}.

Definition spec (metadata : option VirtualMachineMetadata) (resourcePolicy : string)
  : VirtualMachineSpec :=
  {| ImageName := "photon"; ClassName := "small";
     SpecPowerState := VirtualMachinePoweredOn; Ports := [];
     VmMetadata := metadata; StorageClass := "";
     ResourcePolicyName := resourcePolicy; Volumes := []; ReadinessProbe := None |}.

Definition status (phase : VMStatusPhase) : VirtualMachineStatus :=
  {| Host := ""; PowerState := PowerStateUnset; Phase := phase; VmIp := "";
     Conditions := [] |}.

(** The VirtualMachine as a client has just created it. *)
Definition fresh : VirtualMachine :=
  {| vmMeta := meta "dev" "vm"; Spec := spec None ""; Status := status PhaseUnset |}.

(** The same with the controller's finalizer. *)
Definition finalized : VirtualMachine :=
  set_vmMeta fresh (set_Finalizers (meta "dev" "vm") [finalizerName]).

(** Created on the provider in an earlier pass. *)
Definition created : VirtualMachine := set_Phase finalized Created.

(** Under deletion. *)
Definition doomed : VirtualMachine :=
  set_vmMeta created (set_DeletionTimestamp (vmMeta created) (Some 1700000000)).

(** Naming both a ConfigMap and a Secret for its metadata. *)
Definition twofold : VirtualMachine :=
  {| vmMeta := vmMeta finalized;
     Spec := spec (Some {| ConfigMapName := "cm"; SecretName := "secret";
                           Transport := "ExtraConfig" |}) "";
     Status := status PhaseUnset |}.

(** Bound to the resource policy. *)
Definition grouped : VirtualMachine :=
  {| vmMeta := vmMeta finalized; Spec := spec None "policy";
     Status := status PhaseUnset |}.

(** The API server holding [vm]. *)
Definition apiserver (vm : VirtualMachine) : client.Client :=
  {| client.GetVirtualMachine := fun key =>
       if String.eqb (keyName key) (Name (vmMeta vm)) then Ok vm
       else Err (notFound (keyName key));
     client.GetVirtualMachineClass := fun key =>
       if String.eqb (keyName key) "small" then Ok small
       else Err (notFound (keyName key));
     client.ListVirtualMachineClassBindings := fun _ => Ok [binding];
     client.GetVirtualMachineImage := fun key =>
       if String.eqb (keyName key) "photon" then Ok photon
       else Err (notFound (keyName key));
     client.GetContentLibraryProvider := fun key =>
       if String.eqb (keyName key) "library" then Ok library
       else Err (notFound (keyName key));
     client.GetContentSource := fun key => Err (notFound (keyName key));
     client.ListContentSourceBindings := fun _ => Ok [];
     client.GetConfigMap := fun key => Err (notFound (keyName key));
     client.GetSecret := fun key => Err (notFound (keyName key));
     client.GetVirtualMachineSetResourcePolicy := fun key =>
       if String.eqb (keyName key) "policy" then Ok policy
       else Err (notFound (keyName key));
     client.GetStorageClass := fun key => Err (notFound (keyName key));
     client.ListVirtualMachines := fun _ _ => Ok [vm];
     client.GetEndpoints := fun key => Err (notFound (keyName key));
     client.CreateEndpoints := fun _ => None;
     client.UpdateEndpoints := fun _ => None;
     client.NewHelper := fun _ => None;
     client.Patch := fun _ _ => None |}.

(** A provider whose state says whether it holds the virtual machine.  It
    leaves the object it is given as it is. *)
Definition infrastructure : vmprovider.VirtualMachineProviderInterface bool :=
  {| vmprovider.DoesVirtualMachineExist := fun held vm => (held, vm, Ok held);
     vmprovider.CreateVirtualMachine := fun _ vm _ => (true, vm, None);
     vmprovider.UpdateVirtualMachine := fun held vm _ => (held, vm, None);
     vmprovider.DeleteVirtualMachine := fun held vm =>
       if held then (false, vm, None)
       else (false, vm, Some (notFound (Name (vmMeta vm))));
     vmprovider.IsVirtualMachineSetResourcePolicyReady := fun held _ _ =>
       (held, Ok true) |}.

(** A provider that is out of order. *)
Definition broken : vmprovider.VirtualMachineProviderInterface bool :=
  {| vmprovider.DoesVirtualMachineExist := fun held vm => (held, vm, Ok held);
     vmprovider.CreateVirtualMachine := fun held vm _ =>
       (held, vm, Some (Errorf "out of capacity"));
     vmprovider.UpdateVirtualMachine := fun held vm _ =>
       (held, vm, Some (Errorf "connection refused"));
     vmprovider.DeleteVirtualMachine := fun held vm =>
       (held, vm, Some (Errorf "connection refused"));
     vmprovider.IsVirtualMachineSetResourcePolicyReady := fun held _ _ =>
       (held, Ok true) |}.

Definition switches (vmService : bool) : Imports :=
  {| IsVMServiceFSSEnabled := vmService;
     IsInstanceStorageFSSEnabled := false;
     PauseAnnotation := "vmoperator.vmware.com/pause-reconcile";
     InstanceStoragePVCsBoundAnnotationKey :=
       "vmoperator.vmware.com/instance-storage-pvcs-bound";
     InstanceStoragePVCNamePrefix := "instance-pvc-";
     KubernetesTopologyZoneLabelKey := "topology.kubernetes.io/zone";
     IsConfigured := fun _ => false;
     NewUUID := fun _ => Ok "00000000-0000-0000-0000-000000000000" |}.

(** A reconciler about to work on [vm], the provider holding the machine or
    not, with [n] creates in flight. *)
Definition reconciler (vm : VirtualMachine) (held : bool) (n : Z) : Reconciler bool :=
  {| VM := vm; provider := held; NumVMsBeingCreatedOnProvider := n |}.

Definition request : ObjectKey := {| keyNamespace := "dev"; keyName := "vm" |}.

End Scenario.

(** * A service in front of the VirtualMachine *)
Module Serving.

Definition web : VirtualMachineService :=
  {| vmsMeta := Scenario.meta "dev" "web";
     vmsAPIVersion := "vmoperator.vmware.com/v1alpha1";
     vmsKind := "VirtualMachineService";
     vmsSelector := [("app", "web")] |}.

Definition service : Service :=
  {| svcMeta := Scenario.meta "dev" "web";
     svcPorts := [{| spName := "http"; spProtocol := "TCP"; spPort := 80;
                     spTargetPort := FromInt 80; spNodePort := 0 |}] |}.

(** A running VirtualMachine with an address, probed on TCP port 80. *)
Definition backend : VirtualMachine :=
  {| vmMeta := vmMeta Scenario.finalized;
     Spec := {| ImageName := "photon"; ClassName := "small";
                SpecPowerState := VirtualMachinePoweredOn; Ports := [];
                VmMetadata := None; StorageClass := "";
                ResourcePolicyName := ""; Volumes := [];
                ReadinessProbe :=
                  Some {| TCPSocket := Some {| tcpPort := FromInt 80; tcpHost := "" |};
                          TimeoutSeconds := 0 |} |};
     Status := {| Host := "esx-1"; PowerState := VirtualMachinePoweredOn;
                  Phase := Created; VmIp := "10.0.0.5"; Conditions := [] |} |}.

(** The Endpoints object written while the backend answered. *)
Definition current : Endpoints :=
  {| epMeta := Scenario.meta "dev" "web";
     Subsets :=
       [{| Addresses := [makeEndpointAddress web backend];
           epsPorts := [{| eppName := "http"; eppPort := 80; eppProtocol := "TCP" |}] |}] |}.

(** A VirtualMachine that has no address yet. *)
Definition booting : VirtualMachine :=
  {| vmMeta := Scenario.meta "dev" "vm-2"; Spec := Spec backend;
     Status := {| Host := ""; PowerState := VirtualMachinePoweredOn;
                  Phase := Created; VmIp := ""; Conditions := [] |} |}.

(** The API server holding the selected VirtualMachines [vms] and
    [current]. *)
Definition apiserver (vms : list VirtualMachine) : client.Client :=
  {| client.GetVirtualMachine := client.GetVirtualMachine (Scenario.apiserver backend);
     client.GetVirtualMachineClass :=
       client.GetVirtualMachineClass (Scenario.apiserver backend);
     client.ListVirtualMachineClassBindings :=
       client.ListVirtualMachineClassBindings (Scenario.apiserver backend);
     client.GetVirtualMachineImage :=
       client.GetVirtualMachineImage (Scenario.apiserver backend);
     client.GetContentLibraryProvider :=
       client.GetContentLibraryProvider (Scenario.apiserver backend);
     client.GetContentSource := client.GetContentSource (Scenario.apiserver backend);
     client.ListContentSourceBindings :=
       client.ListContentSourceBindings (Scenario.apiserver backend);
     client.GetConfigMap := client.GetConfigMap (Scenario.apiserver backend);
     client.GetSecret := client.GetSecret (Scenario.apiserver backend);
     client.GetVirtualMachineSetResourcePolicy :=
       client.GetVirtualMachineSetResourcePolicy (Scenario.apiserver backend);
     client.GetStorageClass := client.GetStorageClass (Scenario.apiserver backend);
     client.ListVirtualMachines := fun _ _ => Ok vms;
     client.GetEndpoints := fun key =>
       if String.eqb (keyName key) "web" then Ok current
       else Err (Scenario.notFound (keyName key));
     client.CreateEndpoints := fun _ => None;
     client.UpdateEndpoints := fun _ => None;
     client.NewHelper := fun _ => None;
     client.Patch := fun _ _ => None |}.

(** Nothing answers on the network. *)
Definition unreachable (proto address : string) (timeout : Duration) : option error :=
  Some (Errorf ("dial " ++ proto ++ " " ++ address ++ ": connection refused")%string).

(** Everything answers. *)
Definition reachable (proto address : string) (timeout : Duration) : option error :=
  None.

Definition noAnnotations (om : ObjectMeta) : ObjectMeta := om.

End Serving.

(** * The cluster over time *)
Module History.

(** The cluster with the object [vm], the provider holding the machine or
    not, and no create in flight. *)
Definition cluster (vm : VirtualMachine) (held : bool) : Cluster bool :=
  {| stored := vm; infra := held; creating := 0 |}.

Definition pass : Action :=
  Pass (Scenario.apiserver Scenario.fresh) (Scenario.switches false).

(** Created, running, then deleted. *)
Definition lifetime : list Action :=
  [pass; pass; AskDeletion 1700000000; pass].

End History.

(** * The small cluster, continued *)
Module Waiting.

(** A provider on which no resource policy is ready yet. *)
Definition infrastructure : vmprovider.VirtualMachineProviderInterface bool :=
  {| vmprovider.DoesVirtualMachineExist :=
       vmprovider.DoesVirtualMachineExist Scenario.infrastructure;
     vmprovider.CreateVirtualMachine :=
       vmprovider.CreateVirtualMachine Scenario.infrastructure;
     vmprovider.UpdateVirtualMachine :=
       vmprovider.UpdateVirtualMachine Scenario.infrastructure;
     vmprovider.DeleteVirtualMachine :=
       vmprovider.DeleteVirtualMachine Scenario.infrastructure;
     vmprovider.IsVirtualMachineSetResourcePolicyReady := fun held _ _ =>
       (held, Ok false) |}.

(** The VirtualMachine with a pause annotation, under deletion. *)
Definition paused : VirtualMachine :=
  set_vmMeta Scenario.doomed
    (set_Annotations (vmMeta Scenario.doomed)
       [("vmoperator.vmware.com/pause-reconcile", "")]).

(** Under deletion, and never seen by the controller. *)
Definition unseen : VirtualMachine :=
  set_vmMeta Scenario.fresh
    (set_DeletionTimestamp (vmMeta Scenario.fresh) (Some 1700000000)).

(** An API server whose patches are refused. *)
Definition readonly (vm : VirtualMachine) : client.Client :=
  {| client.GetVirtualMachine := client.GetVirtualMachine (Scenario.apiserver vm);
     client.GetVirtualMachineClass := client.GetVirtualMachineClass (Scenario.apiserver vm);
     client.ListVirtualMachineClassBindings :=
       client.ListVirtualMachineClassBindings (Scenario.apiserver vm);
     client.GetVirtualMachineImage := client.GetVirtualMachineImage (Scenario.apiserver vm);
     client.GetContentLibraryProvider :=
       client.GetContentLibraryProvider (Scenario.apiserver vm);
     client.GetContentSource := client.GetContentSource (Scenario.apiserver vm);
     client.ListContentSourceBindings :=
       client.ListContentSourceBindings (Scenario.apiserver vm);
     client.GetConfigMap := client.GetConfigMap (Scenario.apiserver vm);
     client.GetSecret := client.GetSecret (Scenario.apiserver vm);
     client.GetVirtualMachineSetResourcePolicy :=
       client.GetVirtualMachineSetResourcePolicy (Scenario.apiserver vm);
     client.GetStorageClass := client.GetStorageClass (Scenario.apiserver vm);
     client.ListVirtualMachines := client.ListVirtualMachines (Scenario.apiserver vm);
     client.GetEndpoints := client.GetEndpoints (Scenario.apiserver vm);
     client.CreateEndpoints := client.CreateEndpoints (Scenario.apiserver vm);
     client.UpdateEndpoints := client.UpdateEndpoints (Scenario.apiserver vm);
     client.NewHelper := client.NewHelper (Scenario.apiserver vm);
     client.Patch := fun _ _ => Some (Errorf "the object has been modified") |}.

End Waiting.

(** * A class with instance storage *)
Module Storage.

Definition fast : VirtualMachineClass :=
  {| classMeta := Scenario.meta "" "fast";
     classInstanceStorage :=
       {| isStorageClass := "local-nvme";
          isVolumes := [{| isvSize := 128 |}; {| isvSize := 256 |}] |} |}.

(** The switches with instance storage on; a VirtualMachine counts as
    configured once one of its volumes claims instance storage, and the
    UUIDs are numbered. *)
Definition switches : Imports :=
  {| IsVMServiceFSSEnabled := false;
     IsInstanceStorageFSSEnabled := true;
     PauseAnnotation := PauseAnnotation (Scenario.switches false);
     InstanceStoragePVCsBoundAnnotationKey :=
       InstanceStoragePVCsBoundAnnotationKey (Scenario.switches false);
     InstanceStoragePVCNamePrefix := "instance-pvc-";
     KubernetesTopologyZoneLabelKey :=
       KubernetesTopologyZoneLabelKey (Scenario.switches false);
     IsConfigured := fun vm =>
       existsb claims_instance_storage (Volumes (Spec vm));
     NewUUID := fun n => Ok (NilZero.string_of_uint (Nat.to_uint n)) |}.

End Storage.

(** * A content library that hangs on a content source *)
Module Sourced.

Definition library : ContentLibraryProvider :=
  {| clpMeta := Scenario.owned_by (Scenario.meta "" "library") "ContentSource" "source";
     clpUUID := "cl-uuid" |}.

Definition source : ContentSource := {| csMeta := Scenario.meta "" "source" |}.

Definition binding : ContentSourceBinding :=
  {| csbMeta := Scenario.meta "dev" "source-binding";
     ContentSourceRef := {| refKind := "ContentSource"; refName := "source" |} |}.

(** The API server of the small cluster with the library, its content
    source and the content source bindings [bindings] of the namespace. *)
Definition apiserver (bindings : list ContentSourceBinding) : client.Client :=
  let base := Scenario.apiserver Scenario.finalized in
  {| client.GetVirtualMachine := client.GetVirtualMachine base;
     client.GetVirtualMachineClass := client.GetVirtualMachineClass base;
     client.ListVirtualMachineClassBindings := client.ListVirtualMachineClassBindings base;
     client.GetVirtualMachineImage := client.GetVirtualMachineImage base;
     client.GetContentLibraryProvider := fun key =>
       if String.eqb (keyName key) "library" then Ok library
       else Err (Scenario.notFound (keyName key));
     client.GetContentSource := fun key =>
       if String.eqb (keyName key) "source" then Ok source
       else Err (Scenario.notFound (keyName key));
     client.ListContentSourceBindings := fun _ => Ok bindings;
     client.GetConfigMap := client.GetConfigMap base;
     client.GetSecret := client.GetSecret base;
     client.GetVirtualMachineSetResourcePolicy :=
       client.GetVirtualMachineSetResourcePolicy base;
     client.GetStorageClass := client.GetStorageClass base;
     client.ListVirtualMachines := client.ListVirtualMachines base;
     client.GetEndpoints := client.GetEndpoints base;
     client.CreateEndpoints := client.CreateEndpoints base;
     client.UpdateEndpoints := client.UpdateEndpoints base;
     client.NewHelper := client.NewHelper base;
     client.Patch := client.Patch base |}.

End Sourced.

(** * A service that has no Endpoints object yet *)
Module Unserved.

(** The API server holding the selected VirtualMachines [vms] and no
    Endpoints object. *)
Definition apiserver (vms : list VirtualMachine) : client.Client :=
  let base := Serving.apiserver vms in
  {| client.GetVirtualMachine := client.GetVirtualMachine base;
     client.GetVirtualMachineClass := client.GetVirtualMachineClass base;
     client.ListVirtualMachineClassBindings := client.ListVirtualMachineClassBindings base;
     client.GetVirtualMachineImage := client.GetVirtualMachineImage base;
     client.GetContentLibraryProvider := client.GetContentLibraryProvider base;
     client.GetContentSource := client.GetContentSource base;
     client.ListContentSourceBindings := client.ListContentSourceBindings base;
     client.GetConfigMap := client.GetConfigMap base;
     client.GetSecret := client.GetSecret base;
     client.GetVirtualMachineSetResourcePolicy :=
       client.GetVirtualMachineSetResourcePolicy base;
     client.GetStorageClass := client.GetStorageClass base;
     client.ListVirtualMachines := client.ListVirtualMachines base;
     client.GetEndpoints := fun key => Err (Scenario.notFound (keyName key));
     client.CreateEndpoints := client.CreateEndpoints base;
     client.UpdateEndpoints := client.UpdateEndpoints base;
     client.NewHelper := client.NewHelper base;
     client.Patch := client.Patch base |}.

End Unserved.

(** * A VirtualMachineService whose Service is already there *)
Module Translated.

(** The service of the small cluster with two ports. *)
Definition front : servicecontroller.VMService :=
  {| servicecontroller.vmsObject := Serving.web;
     servicecontroller.vmsType := "NodePort";
     servicecontroller.vmsPorts :=
       [{| servicecontroller.vmspName := "http";
           servicecontroller.vmspProtocol := "TCP";
           servicecontroller.vmspPort := 80;
           servicecontroller.vmspTargetPort := 8080 |};
        {| servicecontroller.vmspName := "https";
           servicecontroller.vmspProtocol := "TCP";
           servicecontroller.vmspPort := 443;
           servicecontroller.vmspTargetPort := 8443 |}];
     servicecontroller.vmsExternalName := "";
     servicecontroller.vmsClusterIP := "";
     servicecontroller.vmsIngress := [] |}.

(** The Service written when [front] had the first port only; the API
    server gave it a cluster IP and a node port. *)
Definition existing : servicecontroller.K8sService :=
  {| servicecontroller.svcObject :=
       {| svcMeta := Scenario.meta "dev" "web";
          svcPorts := [{| spName := "http"; spProtocol := "TCP"; spPort := 80;
                          spTargetPort := FromInt 8080; spNodePort := 30080 |}] |};
     servicecontroller.svcType := "NodePort";
     servicecontroller.svcExternalName := "";
     servicecontroller.svcClusterIP := "10.96.0.7";
     servicecontroller.svcIngress := [] |}.

(** An API server that holds [front] and [existing] and accepts every
    write. *)
Definition apiserver : servicecontroller.Client :=
  {| servicecontroller.GetVirtualMachineService := fun key =>
       if String.eqb (keyName key) "web" then Ok front
       else Err (Scenario.notFound (keyName key));
     servicecontroller.ListVirtualMachineServices := fun _ => Ok [front];
     servicecontroller.UpdateVirtualMachineService := fun vmService => (vmService, None);
     servicecontroller.StatusUpdate := fun vmService => (vmService, None);
     servicecontroller.GetService := fun key =>
       if String.eqb (keyName key) "web" then Ok existing
       else Err (Scenario.notFound (keyName key));
     servicecontroller.CreateService := fun service => (service, None);
     servicecontroller.UpdateService := fun service => (service, None) |}.

(** No annotations are added, and the last applied configuration never
    matches. *)
Definition noAnnotations (om : ObjectMeta) : ObjectMeta := om.

Definition changed (vmService : servicecontroller.VMService) (lastApplied : string)
  : bool * option error := (false, None).

End Translated.

(** * A webhook *)
Module Admission.

Definition messages : validation.Messages :=
  {| validation.MetadataTransportNotSupported := "metadata transport not supported";
     validation.MetadataTransportConfigMapNotSpecified := "metadata ConfigMap not specified";
     validation.ImageNotSpecified := "image not specified";
     validation.ClassNotSpecified := "class not specified";
     validation.EagerZeroedAndThinProvisionedNotSupported :=
       "eager-zeroed and thin-provisioned not supported";
     validation.GuestOSCustomizationNotSupported := fun osType name =>
       ("guest OS customization not supported: " ++ osType ++ " " ++ name)%string;
     validation.NetworkNameNotSpecifiedFmt := fun i =>
       ("network name not specified: " ++ virtualmachineservice.Itoa i)%string;
     validation.NetworkTypeNotSupportedFmt := fun i =>
       ("network type not supported: " ++ virtualmachineservice.Itoa i)%string;
     validation.MultipleNetworkInterfacesNotSupportedFmt := fun i =>
       ("network used twice: " ++ virtualmachineservice.Itoa i)%string;
     validation.VolumeNameDuplicateFmt := fun i =>
       ("volume name used twice: " ++ virtualmachineservice.Itoa i)%string;
     validation.VolumeNameNotSpecifiedFmt := fun i =>
       ("volume name not specified: " ++ virtualmachineservice.Itoa i)%string;
     validation.VolumeNotSpecifiedFmt := fun i _ =>
       ("volume source not specified: " ++ virtualmachineservice.Itoa i)%string;
     validation.MultipleVolumeSpecifiedFmt := fun i _ =>
       ("two volume sources: " ++ virtualmachineservice.Itoa i)%string;
     validation.PersistentVolumeClaimNameNotSpecifiedFmt := fun i =>
       ("claim name not specified: " ++ virtualmachineservice.Itoa i)%string;
     validation.VsphereVolumeSizeNotMBMultipleFmt := fun i =>
       ("volume size not in megabytes: " ++ virtualmachineservice.Itoa i)%string;
     validation.UpdatingImmutableFieldsNotAllowed := fun fieldNames =>
       ("immutable: " ++ String.concat ", " fieldNames)%string |}.

Definition vsphere : validation.Constants :=
  {| validation.VirtualMachineMetadataExtraConfigTransport := "ExtraConfig";
     validation.VirtualMachineMetadataOvfEnvTransport := "OvfEnv";
     validation.VMOperatorVMGOSCustomizeCheckKey :=
       "vsphere.vmoperator.vmware.com/gos-customize-check";
     validation.VMOperatorVMGOSCustomizeDisable := "disable";
     validation.NsxtNetworkType := "nsx-t";
     validation.VdsNetworkType := "vsphere-distributed";
     validation.GuestOSCustomizable := fun _ => None;
     validation.OSInfoType := fun _ => "" |}.

(** [vm] as the webhook decodes it, with one interface and no volumes. *)
Definition decoded (vm : VirtualMachine) : validation.Decoded :=
  {| validation.object := vm;
     validation.NetworkInterfaces :=
       [{| validation.NetworkType := "nsx-t"; validation.NetworkName := "" |}];
     validation.SpecVolumes := [];
     validation.AdvancedOptions := None |}.

End Admission.
(** * Reasoning about passes *)

(** Unfolding the control-flow combinators of a body written in the monad. *)
Ltac go_unfold :=
  cbv beta iota zeta delta
    [func bind call return_ next gets modify emit defer when run_deferred
     updateVM MarkTrue MarkFalse Get List_ setNumVMsBeingCreatedOnProvider
     DoesVirtualMachineExist CreateVirtualMachine UpdateVirtualMachine
     DeleteVirtualMachine IsVirtualMachineSetResourcePolicyReady
     calls returned final fst snd].

(** Case analysis on a scrutinee that has no case analysis inside. *)
Ltac go_case :=
  match goal with
  | |- context [match ?x with _ => _ end] =>
      lazymatch x with
      | context [match _ with _ => _ end] => fail
      | _ => let E := fresh "E" in destruct x eqn:E
      end
  end.

Ltac go_simpl :=
  cbv beta iota zeta;
  cbn [VM provider NumVMsBeingCreatedOnProvider negb andb orb app].

Ltac go_run := go_unfold; go_simpl; repeat (go_case; go_simpl).

(** A trace of a few calls, none of the kind asked about. *)
Ltac one_event :=
  let Hin := fresh "Hin" in
  let He := fresh "He" in
  intros Hin He; cbn in Hin;
  repeat (destruct Hin as [Hin|Hin]; [subst; cbn in He; discriminate He|]);
  contradiction.

(** Every call of a short trace answers [false] to the question asked. *)
Ltac one_event_false :=
  let Hin := fresh "Hin" in
  intros Hin; cbn in Hin;
  repeat (destruct Hin as [Hin|Hin]; [subst; cbn; auto|]);
  contradiction.

(** ** Passes on the small cluster *)

(** A pass that creates the machine: the calls it makes, what it returns
    and the phase it leaves. *)
Example create_pass :
  let pass := Reconcile (Scenario.apiserver Scenario.finalized) Scenario.infrastructure
                (Scenario.switches false) 1 Scenario.request
                (Scenario.reconciler emptyVM false 0) in
  map label (calls pass) =
    ["Get VirtualMachine"; "Get VirtualMachineClass"; "Get VirtualMachineImage";
     "Get ContentLibraryProvider"; "DoesVirtualMachineExist";
     "CreateVirtualMachine"; "UpdateVirtualMachine"; "AddToProberManager";
     "Patch"] /\
  returned pass = (ctrl.emptyResult, None) /\
  Phase (Status (VM (final pass))) = Created /\
  provider (final pass) = true /\
  NumVMsBeingCreatedOnProvider (final pass) = 0.
Proof. vm_compute. repeat split; reflexivity. Qed.

(** The same pass with every create slot taken. *)
Example deferred_pass :
  let pass := Reconcile (Scenario.apiserver Scenario.finalized) Scenario.infrastructure
                (Scenario.switches false) 1 Scenario.request
                (Scenario.reconciler emptyVM false 1) in
  map label (calls pass) =
    ["Get VirtualMachine"; "Get VirtualMachineClass"; "Get VirtualMachineImage";
     "Get ContentLibraryProvider"; "DoesVirtualMachineExist";
     "AddToProberManager"; "Patch"] /\
  returned pass =
    ({| ctrl.Requeue := false; ctrl.RequeueAfter := 10 * Second |}, None) /\
  Phase (Status (VM (final pass))) = Creating /\
  NumVMsBeingCreatedOnProvider (final pass) = 1.
Proof. vm_compute. repeat split; reflexivity. Qed.

(** A pass that deletes the machine. *)
Example delete_pass :
  let pass := Reconcile (Scenario.apiserver Scenario.doomed) Scenario.infrastructure
                (Scenario.switches false) 1 Scenario.request
                (Scenario.reconciler emptyVM true 0) in
  map label (calls pass) =
    ["Get VirtualMachine"; "DeleteVirtualMachine"; "EmitEvent Delete";
     "RemoveFromProberManager"; "Patch"] /\
  returned pass = (ctrl.emptyResult, None) /\
  Phase (Status (VM (final pass))) = Deleted /\
  Finalizers (vmMeta (VM (final pass))) = [].
Proof. vm_compute. repeat split; reflexivity. Qed.

(** ** Finalizers *)

Lemma ContainsFinalizer_Remove om f :
  controllerutil.ContainsFinalizer (controllerutil.RemoveFinalizer om f) f = false.
Proof.
  unfold controllerutil.ContainsFinalizer, controllerutil.RemoveFinalizer; simpl.
  induction (Finalizers om) as [|x l IH]; simpl; [reflexivity|].
  destruct (String.eqb_spec x f) as [->|N]; simpl; [exact IH|].
  rewrite IH, orb_false_r. apply String.eqb_neq. congruence.
Qed.

Lemma ContainsFinalizer_Add om f :
  controllerutil.ContainsFinalizer (controllerutil.AddFinalizer om f) f = true.
Proof.
  unfold controllerutil.AddFinalizer.
  destruct (controllerutil.ContainsFinalizer om f) eqn:E; [exact E|].
  unfold controllerutil.ContainsFinalizer; simpl.
  rewrite existsb_app; simpl. rewrite String.eqb_refl, orb_true_r. reflexivity.
Qed.

Lemma phase_eqb_eq a b : phase_eqb a b = true <-> a = b.
Proof. destruct a, b; simpl; split; congruence. Qed.

Lemma power_eqb_eq a b : power_eqb a b = true <-> a = b.
Proof. destruct a, b; simpl; split; congruence. Qed.


Ltac quiet_auto :=
  intros s; go_run; repeat split; repeat constructor.

Lemma early_read_prereq e : early_read e = true -> prereq_event e = true.
Proof. destruct e; simpl; congruence. Qed.

Lemma quiet_early P R (f : Call (Reconciler P) R) :
  quiet_with early_read f -> quiet f.
Proof.
  intros H s. destruct (H s) as (F & N & C). repeat split; auto.
  eapply Forall_impl; [|exact C]. exact early_read_prereq.
Qed.

Lemma getVMClass_early P c imports : quiet_with early_read (@getVMClass P c imports).
Proof. unfold getVMClass. quiet_auto. Qed.

Lemma getImageAndContentLibraryUUID_early P c imports :
  quiet_with early_read (@getImageAndContentLibraryUUID P c imports).
Proof.
  unfold getImageAndContentLibraryUUID, getContentLibraryProviderFromImage,
    getContentSourceFromCLProvider.
  quiet_auto.
Qed.

Lemma reconcileInstanceStorageSpec_early P imports vmClass :
  quiet_with early_read (@reconcileInstanceStorageSpec P imports vmClass).
Proof. unfold reconcileInstanceStorageSpec, addInstanceStorageSpec. quiet_auto. Qed.

Lemma getVMClass_quiet P c imports : quiet (@getVMClass P c imports).
Proof. apply quiet_early, getVMClass_early. Qed.

Lemma getImageAndContentLibraryUUID_quiet P c imports :
  quiet (@getImageAndContentLibraryUUID P c imports).
Proof. apply quiet_early, getImageAndContentLibraryUUID_early. Qed.

Lemma reconcileInstanceStorageSpec_quiet P imports vmClass :
  quiet (@reconcileInstanceStorageSpec P imports vmClass).
Proof. apply quiet_early, reconcileInstanceStorageSpec_early. Qed.

Lemma getVMMetadata_quiet P c : quiet (@getVMMetadata P c).
Proof. unfold getVMMetadata. quiet_auto. Qed.

Lemma getResourcePolicy_quiet P c prov imports :
  quiet (@getResourcePolicy P c prov imports).
Proof. unfold getResourcePolicy. quiet_auto. Qed.

Lemma getStoragePolicyID_quiet P c : quiet (@getStoragePolicyID P c).
Proof. unfold getStoragePolicyID. quiet_auto. Qed.



(** ** The requeue delay *)

Lemma requeueDelay_spec vm :
  (requeueDelay vm = 10 * Second <->
   Phase (Status vm) = Creating \/
   (PowerState (Status vm) = VirtualMachinePoweredOn /\ VmIp (Status vm) = "")) /\
  (requeueDelay vm = 10 * Second \/ requeueDelay vm = 0).
Proof.
  unfold requeueDelay.
  destruct (phase_eqb (Phase (Status vm)) Creating) eqn:Eph.
  - apply phase_eqb_eq in Eph. split; [split; auto | auto].
  - assert (Phase (Status vm) <> Creating) as Nph.
    { intros H. apply phase_eqb_eq in H. congruence. }
    destruct (String.eqb_spec (VmIp (Status vm)) "") as [Eip|Nip]; simpl.
    + destruct (power_eqb (PowerState (Status vm)) VirtualMachinePoweredOn) eqn:Epw.
      * apply power_eqb_eq in Epw. split; [split; auto | auto].
      * assert (PowerState (Status vm) <> VirtualMachinePoweredOn) as Npw.
        { intros H. apply power_eqb_eq in H. congruence. }
        split; [split | auto]; [discriminate | intros [H|[H _]]; contradiction].
    + split; [split | auto]; [discriminate | intros [H|[_ H]]; contradiction].
Qed.

(** C8. When a pass on a VirtualMachine that is not paused and not being
    deleted ends with [ReconcileNormal] returning no error, the result of
    [Reconcile] asks for a requeue after [requeueDelay] of the object as the
    pass left it: exactly 10 seconds when the phase is Creating, or when the
    power state is powered-on and the IP address is empty, and zero in every
    other case. *)
Theorem requeue_delay_after_reconcile P c prov imports max req
    (s : Reconciler P) vm :
  client.GetVirtualMachine c req = Ok vm ->
  lookup (PauseAnnotation imports) (Annotations (vmMeta vm)) = None ->
  client.NewHelper c vm = None ->
  IsZero (DeletionTimestamp (vmMeta vm)) = true ->
  returned (ReconcileNormal c prov imports max (with_VM s vm)) = None ->
  let pass := Reconcile c prov imports max req s in
  let vm' := VM (final pass) in
  let delay := ctrl.RequeueAfter (fst (returned pass)) in
  vm' = VM (final (ReconcileNormal c prov imports max (with_VM s vm))) /\
  delay = requeueDelay vm' /\
  (delay = 10 * Second <->
   Phase (Status vm') = Creating \/
   (PowerState (Status vm') = VirtualMachinePoweredOn /\ VmIp (Status vm') = "")) /\
  (delay = 10 * Second \/ delay = 0).
Proof.
  intros Hget Hpause Hhelper Hzero Hok pass vm' delay.
  assert (vm' = VM (final (ReconcileNormal c prov imports max (with_VM s vm)))
          /\ delay = requeueDelay vm') as [Hvm Hdelay].
  { subst pass vm' delay. unfold Reconcile. go_unfold.
    rewrite Hget. go_simpl. rewrite Hpause, Hhelper, Hzero.
    go_simpl. fold (with_VM s vm).
    revert Hok. unfold returned, final.
    destruct (ReconcileNormal c prov imports max (with_VM s vm)) as [[r s1] l1].
    cbn [fst snd]. intros ->. go_simpl.
    destruct (client.Patch c vm (VM s1)); go_simpl; auto. }
  split; [exact Hvm|]. split; [exact Hdelay|].
  rewrite Hdelay. apply requeueDelay_spec.
Qed.

(** ** The finalizer comes first *)

Lemma ReconcileDelete_no_create P prov (s : Reconciler P) :
  Forall (fun e => is_create e = false) (calls (ReconcileDelete prov s)).
Proof.
  unfold ReconcileDelete, deleteVM. go_run; repeat constructor.
Qed.

Lemma ReconcileNormal_adds_finalizer P c prov imports max (s : Reconciler P) :
  controllerutil.ContainsFinalizer (vmMeta (VM s)) finalizerName = false ->
  ReconcileNormal c prov imports max s =
  (None,
   with_VM s (set_vmMeta (VM s)
                (controllerutil.AddFinalizer (vmMeta (VM s)) finalizerName)),
   []).
Proof.
  intros H. unfold ReconcileNormal. go_unfold. rewrite H. reflexivity.
Qed.

(** C1. A pass of [ReconcileNormal] on a VirtualMachine without the
    finalizer adds the finalizer and returns nil at once: it makes no call
    at all, so none on the provider, and leaves the provider and the count
    of creates as they were.  Seen from [Reconcile], such a pass reads the
    object and patches it with the finalizer added, nothing else.  And
    whenever a pass of [Reconcile] does call the provider's create, the
    object it read already carried the finalizer. *)
Theorem finalizer_before_create P c prov imports max (s : Reconciler P) :
  (controllerutil.ContainsFinalizer (vmMeta (VM s)) finalizerName = false ->
   let pass := ReconcileNormal c prov imports max s in
   returned pass = None /\
   calls pass = [] /\
   VM (final pass) =
     set_vmMeta (VM s) (controllerutil.AddFinalizer (vmMeta (VM s)) finalizerName) /\
   controllerutil.ContainsFinalizer (vmMeta (VM (final pass))) finalizerName = true /\
   provider (final pass) = provider s /\
   NumVMsBeingCreatedOnProvider (final pass) = NumVMsBeingCreatedOnProvider s) /\
  (forall req vm,
     client.GetVirtualMachine c req = Ok vm ->
     lookup (PauseAnnotation imports) (Annotations (vmMeta vm)) = None ->
     client.NewHelper c vm = None ->
     IsZero (DeletionTimestamp (vmMeta vm)) = true ->
     controllerutil.ContainsFinalizer (vmMeta vm) finalizerName = false ->
     let vm' := set_vmMeta vm (controllerutil.AddFinalizer (vmMeta vm) finalizerName) in
     calls (Reconcile c prov imports max req s) =
       [ClientGet "VirtualMachine" req; PatchHelperPatch vm' (client.Patch c vm vm')]) /\
  (forall req e,
     In e (calls (Reconcile c prov imports max req s)) ->
     is_create e = true ->
     exists vm,
       client.GetVirtualMachine c req = Ok vm /\
       controllerutil.ContainsFinalizer (vmMeta vm) finalizerName = true).
Proof.
  split; [|split].
  - intros H pass. subst pass. rewrite (ReconcileNormal_adds_finalizer _ _ _ _ _ H).
    cbn. repeat split; try reflexivity. apply ContainsFinalizer_Add.
  - intros req vm Hget Hpause Hhelper Hzero Hfin vm'.
    unfold Reconcile. go_unfold. rewrite Hget. go_simpl.
    rewrite Hpause, Hhelper, Hzero. go_simpl.
    rewrite ReconcileNormal_adds_finalizer by exact Hfin.
    go_simpl. cbn. destruct (client.Patch c vm _); reflexivity.
  - intros req e. unfold Reconcile. go_unfold.
    destruct (client.GetVirtualMachine c req) as [vm|err] eqn:Hget; go_simpl;
      [|one_event].
    destruct (lookup _ _); go_simpl; [one_event|].
    destruct (client.NewHelper c vm); go_simpl; [one_event|].
    destruct (IsZero (DeletionTimestamp (vmMeta vm))); go_simpl.
    + destruct (controllerutil.ContainsFinalizer (vmMeta vm) finalizerName) eqn:Hfin.
      * intros _ _. exists vm. auto.
      * rewrite ReconcileNormal_adds_finalizer by exact Hfin. go_simpl.
        destruct (client.Patch c vm _); go_simpl; one_event.
    + pose proof (ReconcileDelete_no_create prov
                    {| VM := vm; provider := provider s;
                       NumVMsBeingCreatedOnProvider := NumVMsBeingCreatedOnProvider s |})
        as Hd.
      unfold calls in Hd.
      destruct (ReconcileDelete prov _) as [[r s1] l1]. go_simpl. cbn [snd] in Hd.
      rewrite Forall_forall in Hd.
      destruct (client.Patch c vm (VM s1)), r; go_simpl;
        rewrite ?app_nil_r; intros [<-|Hin] He; try discriminate He;
        apply in_app_or in Hin; destruct Hin as [Hin|[<-|[]]]; try discriminate He;
        specialize (Hd _ Hin); congruence.
Qed.

(** ** Deleting *)

(** C2. [ReconcileDelete] on a VirtualMachine that carries the finalizer
    sets the phase to Deleting and calls the provider's delete on the object
    in that phase.  When the provider returns no error, or a NotFound error,
    the pass returns nil with the phase Deleted and the finalizer removed.
    On any other error the pass returns that very error and the object stays
    as the provider handed it back: with the finalizer and in phase Deleting
    whenever the provider's delete keeps the controller's fields. *)
Theorem ReconcileDelete_with_finalizer P prov (s : Reconciler P) :
  controllerutil.ContainsFinalizer (vmMeta (VM s)) finalizerName = true ->
  let deleting := set_Phase (VM s) Deleting in
  let '(p', vm', r) := vmprovider.DeleteVirtualMachine prov (provider s) deleting in
  let pass := ReconcileDelete prov s in
  hd_error (calls pass) = Some (ProviderDeleteVirtualMachine r) /\
  provider (final pass) = p' /\
  match r with
  | None => delete_completed pass
  | Some e =>
      if IsNotFound e then delete_completed pass
      else
        returned pass = Some e /\
        VM (final pass) = vm' /\
        (keeps deleting vm' ->
         controllerutil.ContainsFinalizer (vmMeta (VM (final pass))) finalizerName = true /\
         Phase (Status (VM (final pass))) = Deleting)
  end.
Proof.
  intros Hfin deleting.
  destruct (vmprovider.DeleteVirtualMachine prov (provider s) deleting)
    as [[p' vm'] r] eqn:Hdel.
  unfold ReconcileDelete, deleteVM, delete_completed. go_unfold. rewrite Hfin.
  go_simpl. fold deleting. rewrite Hdel. go_simpl.
  destruct r as [e|]; go_simpl; [destruct (IsNotFound e); go_simpl|];
    cbn [hd_error set_Phase set_vmMeta Status Phase vmMeta].
  - repeat split. apply ContainsFinalizer_Remove.
  - repeat split.
    + unfold controllerutil.ContainsFinalizer.
      destruct H as (-> & _ & _). exact Hfin.
    + destruct H as (_ & _ & ->). reflexivity.
  - repeat split. apply ContainsFinalizer_Remove.
Qed.

(** ** Conditions *)

Lemma find_Set_ c cs :
  find (fun x => String.eqb (condType x) (condType c)) (conditions.Set_ c cs) = Some c.
Proof.
  induction cs as [|x cs IH]; simpl.
  - rewrite String.eqb_refl. reflexivity.
  - destruct (String.eqb (condType x) (condType c)) eqn:E; simpl.
    + rewrite String.eqb_refl. reflexivity.
    + rewrite E. exact IH.
Qed.

Lemma IsFalse_MarkFalse vm t reason severity message :
  conditions.IsFalse (conditions.MarkFalse vm t reason severity message) t = true.
Proof.
  unfold conditions.IsFalse, conditions.Get, conditions.MarkFalse.
  cbn [set_Conditions Status Conditions].
  rewrite (find_Set_ {| condType := t; condStatus := ConditionFalse;
                        condSeverity := severity; condReason := reason;
                        condMessage := message |}).
  reflexivity.
Qed.

Lemma IsTrue_MarkTrue vm t :
  conditions.IsTrue (conditions.MarkTrue vm t) t = true.
Proof.
  unfold conditions.IsTrue, conditions.Get, conditions.MarkTrue.
  cbn [set_Conditions Status Conditions].
  rewrite (find_Set_ {| condType := t; condStatus := ConditionTrue;
                        condSeverity := ConditionSeverityNone; condReason := "";
                        condMessage := "" |}).
  reflexivity.
Qed.

(** ** Class bindings *)

(** C5. With the VM-service switch on, when the list of class bindings of
    the VirtualMachine's namespace (if the list can be read at all) holds no
    binding whose reference names the class, [getVMClass] fails and leaves
    the PrereqReady condition false on the object; [createOrUpdateVM]
    returns that error having done nothing more than [getVMClass] did, and
    none of its calls is a call on the provider. *)
Theorem class_binding_enforced P c prov imports max (s : Reconciler P) :
  IsVMServiceFSSEnabled imports = true ->
  (forall items,
     client.ListVirtualMachineClassBindings c (Namespace (vmMeta (VM s))) = Ok items ->
     forall b, In b items ->
       ~ (refKind (ClassRef b) = "VirtualMachineClass" /\
          refName (ClassRef b) = ClassName (Spec (VM s)))) ->
  let resolution := getVMClass c imports s in
  let pass := createOrUpdateVM c prov imports max s in
  (exists e, returned resolution = Err e /\ returned pass = Some e) /\
  conditions.IsFalse (VM (final pass)) VirtualMachinePrereqReadyCondition = true /\
  final pass = final resolution /\
  calls pass = calls resolution /\
  (forall e, In e (calls pass) -> provider_call e = false).
Proof.
  intros Hfss Hnone resolution pass.
  assert ((exists e, returned resolution = Err e) /\
          conditions.IsFalse (VM (final resolution)) VirtualMachinePrereqReadyCondition = true /\
          forall e, In e (calls resolution) -> provider_call e = false)
    as ((e & He) & Hcond & Hcalls).
  { subst resolution. unfold getVMClass. go_unfold. rewrite Hfss.
    destruct (client.GetVirtualMachineClass c _) as [cls|err]; go_simpl.
    - destruct (client.ListVirtualMachineClassBindings c _) as [items|err] eqn:Hlist;
        go_simpl.
      + assert (existsb
                  (fun classBinding =>
                     String.eqb (refKind (ClassRef classBinding)) "VirtualMachineClass"
                     && String.eqb (refName (ClassRef classBinding))
                                   (ClassName (Spec (VM s)))) items = false) as ->.
        { destruct (existsb _ items) eqn:Ex; [|reflexivity].
          apply existsb_exists in Ex. destruct Ex as (b & Hin & Hb).
          apply andb_true_iff in Hb. destruct Hb as [Hk Hn].
          apply String.eqb_eq in Hk, Hn.
          exfalso. exact (Hnone items eq_refl b Hin (conj Hk Hn)). }
        go_simpl. cbn [fst snd]. split; [eauto|]. split.
        * apply IsFalse_MarkFalse.
        * intros ev. one_event_false.
      + cbn [fst snd]. split; [eauto|]. split.
        * apply IsFalse_MarkFalse.
        * intros ev. one_event_false.
    - cbn [fst snd]. split; [eauto|]. split.
      + apply IsFalse_MarkFalse.
      + intros ev. one_event_false. }
  assert (pass = (Some e, final resolution, calls resolution)) as Hpass.
  { subst pass. unfold createOrUpdateVM. go_unfold. fold resolution.
    revert He. unfold returned, final, calls.
    destruct resolution as [[r s1] l1]. cbn [fst snd]. intros ->.
    go_simpl. rewrite !app_nil_r. reflexivity. }
  rewrite Hpass. cbn [returned final calls fst snd]. repeat split; eauto.
Qed.

(** ** Stepping through a function body *)

Lemma func_bind_call St R A (f : Call St A) (k : A -> M St R R) s :
  func (bind (call f) k) s =
  let '(a, s1, l1) := f s in
  let '(r, s2, l2) := func (k a) s1 in
  (r, s2, l1 ++ l2).
Proof.
  unfold func, bind, call.
  destruct (f s) as [[a s1] l1].
  destruct (k a s1) as [[[o s2] l2] d2].
  rewrite app_nil_r.
  destruct (run_deferred d2 _ s2) as [[r' s3] l3].
  rewrite app_assoc. reflexivity.
Qed.

Lemma func_bind_next St R A (a : A) (k : A -> M St R R) s :
  func (bind (next a) k) s = func (k a) s.
Proof.
  unfold func, bind, next.
  destruct (k a s) as [[[o s2] l2] d2].
  rewrite app_nil_r. reflexivity.
Qed.

Lemma func_bind_return St R A (r : R) (k : A -> M St R R) s :
  func (bind (return_ r) k) s = (r, s, []).
Proof. reflexivity. Qed.

Lemma func_bind_modify St R (f : St -> St) (k : unit -> M St R R) s :
  func (bind (modify f) k) s = func (k tt) (f s).
Proof.
  unfold func, bind, modify.
  destruct (k tt (f s)) as [[[o s2] l2] d2].
  rewrite app_nil_r. reflexivity.
Qed.

Lemma getResourcePolicy_returns P c prov imports (s : Reconciler P) o :
  returned (getResourcePolicy c prov imports s) = Ok o ->
  match o with
  | None => ResourcePolicyName (Spec (VM s)) = ""
  | Some rp =>
      client.GetVirtualMachineSetResourcePolicy c
        {| keyNamespace := Namespace (vmMeta (VM s));
           keyName := ResourcePolicyName (Spec (VM s)) |} = Ok rp
  end.
Proof.
  unfold getResourcePolicy. go_run; cbn [fst]; intros H; inversion H; subst; auto.
  apply String.eqb_eq. assumption.
Qed.

(** ** [createOrUpdateVM], in two halves *)

(** Running a call whose effect on the object and the count is [quiet]. *)
Ltac step_quiet lem f s :=
  rewrite func_bind_call;
  let Q := fresh "Q" in
  pose proof (lem s) as Q; revert Q;
  unfold final, calls;
  let r := fresh "r" in
  let s' := fresh "s" in
  let l := fresh "l" in
  let F := fresh "F" in
  let N := fresh "N" in
  let C := fresh "C" in
  destruct (f s) as [[r s'] l] eqn:?; cbn [fst snd]; intros (F & N & C).

Ltac stop_here err :=
  rewrite func_bind_return; left; exists err;
  cbn [returned final calls fst snd]; rewrite ?app_nil_r;
  repeat split; [congruence | congruence | repeat (apply Forall_app; split); auto].

Lemma createOrUpdateVM_split P c prov imports max (s : Reconciler P) :
  let pass := createOrUpdateVM c prov imports max s in
  (exists e,
     returned pass = Some e /\
     forget (VM (final pass)) = forget (VM s) /\
     NumVMsBeingCreatedOnProvider (final pass) = NumVMsBeingCreatedOnProvider s /\
     Forall (fun e => prereq_event e = true) (calls pass)) \/
  (exists args s1 l1,
     resolved c s args s1 l1 /\
     pass = let '(r, s2, l2) := func (reconcileOnProvider prov imports max args) s1 in
            (r, s2, l1 ++ l2)).
Proof.
  intros pass. subst pass. unfold createOrUpdateVM.
  step_quiet (@getVMClass_quiet P c imports) (@getVMClass P c imports) s.
  destruct r as [vmClass|err]; [rewrite func_bind_next | stop_here err].
  step_quiet (@reconcileInstanceStorageSpec_quiet P imports vmClass)
             (@reconcileInstanceStorageSpec P imports vmClass) s0.
  destruct r as [err|]; [stop_here err | rewrite func_bind_next].
  step_quiet (@getImageAndContentLibraryUUID_quiet P c imports)
             (@getImageAndContentLibraryUUID P c imports) s1.
  destruct r as [[vmImage clUUID]|err]; [rewrite func_bind_next | stop_here err].
  step_quiet (@getVMMetadata_quiet P c) (@getVMMetadata P c) s2.
  destruct r as [vmMetadata|err]; [rewrite func_bind_next | stop_here err].
  step_quiet (@getResourcePolicy_quiet P c prov imports)
             (@getResourcePolicy P c prov imports) s3.
  destruct r as [resourcePolicy|err]; [rewrite func_bind_next | stop_here err].
  step_quiet (@getStoragePolicyID_quiet P c) (@getStoragePolicyID P c) s4.
  destruct r as [storagePolicyID|err]; [rewrite func_bind_next | stop_here err].
  unfold MarkTrue, updateVM. rewrite func_bind_modify.
  right.
  exists {| argVMClass := vmClass; argVMImage := vmImage;
            argVMMetadata := vmMetadata; argResourcePolicy := resourcePolicy;
            argStorageProfileID := storagePolicyID;
            argContentLibraryUUID := clUUID |}.
  exists (with_VM s5 (conditions.MarkTrue (VM s5) VirtualMachinePrereqReadyCondition)).
  exists (l ++ l0 ++ l1 ++ l2 ++ l3 ++ l4).
  split.
  - unfold resolved, with_VM.
    cbn [VM NumVMsBeingCreatedOnProvider argResourcePolicy].
    repeat split.
    + change (forget (VM s5) = forget (VM s)). congruence.
    + congruence.
    + repeat (apply Forall_app; split); auto.
    + apply IsTrue_MarkTrue.
    + pose proof (@getResourcePolicy_returns P c prov imports s3 resourcePolicy) as Hrp.
      rewrite Heqp3 in Hrp. specialize (Hrp eq_refl).
      assert (forget (VM s3) = forget (VM s)) as F' by congruence.
      assert (Namespace (vmMeta (VM s3)) = Namespace (vmMeta (VM s))) as <-
        by exact (f_equal (fun v => Namespace (vmMeta v)) F').
      assert (ResourcePolicyName (Spec (VM s3)) = ResourcePolicyName (Spec (VM s))) as <-
        by exact (f_equal (fun v => ResourcePolicyName (Spec v)) F').
      exact Hrp.
  - unfold with_VM.
    match goal with
    | |- context [func ?b ?st] =>
        change (func b st)
          with (func (reconcileOnProvider prov imports max
                        {| argVMClass := vmClass; argVMImage := vmImage;
                           argVMMetadata := vmMetadata;
                           argResourcePolicy := resourcePolicy;
                           argStorageProfileID := storagePolicyID;
                           argContentLibraryUUID := clUUID |}) st);
        destruct (func (reconcileOnProvider prov imports max
                        {| argVMClass := vmClass; argVMImage := vmImage;
                           argVMMetadata := vmMetadata;
                           argResourcePolicy := resourcePolicy;
                           argStorageProfileID := storagePolicyID;
                           argContentLibraryUUID := clUUID |}) st) as [[r s6] l5]
    end.
    rewrite <- !app_assoc. reflexivity.
Qed.

(** ** Waiting for a create slot *)

(** Deciding membership in a short, explicit trace. *)
Ltac in_trace H :=
  cbn [In app] in H;
  repeat match type of H with
         | _ \/ _ => destruct H as [H|H]
         | False => contradiction
         | _ = _ => first [discriminate H | injection H as H]
         end.

Lemma reconcileOnProvider_no_slot P prov imports max args (s : Reconciler P) :
  let pass := func (reconcileOnProvider prov imports max args) s in
  In (ProviderDoesVirtualMachineExist (Ok false)) (calls pass) ->
  max <= NumVMsBeingCreatedOnProvider s ->
  returned pass = None /\
  (forall e, In e (calls pass) -> is_create e = false /\ is_update e = false) /\
  NumVMsBeingCreatedOnProvider (final pass) = NumVMsBeingCreatedOnProvider s /\
  Phase (Status (VM (final pass))) = Creating.
Proof.
  intros pass Hin Hmax. subst pass. revert Hin.
  unfold reconcileOnProvider. go_run; intros Hin; in_trace Hin; subst;
    try discriminate; try (exfalso; lia).
  cbn [set_Phase Status Phase]. repeat split; auto.
  all: revert H; one_event_false.
Qed.

Lemma prereq_trace_no_exists l r :
  Forall (fun e => prereq_event e = true) l ->
  ~ In (ProviderDoesVirtualMachineExist r) l.
Proof.
  intros Hall Hin. rewrite Forall_forall in Hall.
  specialize (Hall _ Hin). discriminate Hall.
Qed.

Lemma prereq_trace_no_create_update l e :
  Forall (fun e => prereq_event e = true) l ->
  In e l -> is_create e = false /\ is_update e = false.
Proof.
  intros Hall Hin. rewrite Forall_forall in Hall.
  specialize (Hall _ Hin). destruct e; try discriminate Hall; auto.
Qed.

(** C3. In a pass of [createOrUpdateVM] in which the provider answers that
    the VirtualMachine does not exist while the count of creates in flight
    has reached the bound, the function returns nil, calls neither the
    provider's create nor its update, leaves the count as it was, and has
    set the phase to Creating. *)
Theorem create_deferred_without_slot P c prov imports max (s : Reconciler P) :
  let pass := createOrUpdateVM c prov imports max s in
  In (ProviderDoesVirtualMachineExist (Ok false)) (calls pass) ->
  max <= NumVMsBeingCreatedOnProvider s ->
  returned pass = None /\
  (forall e, In e (calls pass) -> is_create e = false /\ is_update e = false) /\
  NumVMsBeingCreatedOnProvider (final pass) = NumVMsBeingCreatedOnProvider s /\
  Phase (Status (VM (final pass))) = Creating.
Proof.
  intros pass Hin Hmax.
  destruct (createOrUpdateVM_split c prov imports max s)
    as [(e & _ & _ & _ & Hall) | (args & s1 & l1 & Hres & Hpass)];
    fold pass in Hall || fold pass in Hpass.
  - exfalso. exact (@prereq_trace_no_exists _ _ Hall Hin).
  - destruct Hres as (_ & HN & Hall & _).
    pose proof (@reconcileOnProvider_no_slot P prov imports max args s1) as Hstage.
    cbv zeta in Hstage. revert Hstage Hin. rewrite Hpass.
    unfold returned, final, calls.
    destruct (func (reconcileOnProvider prov imports max args) s1) as [[r s2] l2].
    cbn [fst snd]. intros Hstage Hin.
    apply in_app_or in Hin. destruct Hin as [Hin|Hin];
      [exfalso; exact (@prereq_trace_no_exists _ _ Hall Hin)|].
    rewrite HN in Hstage.
    destruct (Hstage Hin Hmax) as (Hr & Hno & Hnum & Hph).
    repeat split; try assumption; try congruence;
      apply in_app_or in H; destruct H as [H|H];
      first [apply (@prereq_trace_no_create_update _ _ Hall H) | apply (Hno _ H)].
Qed.

(** ** A resource policy that is being deleted *)

Lemma reconcileOnProvider_policy_deleting P prov imports max args
    (s : Reconciler P) rp :
  let pass := func (reconcileOnProvider prov imports max args) s in
  In (ProviderDoesVirtualMachineExist (Ok false)) (calls pass) ->
  NumVMsBeingCreatedOnProvider s < max ->
  argResourcePolicy args = Some rp ->
  IsZero (DeletionTimestamp (rpMeta rp)) = false ->
  returned pass =
    Some (Errorf "cannot create VirtualMachine with its resource policy in DELETING state") /\
  (forall e, In e (calls pass) -> is_create e = false /\ is_update e = false).
Proof.
  intros pass Hin Hnum Hrp Hdel. subst pass. revert Hin.
  unfold reconcileOnProvider. rewrite Hrp. go_unfold. rewrite Hdel.
  go_simpl. repeat (go_case; go_simpl);
    intros Hin; in_trace Hin; subst; try discriminate; try (exfalso; lia).
  split; [reflexivity|]. intros e. one_event_false.
Qed.

(** C10. In a pass of [createOrUpdateVM] in which the provider answers that
    the VirtualMachine does not exist, the count of creates in flight is
    below the bound (so the pass takes a slot), and the resource policy the
    VirtualMachine names is read with a non-zero deletion timestamp, the
    function returns an error and calls neither the provider's create nor
    its update. *)
Theorem no_create_under_deleting_policy P c prov imports max
    (s : Reconciler P) rp :
  let pass := createOrUpdateVM c prov imports max s in
  In (ProviderDoesVirtualMachineExist (Ok false)) (calls pass) ->
  NumVMsBeingCreatedOnProvider s < max ->
  ResourcePolicyName (Spec (VM s)) <> "" ->
  client.GetVirtualMachineSetResourcePolicy c
    {| keyNamespace := Namespace (vmMeta (VM s));
       keyName := ResourcePolicyName (Spec (VM s)) |} = Ok rp ->
  IsZero (DeletionTimestamp (rpMeta rp)) = false ->
  returned pass =
    Some (Errorf "cannot create VirtualMachine with its resource policy in DELETING state") /\
  (forall e, In e (calls pass) -> is_create e = false /\ is_update e = false).
Proof.
  intros pass Hin Hnum Hname Hget Hdel.
  destruct (createOrUpdateVM_split c prov imports max s)
    as [(e & _ & _ & _ & Hall) | (args & s1 & l1 & Hres & Hpass)];
    fold pass in Hall || fold pass in Hpass.
  - exfalso. exact (@prereq_trace_no_exists _ _ Hall Hin).
  - destruct Hres as (_ & HN & Hall & _ & Hrp).
    assert (argResourcePolicy args = Some rp) as Hargs.
    { destruct (argResourcePolicy args) as [rp'|]; [congruence | contradiction]. }
    pose proof (@reconcileOnProvider_policy_deleting P prov imports max args s1 rp)
      as Hstage.
    cbv zeta in Hstage. revert Hstage Hin. rewrite Hpass.
    unfold returned, final, calls.
    destruct (func (reconcileOnProvider prov imports max args) s1) as [[r s2] l2].
    cbn [fst snd]. intros Hstage Hin.
    apply in_app_or in Hin. destruct Hin as [Hin|Hin];
      [exfalso; exact (@prereq_trace_no_exists _ _ Hall Hin)|].
    rewrite HN in Hstage.
    destruct (Hstage Hin Hnum Hargs Hdel) as (Hr & Hno).
    split; [assumption|].
    intros ev Hev. apply in_app_or in Hev. destruct Hev as [Hev|Hev];
      first [apply (@prereq_trace_no_create_update _ _ Hall Hev) | apply (Hno _ Hev)].
Qed.

(** ** Metadata from a ConfigMap or from a Secret, not both *)

Lemma getVMMetadata_both P c (s : Reconciler P) md :
  VmMetadata (Spec (VM s)) = Some md ->
  ConfigMapName md <> "" ->
  SecretName md <> "" ->
  getVMMetadata c s =
  (Err (Errorf "failed to get VM metadata. Both configMapName and secretName are specified"),
   s, []).
Proof.
  intros Hmd Hcm Hsec. unfold getVMMetadata. go_unfold. rewrite Hmd.
  apply String.eqb_neq in Hcm, Hsec. rewrite Hcm, Hsec. reflexivity.
Qed.

Lemma early_trace l e :
  Forall (fun e => early_read e = true) l ->
  In e l ->
  provider_call e = false /\
  is_client_get "ConfigMap" e = false /\
  is_client_get "Secret" e = false.
Proof.
  intros Hall Hin. rewrite Forall_forall in Hall. specialize (Hall _ Hin).
  destruct e; try discriminate Hall; auto.
  cbn in Hall |- *. apply andb_true_iff in Hall. destruct Hall as [H1 H2].
  apply negb_true_iff in H1, H2. auto.
Qed.

(** Two runs of the same call from the same state are the same run. *)
Ltac same_run :=
  repeat match goal with
         | H : (_, _, _) = (_, _, _) |- _ => inversion H; subst; clear H
         | H : ?x = _, H' : ?x = _ |- _ => rewrite H in H'
         end.

(** A call found in a trace put together from early reads. *)
Ltac early_calls H :=
  repeat (apply in_app_or in H; destruct H as [H|H]);
  match goal with
  | C : Forall _ ?l, H' : In _ ?l |- _ => exact (@early_trace l _ C H')
  end.

(** C6. On a VirtualMachine whose metadata reference names both a ConfigMap
    and a Secret, [getVMMetadata] fails with its dedicated error without a
    single call, so without reading either object.  [createOrUpdateVM] on
    such an object always returns an error, never calls the provider and
    never reads a ConfigMap or a Secret; and when the class, the instance
    storage and the image resolve, the error it returns is that of
    [getVMMetadata]. *)
Theorem metadata_sources_exclusive P c prov imports max (s : Reconciler P) md :
  VmMetadata (Spec (VM s)) = Some md ->
  ConfigMapName md <> "" ->
  SecretName md <> "" ->
  let dedicated :=
    Errorf "failed to get VM metadata. Both configMapName and secretName are specified" in
  let pass := createOrUpdateVM c prov imports max s in
  getVMMetadata c s = (Err dedicated, s, []) /\
  (exists e, returned pass = Some e) /\
  (forall ev, In ev (calls pass) ->
     provider_call ev = false /\
     is_client_get "ConfigMap" ev = false /\
     is_client_get "Secret" ev = false) /\
  (forall vmClass s1 l1 s2 l2 img s3 l3,
     getVMClass c imports s = (Ok vmClass, s1, l1) ->
     reconcileInstanceStorageSpec imports vmClass s1 = (None, s2, l2) ->
     getImageAndContentLibraryUUID c imports s2 = (Ok img, s3, l3) ->
     pass = (Some dedicated, s3, l1 ++ l2 ++ l3)).
Proof.
  intros Hmd Hcm Hsec dedicated pass.
  split; [apply getVMMetadata_both with (md := md); assumption|].
  assert (forall s' : Reconciler P, forget (VM s') = forget (VM s) ->
                     getVMMetadata c s' = (Err dedicated, s', [])) as Hfail.
  { intros s' F. apply getVMMetadata_both with (md := md); auto.
    rewrite <- Hmd. exact (f_equal (fun v => VmMetadata (Spec v)) F). }
  subst pass. unfold createOrUpdateVM.
  step_quiet (@getVMClass_early P c imports) (@getVMClass P c imports) s.
  destruct r as [vmClass|err]; [rewrite func_bind_next | rewrite func_bind_return].
  2:{ cbn [returned calls fst snd]. rewrite app_nil_r. split; [eauto|].
      split; [intros ev Hev; early_calls Hev | intros; same_run]. }
  step_quiet (@reconcileInstanceStorageSpec_early P imports vmClass)
             (@reconcileInstanceStorageSpec P imports vmClass) s0.
  destruct r as [err|]; [rewrite func_bind_return | rewrite func_bind_next].
  1:{ cbn [returned calls fst snd]. rewrite app_nil_r. split; [eauto|].
      split; [intros ev Hev; early_calls Hev | intros; same_run]. }
  step_quiet (@getImageAndContentLibraryUUID_early P c imports)
             (@getImageAndContentLibraryUUID P c imports) s1.
  destruct r as [[vmImage clUUID]|err]; [rewrite func_bind_next | rewrite func_bind_return].
  2:{ cbn [returned calls fst snd]. rewrite app_nil_r. split; [eauto|].
      split; [intros ev Hev; early_calls Hev | intros; same_run]. }
  rewrite func_bind_call. rewrite Hfail by congruence. rewrite func_bind_return.
  cbn [returned calls fst snd]. rewrite !app_nil_r.
  split; [eauto|].
  split; [intros ev Hev; early_calls Hev | intros; same_run; reflexivity].
Qed.

(** ** From the image to its content library *)

(** C7, as the code has it. [getImageAndContentLibraryUUID] first reads the
    image by name.  It fails when the image has no owner reference of kind
    ContentLibraryProvider, and otherwise reads the provider that reference
    names.  The step from the provider to a ContentSource is taken only with
    the VM-service switch on: then a provider without an owner reference of
    kind ContentSource makes the function fail, and otherwise that
    ContentSource is read; with the switch off the function returns the
    image and the provider's UUID after those two reads, whatever the
    provider hangs on. *)
Theorem image_owner_chain P c imports (s : Reconciler P) image :
  let imageKey := {| keyNamespace := ""; keyName := ImageName (Spec (VM s)) |} in
  client.GetVirtualMachineImage c imageKey = Ok image ->
  let pass := getImageAndContentLibraryUUID c imports s in
  hd_error (calls pass) = Some (ClientGet "VirtualMachineImage" imageKey) /\
  match find (fun ownerRef => String.eqb (ownerKind ownerRef) "ContentLibraryProvider")
             (OwnerReferences (imageMeta image)) with
  | None => exists e, returned pass = Err e
  | Some ownerRef =>
      let clKey := {| keyNamespace := ""; keyName := ownerName ownerRef |} in
      nth_error (calls pass) 1 = Some (ClientGet "ContentLibraryProvider" clKey) /\
      match client.GetContentLibraryProvider c clKey with
      | Err e => returned pass = Err e
      | Ok clProvider =>
          if IsVMServiceFSSEnabled imports then
            match find (fun ownerRef => String.eqb (ownerKind ownerRef) "ContentSource")
                       (OwnerReferences (clpMeta clProvider)) with
            | None => exists e, returned pass = Err e
            | Some ownerRef' =>
                nth_error (calls pass) 2 =
                Some (ClientGet "ContentSource"
                        {| keyNamespace := ""; keyName := ownerName ownerRef' |})
            end
          else
            returned pass = Ok (image, clpUUID clProvider) /\
            calls pass = [ClientGet "VirtualMachineImage" imageKey;
                          ClientGet "ContentLibraryProvider" clKey]
      end
  end.
Proof.
  intros imageKey Hget pass. subst pass imageKey.
  unfold getImageAndContentLibraryUUID, getContentLibraryProviderFromImage,
    getContentSourceFromCLProvider.
  go_unfold. rewrite Hget. go_simpl.
  destruct (find _ (OwnerReferences (imageMeta image))) as [ownerRef|]; go_simpl;
    [|cbn [hd_error]; eauto].
  destruct (client.GetContentLibraryProvider c _) as [clProvider|e]; go_simpl;
    [|cbn [hd_error nth_error]; auto].
  destruct (IsVMServiceFSSEnabled imports); go_simpl;
    [|cbn [hd_error nth_error]; auto].
  destruct (find _ (OwnerReferences (clpMeta clProvider))) as [ownerRef'|]; go_simpl;
    [|cbn [hd_error nth_error]; eauto].
  repeat (go_case; go_simpl); cbn [hd_error nth_error]; auto.
Qed.

(** C7, as the spec has it, fails: with the VM-service switch off, an image
    whose content library provider has no owner reference to a
    ContentSource resolves without error. *)
Lemma image_resolves_without_content_source :
  find (fun ownerRef => String.eqb (ownerKind ownerRef) "ContentSource")
       (OwnerReferences (clpMeta Scenario.library)) = None /\
  getImageAndContentLibraryUUID
    (Scenario.apiserver Scenario.finalized) (Scenario.switches false)
    (Scenario.reconciler Scenario.finalized false 0) =
  (Ok (Scenario.photon, "cl-uuid"),
   Scenario.reconciler Scenario.finalized false 0,
   [ClientGet "VirtualMachineImage" {| keyNamespace := ""; keyName := "photon" |};
    ClientGet "ContentLibraryProvider" {| keyNamespace := ""; keyName := "library" |}]).
Proof. split; reflexivity. Qed.

Lemma image_owner_chain_witness :
  client.GetVirtualMachineImage (Scenario.apiserver Scenario.finalized)
    {| keyNamespace := ""; keyName := "photon" |} = Ok Scenario.photon /\
  exists e,
    returned (getImageAndContentLibraryUUID
                (Scenario.apiserver Scenario.finalized) (Scenario.switches true)
                (Scenario.reconciler Scenario.finalized false 0)) = Err e.
Proof.
  split; [reflexivity|].
  pose proof (@image_owner_chain bool (Scenario.apiserver Scenario.finalized)
                (Scenario.switches true)
                (Scenario.reconciler Scenario.finalized false 0)
                Scenario.photon eq_refl) as H.
  vm_compute in H. destruct H as (_ & _ & H). exact H.
Defined.

(** * The endpoints of a service *)

Import virtualmachineservice.

(** One selected VirtualMachine has no address yet, the other answers its
    probe: the subsets hold one address, that of the one that answers, and
    the Endpoints object, which lists just that, is left alone. *)
Example endpoints_of_reachable_backend :
  returned (selectEndpoints Serving.reachable Serving.web Serving.service
              [Serving.booting; Serving.backend] 0 [] tt) =
    (0, [{| Addresses := [makeEndpointAddress Serving.web Serving.backend];
            epsPorts := [{| eppName := "http"; eppPort := 80; eppProtocol := "TCP" |}] |}]) /\
  let pass := updateEndpoints (Serving.apiserver [Serving.booting; Serving.backend])
                Serving.reachable Serving.noAnnotations Serving.web Serving.service tt in
  returned pass = None /\
  map label (calls pass) = ["List VirtualMachine"; "DialTimeout"; "Get Endpoints"].
Proof. vm_compute. repeat split; reflexivity. Qed.

Lemma wrap_int_small z : - 2 ^ 63 <= z < 2 ^ 63 -> wrap_int z = z.
Proof.
  intros H. unfold wrap_int. rewrite Z.mod_small; lia.
Qed.

Lemma runProbe_no_write dial vmService vm p :
  Forall (fun e => is_endpoints_write e = false)
         (calls (runProbe dial vmService vm p tt)).
Proof.
  unfold runProbe, checkConnection. go_run; repeat constructor.
Qed.

Lemma selectEndpoints_every_probe_fails dial vmService service items :
  Forall (reaches_and_fails_probe dial vmService) items ->
  forall n subsets,
    0 <= n ->
    n + Z.of_nat (List.length items) < 2 ^ 63 ->
    returned (selectEndpoints dial vmService service items n subsets tt) =
      (n + Z.of_nat (List.length items), subsets) /\
    Forall (fun e => is_endpoints_write e = false)
           (calls (selectEndpoints dial vmService service items n subsets tt)).
Proof.
  induction 1 as [|vm items (Hdel & Hip & Hhost & e & Hprobe) _ IH];
    intros n subsets Hn Hlen.
  - cbn. rewrite Z.add_0_r. auto.
  - cbn [selectEndpoints]. rewrite Hdel.
    destruct (VmIp (Status vm)) as [|a ip] eqn:Eip; [contradiction|].
    cbn [String.length Nat.eqb].
    apply String.eqb_neq in Hhost. rewrite Hhost.
    pose proof (runProbe_no_write dial vmService vm (ReadinessProbe (Spec vm))) as Hw.
    revert Hprobe Hw. unfold returned, calls.
    destruct (runProbe dial vmService vm (ReadinessProbe (Spec vm)) tt)
      as [[err []] l1].
    cbn [fst snd]. intros -> Hw.
    change (List.length (vm :: items)) with (S (List.length items)) in Hlen |- *.
    rewrite Nat2Z.inj_succ in Hlen |- *.
    rewrite wrap_int_small by lia.
    destruct (IH (n + 1) subsets) as [Hr Hc]; [lia | lia |].
    revert Hr Hc. unfold returned, calls.
    destruct (selectEndpoints dial vmService service items (n + 1) subsets tt)
      as [[r s2] l2].
    cbn [fst snd]. intros -> Hc. split.
    + f_equal. lia.
    + apply Forall_app. auto.
Qed.

(** No call of a trace writes Endpoints, when none of its part [Hw] speaks
    about does. *)
Ltac no_write Hw :=
  let e := fresh "e" in
  let Hin := fresh "Hin" in
  intros e Hin;
  repeat match type of Hin with
         | In _ (_ ++ _) => apply in_app_or in Hin; destruct Hin as [Hin|Hin]
         | In _ (_ :: _) => destruct Hin as [Hin|Hin]; [subst; reflexivity|]
         | In _ [] => contradiction
         end;
  try (apply Hw; assumption).

(** Looking a call up in a trace. *)
Ltac last_call :=
  match goal with
  | |- In _ (_ :: _) => first [left; reflexivity | right; last_call]
  | |- In _ (_ ++ _) =>
      apply in_or_app; first [right; last_call | left; last_call]
  end.

Lemma DeepEqual_nil subsets : DeepEqual subsets [] = true <-> subsets = [].
Proof.
  unfold DeepEqual. destruct (list_eq_dec EndpointSubset_eq_dec subsets []);
    split; congruence.
Qed.

(** C9, as the code has it.  When the selection of a VirtualMachineService
    is not empty (and, as any Go slice, shorter than 2^63) and every
    selected VirtualMachine gets to its readiness probe and fails it,
    [updateEndpoints] works out an empty list of subsets.
    If the Endpoints object is there with no subsets, nothing is written and
    the function returns the 10-second [RequeueAfterError].  If it is there
    with subsets, or is not there at all, an Endpoints object without
    subsets is written over it (updated, or created when the current one has
    no resource version) and the function returns the error of that write
    or, when it has none, the 10-second [RequeueAfterError].  If reading the
    Endpoints object fails otherwise, that error is returned and nothing is
    written.  [Reconcile] turns the [RequeueAfterError] into a result that
    asks for a requeue after 10 seconds, with no error. *)
Theorem endpoints_when_every_probe_fails c dial AddAnnotations vmService service vms :
  client.ListVirtualMachines c (Namespace (vmsMeta vmService)) (vmsSelector vmService)
    = Ok vms ->
  vms <> [] ->
  Z.of_nat (List.length vms) < 2 ^ 63 ->
  Forall (reaches_and_fails_probe dial vmService) vms ->
  let pass := updateEndpoints c dial AddAnnotations vmService service tt in
  let key := {| keyNamespace := Namespace (svcMeta service);
                keyName := Name (svcMeta service) |} in
  let emptied := {| epMeta := MakeObjectMeta AddAnnotations vmService; Subsets := [] |} in
  match client.GetEndpoints c key with
  | Ok currentEndpoints =>
      match Subsets currentEndpoints with
      | [] =>
          returned pass = requeueAfterProbeFailure /\
          (forall e, In e (calls pass) -> is_endpoints_write e = false)
      | _ :: _ =>
          if Nat.eqb (String.length (ResourceVersion (epMeta currentEndpoints))) 0 then
            In (ClientCreateEndpoints emptied (client.CreateEndpoints c emptied)) (calls pass) /\
            returned pass = after_write (client.CreateEndpoints c emptied)
          else
            In (ClientUpdateEndpoints emptied (client.UpdateEndpoints c emptied)) (calls pass) /\
            returned pass = after_write (client.UpdateEndpoints c emptied)
      end
  | Err err =>
      if IsNotFound err then
        In (ClientCreateEndpoints emptied (client.CreateEndpoints c emptied)) (calls pass) /\
        returned pass = after_write (client.CreateEndpoints c emptied)
      else
        returned pass = Some (IsError err) /\
        (forall e, In e (calls pass) -> is_endpoints_write e = false)
  end /\
  reconcileResult requeueAfterProbeFailure =
    ({| ctrl.Requeue := false; ctrl.RequeueAfter := 10 * Second |}, None).
Proof.
  intros Hlist Hne Hlen Hall pass key emptied.
  split; [|reflexivity].
  destruct (@selectEndpoints_every_probe_fails dial vmService service vms Hall 0 [])
    as [Hsel Hw]; [lia | lia |].
  subst pass. unfold updateEndpoints. go_unfold. rewrite Hlist. go_simpl.
  revert Hsel Hw. unfold returned, calls.
  destruct (selectEndpoints dial vmService service vms 0 [] tt) as [[r []] l1].
  cbn [fst snd]. intros -> Hw. go_simpl.
  assert ((0 + Z.of_nat (List.length vms) >? 0)
          && (0 + Z.of_nat (List.length vms) =? Z.of_nat (List.length vms)) = true)
    as ->.
  { destruct vms as [|vm vms']; [contradiction|].
    apply andb_true_iff. split; [apply Z.gtb_lt | apply Z.eqb_eq]; cbn [List.length]; lia. }
  fold key. rewrite Forall_forall in Hw.
  destruct (client.GetEndpoints c key) as [cur|err]; go_simpl.
  - destruct (Subsets cur) as [|sub subs] eqn:Esub.
    + rewrite (proj2 (DeepEqual_nil []) eq_refl). go_simpl. split; [reflexivity|].
      no_write Hw.
    + assert (DeepEqual (sub :: subs) [] = false) as ->.
      { destruct (DeepEqual (sub :: subs) []) eqn:E; [|reflexivity].
        apply DeepEqual_nil in E. discriminate E. }
      go_simpl.
      destruct (Nat.eqb (String.length (ResourceVersion (epMeta cur))) 0); go_simpl;
        unfold makeEndpoints; fold emptied.
      * destruct (client.CreateEndpoints c emptied); go_simpl;
          (split; [last_call | reflexivity]).
      * destruct (client.UpdateEndpoints c emptied); go_simpl;
          (split; [last_call | reflexivity]).
  - destruct (IsNotFound err); go_simpl.
    + unfold makeEndpoints; fold emptied.
      cbn [epMeta ResourceVersion String.length Nat.eqb]. go_simpl.
      destruct (client.CreateEndpoints c emptied); go_simpl;
        (split; [last_call | reflexivity]).
    + split; [reflexivity|]. no_write Hw.
Qed.

(** C9, as the spec has it, fails: the one backend of the service fails its
    probe, and the Endpoints object that listed it is updated to list
    nothing before the requeue is asked for. *)
Lemma endpoints_emptied_when_every_probe_fails :
  Forall (reaches_and_fails_probe Serving.unreachable Serving.web) [Serving.backend] /\
  client.GetEndpoints (Serving.apiserver [Serving.backend])
    {| keyNamespace := "dev"; keyName := "web" |} = Ok Serving.current /\
  Subsets Serving.current <> [] /\
  updateEndpoints (Serving.apiserver [Serving.backend]) Serving.unreachable
                  Serving.noAnnotations Serving.web Serving.service tt =
  (requeueAfterProbeFailure, tt,
   [ClientList "VirtualMachine" "dev";
    DialTimeout "tcp" "10.0.0.5" "80" (10 * Second);
    ClientGet "Endpoints" {| keyNamespace := "dev"; keyName := "web" |};
    ClientUpdateEndpoints
      {| epMeta := MakeObjectMeta Serving.noAnnotations Serving.web; Subsets := [] |}
      None]).
Proof.
  split; [|split; [reflexivity|split; [discriminate|reflexivity]]].
  constructor; [|constructor].
  repeat split; try discriminate.
  eexists. vm_compute. reflexivity.
Qed.

Lemma endpoints_when_every_probe_fails_witness :
  Forall (reaches_and_fails_probe Serving.unreachable Serving.web) [Serving.backend] /\
  returned (updateEndpoints (Serving.apiserver [Serving.backend]) Serving.unreachable
                            Serving.noAnnotations Serving.web Serving.service tt) =
  requeueAfterProbeFailure.
Proof.
  assert (Forall (reaches_and_fails_probe Serving.unreachable Serving.web)
                 [Serving.backend]) as Hall.
  { constructor; [|constructor].
    repeat split; try discriminate. eexists. vm_compute. reflexivity. }
  split; [exact Hall|].
  pose proof (@endpoints_when_every_probe_fails
                (Serving.apiserver [Serving.backend]) Serving.unreachable
                Serving.noAnnotations Serving.web Serving.service [Serving.backend]
                eq_refl ltac:(discriminate) ltac:(cbn; lia) Hall) as H.
  cbv zeta in H. destruct H as [H _].
  cbn [client.GetEndpoints Serving.apiserver keyName Serving.service svcMeta
       Scenario.meta Name Namespace] in H.
  cbn in H. destruct H as [_ H]. exact H.
Defined.

(** * The phase over the life of a VirtualMachine *)

(** What [provider_keeps] says about the provider calls of the pass. *)
Ltac use_keeps Hk :=
  let Kex := fresh "Kex" in
  let Kcr := fresh "Kcr" in
  let Kup := fresh "Kup" in
  let Kdel := fresh "Kdel" in
  destruct Hk as (Kex & Kcr & Kup & Kdel);
  repeat match goal with
         | E : vmprovider.DoesVirtualMachineExist _ ?p ?vm = _ |- _ =>
             let K := fresh "K" in
             pose proof (Kex p vm) as K; rewrite E in K; cbn [fst snd] in K;
             destruct K as (? & ? & ?); clear E
         | E : vmprovider.CreateVirtualMachine _ ?p ?vm ?a = _ |- _ =>
             let K := fresh "K" in
             pose proof (Kcr p vm a) as K; rewrite E in K; cbn [fst snd] in K;
             destruct K as (? & ? & ?); clear E
         | E : vmprovider.UpdateVirtualMachine _ ?p ?vm ?a = _ |- _ =>
             let K := fresh "K" in
             pose proof (Kup p vm a) as K; rewrite E in K; cbn [fst snd] in K;
             destruct K as (? & ? & ?); clear E
         | E : vmprovider.DeleteVirtualMachine _ ?p ?vm = _ |- _ =>
             let K := fresh "K" in
             pose proof (Kdel p vm) as K; rewrite E in K; cbn [fst snd] in K;
             destruct K as (? & ? & ?); clear E
         end;
  cbn [set_Phase set_vmMeta vmMeta Status Phase] in *.

Lemma reconcileOnProvider_phase P prov imports max args (s : Reconciler P) :
  provider_keeps prov ->
  let pass := func (reconcileOnProvider prov imports max args) s in
  Finalizers (vmMeta (VM (final pass))) = Finalizers (vmMeta (VM s)) /\
  DeletionTimestamp (vmMeta (VM (final pass))) = DeletionTimestamp (vmMeta (VM s)) /\
  (Phase (Status (VM (final pass))) = Phase (Status (VM s)) \/
   Phase (Status (VM (final pass))) = Created \/
   (Phase (Status (VM (final pass))) = Creating /\
    In (ProviderDoesVirtualMachineExist (Ok false)) (calls pass))).
Proof.
  intros Hk pass. subst pass. unfold reconcileOnProvider.
  go_run; subst;
    try match goal with
        | E : negb ?a = _ |- _ => is_var a; destruct a; try discriminate E
        end;
    use_keeps Hk;
    (split; [congruence | split; [congruence|]]);
    first [ left; congruence
          | right; left; congruence
          | right; right; split; [congruence | last_call] ].
Qed.

Lemma createOrUpdateVM_phase P c prov imports max (s : Reconciler P) :
  provider_keeps prov ->
  let pass := createOrUpdateVM c prov imports max s in
  Finalizers (vmMeta (VM (final pass))) = Finalizers (vmMeta (VM s)) /\
  DeletionTimestamp (vmMeta (VM (final pass))) = DeletionTimestamp (vmMeta (VM s)) /\
  (Phase (Status (VM (final pass))) = Phase (Status (VM s)) \/
   Phase (Status (VM (final pass))) = Created \/
   (Phase (Status (VM (final pass))) = Creating /\
    In (ProviderDoesVirtualMachineExist (Ok false)) (calls pass))).
Proof.
  intros Hk pass.
  destruct (createOrUpdateVM_split c prov imports max s)
    as [(e & _ & F & _ & _) | (args & s1 & l1 & (F & _) & Hpass)];
    fold pass in F || fold pass in Hpass.
  - split; [exact (f_equal (fun v => Finalizers (vmMeta v)) F)|].
    split; [exact (f_equal (fun v => DeletionTimestamp (vmMeta v)) F)|].
    left. exact (f_equal (fun v => Phase (Status v)) F).
  - pose proof (@reconcileOnProvider_phase P prov imports max args s1 Hk) as Hst.
    cbv zeta in Hst. revert Hst. rewrite Hpass. unfold final, calls.
    destruct (func (reconcileOnProvider prov imports max args) s1) as [[r s2] l2].
    cbn [fst snd]. intros (Hf & Hd & Hph).
    assert (Finalizers (vmMeta (VM s1)) = Finalizers (vmMeta (VM s))) as F1
      by exact (f_equal (fun v => Finalizers (vmMeta v)) F).
    assert (DeletionTimestamp (vmMeta (VM s1)) = DeletionTimestamp (vmMeta (VM s))) as F2
      by exact (f_equal (fun v => DeletionTimestamp (vmMeta v)) F).
    assert (Phase (Status (VM s1)) = Phase (Status (VM s))) as F3
      by exact (f_equal (fun v => Phase (Status v)) F).
    split; [congruence|]. split; [congruence|].
    destruct Hph as [Hph|[Hph|[Hph Hin]]]; [left; congruence | auto |].
    right. right. split; [exact Hph|]. apply in_or_app. auto.
Qed.

Lemma DeletionTimestamp_AddFinalizer om f :
  DeletionTimestamp (controllerutil.AddFinalizer om f) = DeletionTimestamp om.
Proof.
  unfold controllerutil.AddFinalizer.
  destruct (controllerutil.ContainsFinalizer om f); reflexivity.
Qed.

Lemma ReconcileNormal_phase P c prov imports max (s : Reconciler P) :
  provider_keeps prov ->
  let pass := ReconcileNormal c prov imports max s in
  DeletionTimestamp (vmMeta (VM (final pass))) = DeletionTimestamp (vmMeta (VM s)) /\
  (Phase (Status (VM (final pass))) = Phase (Status (VM s)) \/
   Phase (Status (VM (final pass))) = Created \/
   (Phase (Status (VM (final pass))) = Creating /\
    In (ProviderDoesVirtualMachineExist (Ok false)) (calls pass))).
Proof.
  intros Hk pass. subst pass.
  destruct (controllerutil.ContainsFinalizer (vmMeta (VM s)) finalizerName) eqn:Hfin.
  - pose proof (@createOrUpdateVM_phase P c prov imports max s Hk) as Hc.
    cbv zeta in Hc. revert Hc.
    unfold ReconcileNormal. go_unfold. rewrite Hfin. go_simpl.
    destruct (createOrUpdateVM c prov imports max s) as [[r s1] l1].
    intros (_ & Hd & Hph).
    destruct r as [err|]; go_simpl; (split; [exact Hd|]);
      destruct Hph as [Hph|[Hph|[Hph Hin]]]; auto.
    + right. right. split; [exact Hph|]. rewrite ?app_nil_r. exact Hin.
    + right. right. split; [exact Hph|]. rewrite ?app_nil_r.
      apply in_or_app. left. exact Hin.
  - rewrite ReconcileNormal_adds_finalizer by exact Hfin.
    cbn [final calls fst snd with_VM VM set_vmMeta vmMeta Status].
    split; [apply DeletionTimestamp_AddFinalizer | auto].
Qed.

Lemma ReconcileDelete_phase P prov (s : Reconciler P) :
  provider_keeps prov ->
  settled (VM s) ->
  IsZero (DeletionTimestamp (vmMeta (VM s))) = false ->
  let pass := ReconcileDelete prov s in
  settled (VM (final pass)) /\
  rank (Phase (Status (VM s))) <= rank (Phase (Status (VM (final pass)))).
Proof.
  intros Hk [Hdel Hgone] Hzero pass. subst pass.
  unfold ReconcileDelete, deleteVM, settled.
  destruct (controllerutil.ContainsFinalizer (vmMeta (VM s)) finalizerName) eqn:Hfin.
  - assert (rank (Phase (Status (VM s))) <= 3) as Hrank.
    { destruct (Phase (Status (VM s))); cbn; try lia.
      specialize (Hgone eq_refl). congruence. }
    go_unfold. rewrite Hfin. go_run; subst; use_keeps Hk;
      cbn [controllerutil.RemoveFinalizer set_Finalizers DeletionTimestamp];
      repeat split; intros;
      repeat match goal with
             | H : Phase (Status ?v) = Deleting |- _ => rewrite H in *; clear H
             end;
      cbn [rank] in *; try lia; try congruence;
      try apply ContainsFinalizer_Remove.
  - go_unfold. rewrite Hfin. go_simpl. cbn [fst snd VM]. split; [auto | lia].
Qed.

Lemma persisted_patch l after r vm :
  persisted (l ++ [PatchHelperPatch after r]) vm =
  match r with
  | None => after
  | Some _ => vm
  end.
Proof.
  unfold persisted. rewrite last_last. destruct r; reflexivity.
Qed.

Lemma forward_refl ph l : forward_or_retry ph (ph, l).
Proof. left. cbn. lia. Qed.

Lemma normal_step vm vm' l l' :
  settled vm ->
  IsZero (DeletionTimestamp (vmMeta vm)) = true ->
  DeletionTimestamp (vmMeta vm') = DeletionTimestamp (vmMeta vm) ->
  (Phase (Status vm') = Phase (Status vm) \/
   Phase (Status vm') = Created \/
   (Phase (Status vm') = Creating /\
    In (ProviderDoesVirtualMachineExist (Ok false)) l)) ->
  (forall e, In e l -> In e l') ->
  settled vm' /\ forward_or_retry (Phase (Status vm)) (Phase (Status vm'), l').
Proof.
  intros [Hdel Hgone] Hzero Hd Hph Hsub.
  assert (rank (Phase (Status vm)) < 3) as Hlow.
  { destruct (Z_lt_ge_dec (rank (Phase (Status vm))) 3) as [|Hge]; [assumption|].
    specialize (Hdel Hge). congruence. }
  unfold settled, forward_or_retry. cbn [fst snd].
  destruct Hph as [Hph|[Hph|[Hph Hin]]]; rewrite Hph; (split; [split|]);
    try (intros Hge; exfalso; cbn in Hge; lia);
    try (intros He; exfalso; first [discriminate He | rewrite He in Hlow; cbn in Hlow; lia]).
  - left. lia.
  - left. cbn. lia.
  - destruct (Phase (Status vm)) eqn:Eph; cbn in Hlow |- *;
      try (left; lia); right; auto.
Qed.

(** A trace is part of a longer one. *)
Ltac sub_trace :=
  match goal with
  | H : In ?e ?l |- In ?e ?l => exact H
  | |- In _ (_ :: _) => right; sub_trace
  | |- In _ (_ ++ _) => apply in_or_app; first [left; sub_trace | right; sub_trace]
  end.

(** Bringing the trace of a pass that ends with its patch into shape. *)
Ltac ends_with_patch :=
  rewrite ?app_nil_r;
  repeat rewrite app_comm_cons;
  repeat rewrite app_assoc;
  rewrite persisted_patch.

Lemma act_step P prov max a (cl : Cluster P) :
  provider_keeps prov ->
  settled (stored cl) ->
  settled (stored (fst (act prov max a cl))) /\
  forward_or_retry (Phase (Status (stored cl)))
                   (Phase (Status (stored (fst (act prov max a cl)))),
                    snd (act prov max a cl)).
Proof.
  intros Hk Hs. destruct a as [c imports|t|f|annotations]; cbn [act fst snd stored].
  - unfold Reconcile. go_unfold. cbn [client.GetVirtualMachine holding]. go_simpl.
    destruct (lookup _ _); go_simpl;
      [cbn [fst snd VM provider persisted last]; split; [exact Hs | apply forward_refl]|].
    cbn [client.NewHelper client.Patch holding].
    destruct (client.NewHelper c (stored cl)); go_simpl;
      [cbn [fst snd VM provider persisted last]; split; [exact Hs | apply forward_refl]|].
    destruct (IsZero (DeletionTimestamp (vmMeta (stored cl)))) eqn:Hzero; go_simpl.
    + pose proof (@ReconcileNormal_phase P (holding c (stored cl)) prov imports max
                    {| VM := stored cl; provider := infra cl;
                       NumVMsBeingCreatedOnProvider := creating cl |} Hk) as Hn.
      cbv zeta in Hn. revert Hn. unfold final, calls.
      destruct (ReconcileNormal (holding c (stored cl)) prov imports max _)
        as [[r s1] l1].
      cbn [fst snd VM]. intros (Hd & Hph).
      destruct r as [err|]; go_simpl;
        (destruct (client.Patch c (stored cl) (VM s1)); go_simpl;
         cbn [fst snd]; ends_with_patch;
         [split; [exact Hs | apply forward_refl]
         | eapply normal_step; eauto; intros e He; sub_trace]).
    + pose proof (@ReconcileDelete_phase P prov
                    {| VM := stored cl; provider := infra cl;
                       NumVMsBeingCreatedOnProvider := creating cl |} Hk Hs Hzero) as Hn.
      cbv zeta in Hn. revert Hn. unfold final.
      destruct (ReconcileDelete prov _) as [[r s1] l1].
      cbn [fst snd VM]. intros (Hs' & Hrank).
      destruct r as [err|]; go_simpl;
        (destruct (client.Patch c (stored cl) (VM s1)); go_simpl;
         cbn [fst snd]; ends_with_patch;
         (split; [assumption | first [apply forward_refl | left; exact Hrank]])).
  - destruct Hs as [Hdel Hgone].
    destruct (DeletionTimestamp (vmMeta (stored cl))) eqn:Ed;
      (split; [|apply forward_refl]); split; auto.
    + rewrite Ed. exact Hdel.
    + intros Hr. specialize (Hdel Hr). discriminate Hdel.
  - split; [exact Hs | apply forward_refl].
  - split; [exact Hs | apply forward_refl].
Qed.

(** C4. Take a provider that leaves the controller's fields of the object
    alone, and a VirtualMachine in the API server for which a phase of
    Deleting or Deleted comes with a deletion timestamp and a phase of
    Deleted with the finalizer gone, as is so for an object just created.
    Over any sequence of passes of [Reconcile], with clients editing the
    object or asking for its deletion in between, each step takes the phase
    of the stored object forward in the order unset, Creating, Created,
    Deleting, Deleted, or leaves it; the one exception is a pass in which
    the provider reports that the virtual machine does not exist, which
    takes Created back to Creating to try the create again. *)
Theorem phase_moves_forward P prov max actions (cl : Cluster P) :
  provider_keeps prov ->
  settled (stored cl) ->
  phases_in_order (Phase (Status (stored cl))) (life prov max actions cl).
Proof.
  intros Hk. revert cl.
  induction actions as [|a actions IH]; intros cl Hs; cbn [life].
  - exact I.
  - destruct (act_step max a cl Hk Hs) as [Hs' Hstep].
    destruct (act prov max a cl) as [cl' l]. cbn [fst snd] in *.
    split; [exact Hstep | apply IH; exact Hs'].
Qed.

Lemma infrastructure_keeps : provider_keeps Scenario.infrastructure.
Proof.
  repeat split; try reflexivity; cbn; destruct p; reflexivity.
Qed.

Lemma fresh_settled : settled Scenario.fresh.
Proof. split; intros H; [cbn in H; lia | discriminate H]. Qed.

(** The phases of the object over [History.lifetime]: the first pass adds
    the finalizer, the second creates the machine, the last deletes it. *)
Example lifetime_phases :
  map fst (life Scenario.infrastructure 1 History.lifetime
             (History.cluster Scenario.fresh false)) =
  [PhaseUnset; Created; Created; Deleted].
Proof. vm_compute. reflexivity. Qed.

(** The exception at work: the object is Created, the provider has lost the
    machine and no create slot is free; the pass leaves the phase at
    Creating. *)
Example created_back_to_creating :
  map fst (life Scenario.infrastructure 0 [History.pass]
             (History.cluster Scenario.created false)) = [Creating].
Proof. vm_compute. reflexivity. Qed.

Lemma phase_moves_forward_witness :
  provider_keeps Scenario.infrastructure /\
  settled Scenario.fresh /\
  phases_in_order PhaseUnset
    (life Scenario.infrastructure 1 History.lifetime
       (History.cluster Scenario.fresh false)).
Proof.
  split; [exact infrastructure_keeps|]. split; [exact fresh_settled|].
  exact (@phase_moves_forward bool Scenario.infrastructure 1 History.lifetime
           (History.cluster Scenario.fresh false)
           infrastructure_keeps fresh_settled).
Defined.

(** * The statements on the small cluster *)

(** Looking a call up in a computed trace. *)
Ltac in_computed_trace := vm_compute; repeat first [left; reflexivity | right].

Lemma finalizer_before_create_witness :
  controllerutil.ContainsFinalizer (vmMeta Scenario.fresh) finalizerName = false /\
  calls (ReconcileNormal (Scenario.apiserver Scenario.fresh) Scenario.infrastructure
           (Scenario.switches false) 1 (Scenario.reconciler Scenario.fresh false 0)) = [] /\
  calls (Reconcile (Scenario.apiserver Scenario.fresh) Scenario.infrastructure
           (Scenario.switches false) 1 Scenario.request
           (Scenario.reconciler emptyVM false 0)) =
  [ClientGet "VirtualMachine" Scenario.request;
   PatchHelperPatch Scenario.finalized None].
Proof.
  split; [reflexivity|].
  destruct (@finalizer_before_create bool (Scenario.apiserver Scenario.fresh)
              Scenario.infrastructure (Scenario.switches false) 1
              (Scenario.reconciler Scenario.fresh false 0)) as (H1 & _ & _).
  destruct (@finalizer_before_create bool (Scenario.apiserver Scenario.fresh)
              Scenario.infrastructure (Scenario.switches false) 1
              (Scenario.reconciler emptyVM false 0)) as (_ & H2 & _).
  specialize (H1 eq_refl). cbv zeta in H1. destruct H1 as (_ & H1 & _).
  specialize (H2 Scenario.request Scenario.fresh eq_refl eq_refl eq_refl eq_refl eq_refl).
  split; [exact H1 | exact H2].
Defined.

Lemma ReconcileDelete_with_finalizer_witness :
  controllerutil.ContainsFinalizer (vmMeta Scenario.doomed) finalizerName = true /\
  delete_completed
    (ReconcileDelete Scenario.infrastructure (Scenario.reconciler Scenario.doomed true 0)) /\
  returned
    (ReconcileDelete Scenario.broken (Scenario.reconciler Scenario.doomed true 0)) =
  Some (Errorf "connection refused").
Proof.
  split; [reflexivity|].
  pose proof (@ReconcileDelete_with_finalizer bool Scenario.infrastructure
                (Scenario.reconciler Scenario.doomed true 0) eq_refl) as H1.
  pose proof (@ReconcileDelete_with_finalizer bool Scenario.broken
                (Scenario.reconciler Scenario.doomed true 0) eq_refl) as H2.
  cbv zeta in H1, H2.
  cbn [vmprovider.DeleteVirtualMachine Scenario.infrastructure Scenario.broken
       Scenario.reconciler provider IsNotFound] in H1, H2.
  destruct H1 as (_ & _ & H1). destruct H2 as (_ & _ & H2 & _).
  split; [exact H1 | exact H2].
Defined.

Lemma create_deferred_without_slot_witness :
  In (ProviderDoesVirtualMachineExist (Ok false))
     (calls (createOrUpdateVM (Scenario.apiserver Scenario.finalized)
               Scenario.infrastructure (Scenario.switches false) 0
               (Scenario.reconciler Scenario.finalized false 0))) /\
  returned (createOrUpdateVM (Scenario.apiserver Scenario.finalized)
              Scenario.infrastructure (Scenario.switches false) 0
              (Scenario.reconciler Scenario.finalized false 0)) = None /\
  Phase (Status (VM (final
    (createOrUpdateVM (Scenario.apiserver Scenario.finalized)
       Scenario.infrastructure (Scenario.switches false) 0
       (Scenario.reconciler Scenario.finalized false 0))))) = Creating.
Proof.
  assert (In (ProviderDoesVirtualMachineExist (Ok false))
            (calls (createOrUpdateVM (Scenario.apiserver Scenario.finalized)
                      Scenario.infrastructure (Scenario.switches false) 0
                      (Scenario.reconciler Scenario.finalized false 0)))) as Hin
    by in_computed_trace.
  split; [exact Hin|].
  destruct (@create_deferred_without_slot bool (Scenario.apiserver Scenario.finalized)
              Scenario.infrastructure (Scenario.switches false) 0
              (Scenario.reconciler Scenario.finalized false 0) Hin ltac:(cbn; lia))
    as (H1 & _ & _ & H2).
  split; [exact H1 | exact H2].
Defined.

Lemma class_binding_enforced_witness :
  IsVMServiceFSSEnabled (Scenario.switches true) = true /\
  client.ListVirtualMachineClassBindings (Scenario.apiserver Scenario.finalized) "dev"
    = Ok [Scenario.binding] /\
  conditions.IsFalse
    (VM (final (createOrUpdateVM (Scenario.apiserver Scenario.finalized)
                  Scenario.infrastructure (Scenario.switches true) 1
                  (Scenario.reconciler Scenario.finalized false 0))))
    VirtualMachinePrereqReadyCondition = true.
Proof.
  split; [reflexivity|]. split; [reflexivity|].
  assert (forall items,
            client.ListVirtualMachineClassBindings
              (Scenario.apiserver Scenario.finalized)
              (Namespace (vmMeta (VM (Scenario.reconciler Scenario.finalized false 0))))
            = Ok items ->
            forall b, In b items ->
              ~ (refKind (ClassRef b) = "VirtualMachineClass" /\
                 refName (ClassRef b) =
                 ClassName (Spec (VM (Scenario.reconciler Scenario.finalized false 0)))))
    as Hnone.
  { intros items H b Hb. cbn in H. injection H as <-.
    destruct Hb as [<-|[]]. intros [_ Hname]. discriminate Hname. }
  destruct (@class_binding_enforced bool (Scenario.apiserver Scenario.finalized)
              Scenario.infrastructure (Scenario.switches true) 1
              (Scenario.reconciler Scenario.finalized false 0) eq_refl Hnone)
    as (_ & H & _).
  exact H.
Defined.

Lemma metadata_sources_exclusive_witness :
  VmMetadata (Spec Scenario.twofold) =
    Some {| ConfigMapName := "cm"; SecretName := "secret"; Transport := "ExtraConfig" |} /\
  returned (createOrUpdateVM (Scenario.apiserver Scenario.twofold)
              Scenario.infrastructure (Scenario.switches false) 1
              (Scenario.reconciler Scenario.twofold false 0)) =
  Some (Errorf "failed to get VM metadata. Both configMapName and secretName are specified").
Proof.
  split; [reflexivity|].
  destruct (@metadata_sources_exclusive bool (Scenario.apiserver Scenario.twofold)
              Scenario.infrastructure (Scenario.switches false) 1
              (Scenario.reconciler Scenario.twofold false 0)
              {| ConfigMapName := "cm"; SecretName := "secret";
                 Transport := "ExtraConfig" |}
              eq_refl ltac:(discriminate) ltac:(discriminate))
    as (_ & _ & _ & H).
  rewrite (H _ _ _ _ _ _ _ _ eq_refl eq_refl eq_refl). reflexivity.
Defined.

Lemma requeue_delay_after_reconcile_witness :
  returned (ReconcileNormal (Scenario.apiserver Scenario.finalized)
              Scenario.infrastructure (Scenario.switches false) 0
              (with_VM (Scenario.reconciler emptyVM false 0) Scenario.finalized)) = None /\
  ctrl.RequeueAfter
    (fst (returned (Reconcile (Scenario.apiserver Scenario.finalized)
                      Scenario.infrastructure (Scenario.switches false) 0
                      Scenario.request (Scenario.reconciler emptyVM false 0)))) =
  10 * Second.
Proof.
  split; [reflexivity|].
  destruct (@requeue_delay_after_reconcile bool (Scenario.apiserver Scenario.finalized)
              Scenario.infrastructure (Scenario.switches false) 0 Scenario.request
              (Scenario.reconciler emptyVM false 0) Scenario.finalized
              eq_refl eq_refl eq_refl eq_refl eq_refl)
    as (_ & H & _).
  rewrite H. reflexivity.
Defined.

Lemma no_create_under_deleting_policy_witness :
  In (ProviderDoesVirtualMachineExist (Ok false))
     (calls (createOrUpdateVM (Scenario.apiserver Scenario.grouped)
               Scenario.infrastructure (Scenario.switches false) 1
               (Scenario.reconciler Scenario.grouped false 0))) /\
  IsZero (DeletionTimestamp (rpMeta Scenario.policy)) = false /\
  returned (createOrUpdateVM (Scenario.apiserver Scenario.grouped)
              Scenario.infrastructure (Scenario.switches false) 1
              (Scenario.reconciler Scenario.grouped false 0)) =
  Some (Errorf "cannot create VirtualMachine with its resource policy in DELETING state").
Proof.
  assert (In (ProviderDoesVirtualMachineExist (Ok false))
            (calls (createOrUpdateVM (Scenario.apiserver Scenario.grouped)
                      Scenario.infrastructure (Scenario.switches false) 1
                      (Scenario.reconciler Scenario.grouped false 0)))) as Hin
    by in_computed_trace.
  split; [exact Hin|]. split; [reflexivity|].
  destruct (@no_create_under_deleting_policy bool (Scenario.apiserver Scenario.grouped)
              Scenario.infrastructure (Scenario.switches false) 1
              (Scenario.reconciler Scenario.grouped false 0) Scenario.policy
              Hin ltac:(cbn; lia) ltac:(discriminate) eq_refl eq_refl)
    as (H & _).
  exact H.
Defined.

(** * More about a pass of the VirtualMachine controller *)

Import virtualmachine.

(** ** [createOrUpdateVM], stage by stage *)

Lemma createOrUpdateVM_stages P c prov imports max (s : Reconciler P) :
  createOrUpdateVM c prov imports max s =
  let '(r1, s1, l1) := getVMClass c imports s in
  match r1 with
  | Err err => (Some err, s1, l1)
  | Ok vmClass =>
      let '(r2, s2, l2) := reconcileInstanceStorageSpec imports vmClass s1 in
      match r2 with
      | Some err => (Some err, s2, l1 ++ l2)
      | None =>
          let '(r3, s3, l3) := getImageAndContentLibraryUUID c imports s2 in
          match r3 with
          | Err err => (Some err, s3, l1 ++ l2 ++ l3)
          | Ok image =>
              let '(r4, s4, l4) := getVMMetadata c s3 in
              match r4 with
              | Err err => (Some err, s4, l1 ++ l2 ++ l3 ++ l4)
              | Ok vmMetadata =>
                  let '(r5, s5, l5) := getResourcePolicy c prov imports s4 in
                  match r5 with
                  | Err err => (Some err, s5, l1 ++ l2 ++ l3 ++ l4 ++ l5)
                  | Ok resourcePolicy =>
                      let '(r6, s6, l6) := getStoragePolicyID c s5 in
                      match r6 with
                      | Err err => (Some err, s6, l1 ++ l2 ++ l3 ++ l4 ++ l5 ++ l6)
                      | Ok storagePolicyID =>
                          let args :=
                            {| argVMClass := vmClass;
                               argVMImage := fst image;
                               argVMMetadata := vmMetadata;
                               argResourcePolicy := resourcePolicy;
                               argStorageProfileID := storagePolicyID;
                               argContentLibraryUUID := snd image |} in
                          let '(r, s7, l7) :=
                            func (reconcileOnProvider prov imports max args)
                                 (with_VM s6 (conditions.MarkTrue (VM s6)
                                                VirtualMachinePrereqReadyCondition)) in
                          (r, s7, l1 ++ l2 ++ l3 ++ l4 ++ l5 ++ l6 ++ l7)
                      end
                  end
              end
          end
      end
  end.
Proof.
  unfold createOrUpdateVM.
  rewrite func_bind_call. destruct (getVMClass c imports s) as [[r1 s1] l1].
  destruct r1 as [vmClass|err];
    [rewrite func_bind_next | rewrite func_bind_return, app_nil_r; reflexivity].
  rewrite func_bind_call.
  destruct (reconcileInstanceStorageSpec imports vmClass s1) as [[r2 s2] l2].
  destruct r2 as [err|];
    [rewrite func_bind_return, app_nil_r; reflexivity | rewrite func_bind_next].
  rewrite func_bind_call.
  destruct (getImageAndContentLibraryUUID c imports s2) as [[r3 s3] l3].
  destruct r3 as [[vmImage clUUID]|err];
    [rewrite func_bind_next | rewrite func_bind_return, app_nil_r; reflexivity].
  rewrite func_bind_call. destruct (getVMMetadata c s3) as [[r4 s4] l4].
  destruct r4 as [vmMetadata|err];
    [rewrite func_bind_next | rewrite func_bind_return, app_nil_r; reflexivity].
  rewrite func_bind_call. destruct (getResourcePolicy c prov imports s4) as [[r5 s5] l5].
  destruct r5 as [resourcePolicy|err];
    [rewrite func_bind_next | rewrite func_bind_return, app_nil_r; reflexivity].
  rewrite func_bind_call. destruct (getStoragePolicyID c s5) as [[r6 s6] l6].
  destruct r6 as [storagePolicyID|err];
    [rewrite func_bind_next | rewrite func_bind_return, app_nil_r; reflexivity].
  unfold MarkTrue, updateVM. rewrite func_bind_modify.
  cbv zeta. cbn [fst snd]. unfold with_VM.
  match goal with
  | |- context [func ?b ?st] =>
      change (func b st)
        with (func (reconcileOnProvider prov imports max
                      {| argVMClass := vmClass; argVMImage := vmImage;
                         argVMMetadata := vmMetadata;
                         argResourcePolicy := resourcePolicy;
                         argStorageProfileID := storagePolicyID;
                         argContentLibraryUUID := clUUID |}) st);
      destruct (func (reconcileOnProvider prov imports max
                      {| argVMClass := vmClass; argVMImage := vmImage;
                         argVMMetadata := vmMetadata;
                         argResourcePolicy := resourcePolicy;
                         argStorageProfileID := storagePolicyID;
                         argContentLibraryUUID := clUUID |}) st) as [[r s7] l7]
  end.
  reflexivity.
Qed.

(** Running one stage, with what is known of it. *)
Ltac stage fact run :=
  let Q := fresh "Q" in
  pose proof fact as Q; revert Q; unfold final, calls;
  destruct run as [[?r ?s] ?l] eqn:?; cbn [fst snd]; intros (?F & ?N & ?C).

Lemma early_read_client e : early_read e = true -> client_read e = true.
Proof. destruct e; simpl; congruence. Qed.

Lemma client_read_prereq e : client_read e = true -> prereq_event e = true.
Proof. destruct e; simpl; congruence. Qed.

Lemma quiet_weaken P R (ok ok' : Event -> bool) (f : Call (Reconciler P) R) :
  (forall e, ok e = true -> ok' e = true) ->
  quiet_with ok f -> quiet_with ok' f.
Proof.
  intros Hsub H s. destruct (H s) as (F & N & C). repeat split; auto.
  eapply Forall_impl; [|exact C]. exact Hsub.
Qed.

Lemma getVMClass_reads P c imports : quiet_with client_read (@getVMClass P c imports).
Proof. eapply quiet_weaken; [exact early_read_client | apply getVMClass_early]. Qed.

Lemma reconcileInstanceStorageSpec_reads P imports vmClass :
  quiet_with client_read (@reconcileInstanceStorageSpec P imports vmClass).
Proof.
  eapply quiet_weaken; [exact early_read_client | apply reconcileInstanceStorageSpec_early].
Qed.

Lemma getImageAndContentLibraryUUID_reads P c imports :
  quiet_with client_read (@getImageAndContentLibraryUUID P c imports).
Proof.
  eapply quiet_weaken; [exact early_read_client | apply getImageAndContentLibraryUUID_early].
Qed.

Lemma getVMMetadata_reads P c : quiet_with client_read (@getVMMetadata P c).
Proof. unfold getVMMetadata. quiet_auto. Qed.

Lemma getStoragePolicyID_reads P c : quiet_with client_read (@getStoragePolicyID P c).
Proof. unfold getStoragePolicyID. quiet_auto. Qed.

Lemma reconcileOnProvider_calls P prov imports max args (s : Reconciler P) :
  Forall (fun e => prereq_event e = false)
         (calls (func (reconcileOnProvider prov imports max args) s)).
Proof.
  unfold reconcileOnProvider. go_run; repeat constructor.
Qed.

Lemma getResourcePolicy_not_ready P c prov imports (s : Reconciler P) :
  In (ProviderIsResourcePolicyReady (Ok false))
     (calls (getResourcePolicy c prov imports s)) ->
  returned (getResourcePolicy c prov imports s) =
    Err (Errorf "VirtualMachineSetResourcePolicy is not yet ready").
Proof.
  unfold getResourcePolicy. go_run; intros Hin; in_trace Hin; subst;
    try discriminate; reflexivity.
Qed.

Lemma prereq_provider_call e :
  prereq_event e = true -> provider_call e = true ->
  exists r, e = ProviderIsResourcePolicyReady r.
Proof. destruct e; simpl; try discriminate; eauto. Qed.

(** A call that is not a read is in none of the traces of reads at hand. *)
Ltac not_in_reads Hin :=
  exfalso; repeat (apply in_app_or in Hin; destruct Hin as [Hin|Hin]);
  match goal with
  | C : Forall _ ?l, H : In _ ?l |- _ =>
      rewrite Forall_forall in C; specialize (C _ H); discriminate C
  end.

(** X1. When, in a pass of [createOrUpdateVM], the provider answers that
    the resource policy of the VirtualMachine is not ready, the pass fails
    with the error of [getResourcePolicy]; the readiness check is the only
    call it makes on the provider, so the machine is neither looked up nor
    created nor updated, and the phase and the count of creates in flight
    stay as they were. *)
Theorem policy_not_ready_defers_the_machine P c prov imports max (s : Reconciler P) :
  let pass := createOrUpdateVM c prov imports max s in
  In (ProviderIsResourcePolicyReady (Ok false)) (calls pass) ->
  returned pass = Some (Errorf "VirtualMachineSetResourcePolicy is not yet ready") /\
  (forall e, In e (calls pass) -> provider_call e = true ->
     exists r, e = ProviderIsResourcePolicyReady r) /\
  Phase (Status (VM (final pass))) = Phase (Status (VM s)) /\
  NumVMsBeingCreatedOnProvider (final pass) = NumVMsBeingCreatedOnProvider s.
Proof.
  intros pass. subst pass. rewrite createOrUpdateVM_stages.
  stage (@getVMClass_reads P c imports s) (getVMClass c imports s).
  destruct r as [vmClass|err]; [|intros Hin; not_in_reads Hin].
  stage (@reconcileInstanceStorageSpec_reads P imports vmClass s0)
        (reconcileInstanceStorageSpec imports vmClass s0).
  destruct r as [err|]; [intros Hin; not_in_reads Hin|].
  stage (@getImageAndContentLibraryUUID_reads P c imports s1)
        (getImageAndContentLibraryUUID c imports s1).
  destruct r as [image|err]; [|intros Hin; not_in_reads Hin].
  stage (@getVMMetadata_reads P c s2) (getVMMetadata c s2).
  destruct r as [vmMetadata|err]; [|intros Hin; not_in_reads Hin].
  pose proof (@getResourcePolicy_not_ready P c prov imports s3) as Hnot.
  stage (@getResourcePolicy_quiet P c prov imports s3)
        (getResourcePolicy c prov imports s3).
  unfold returned, calls in Hnot. cbn [fst snd] in Hnot.
  destruct r as [resourcePolicy|err].
  - stage (@getStoragePolicyID_reads P c s4) (getStoragePolicyID c s4).
    destruct r as [storagePolicyID|err].
    + cbv zeta.
      pose proof (@reconcileOnProvider_calls P prov imports max
                    {| argVMClass := vmClass; argVMImage := fst image;
                       argVMMetadata := vmMetadata;
                       argResourcePolicy := resourcePolicy;
                       argStorageProfileID := storagePolicyID;
                       argContentLibraryUUID := snd image |}
                    (with_VM s5 (conditions.MarkTrue (VM s5)
                                   VirtualMachinePrereqReadyCondition))) as Cp.
      revert Cp. unfold calls.
      destruct (func _ _) as [[r s7] l7]. cbn [fst snd]. intros Cp Hin.
      exfalso. repeat (apply in_app_or in Hin; destruct Hin as [Hin|Hin]);
        try (specialize (Hnot Hin); discriminate Hnot);
        match goal with
        | C : Forall _ ?l, H : In _ ?l |- _ =>
            rewrite Forall_forall in C; specialize (C _ H); discriminate C
        end.
    + intros Hin. exfalso.
      repeat (apply in_app_or in Hin; destruct Hin as [Hin|Hin]);
        try (specialize (Hnot Hin); discriminate Hnot);
        match goal with
        | C : Forall _ ?l, H : In _ ?l |- _ =>
            rewrite Forall_forall in C; specialize (C _ H); discriminate C
        end.
  - intros Hin.
    assert (In (ProviderIsResourcePolicyReady (Ok false)) l3) as Hin3.
    { repeat (apply in_app_or in Hin; destruct Hin as [Hin|Hin]); try assumption;
        exfalso;
        match goal with
        | C : Forall _ ?l, H : In _ ?l |- _ =>
            rewrite Forall_forall in C; specialize (C _ H); discriminate C
        end. }
    specialize (Hnot Hin3). injection Hnot as ->. cbn [fst snd].
    split; [reflexivity|]. split; [|split].
    + intros e He Hp. apply prereq_provider_call; [|exact Hp].
      repeat (apply in_app_or in He; destruct He as [He|He]);
        match goal with
        | C : Forall _ ?l, H : In _ ?l |- _ =>
            rewrite Forall_forall in C; specialize (C _ H);
            first [exact C | apply client_read_prereq; exact C]
        end.
    + assert (forget (VM s4) = forget (VM s)) as Fall by congruence.
      exact (f_equal (fun v => Phase (Status v)) Fall).
    + congruence.
Qed.

Lemma policy_not_ready_defers_the_machine_witness :
  In (ProviderIsResourcePolicyReady (Ok false))
     (calls (createOrUpdateVM (Scenario.apiserver Scenario.grouped)
               Waiting.infrastructure (Scenario.switches false) 1
               (Scenario.reconciler Scenario.grouped false 0))) /\
  returned (createOrUpdateVM (Scenario.apiserver Scenario.grouped)
              Waiting.infrastructure (Scenario.switches false) 1
              (Scenario.reconciler Scenario.grouped false 0)) =
  Some (Errorf "VirtualMachineSetResourcePolicy is not yet ready").
Proof.
  assert (In (ProviderIsResourcePolicyReady (Ok false))
            (calls (createOrUpdateVM (Scenario.apiserver Scenario.grouped)
                      Waiting.infrastructure (Scenario.switches false) 1
                      (Scenario.reconciler Scenario.grouped false 0)))) as Hin
    by in_computed_trace.
  split; [exact Hin|].
  destruct (@policy_not_ready_defers_the_machine bool
              (Scenario.apiserver Scenario.grouped) Waiting.infrastructure
              (Scenario.switches false) 1
              (Scenario.reconciler Scenario.grouped false 0) Hin) as (H & _).
  exact H.
Defined.

(** ** What the provider is handed *)

Lemma getVMClass_returns P c imports (s : Reconciler P) vmClass :
  returned (getVMClass c imports s) = Ok vmClass ->
  client.GetVirtualMachineClass c
    {| keyNamespace := ""; keyName := ClassName (Spec (VM s)) |} = Ok vmClass.
Proof.
  unfold getVMClass. go_run; cbn [fst]; intros H; inversion H; subst; auto.
Qed.

Lemma getImageAndContentLibraryUUID_returns P c imports (s : Reconciler P) image :
  returned (getImageAndContentLibraryUUID c imports s) = Ok image ->
  client.GetVirtualMachineImage c
    {| keyNamespace := ""; keyName := ImageName (Spec (VM s)) |} = Ok (fst image) /\
  exists ownerRef clProvider,
    find (fun ownerRef => String.eqb (ownerKind ownerRef) "ContentLibraryProvider")
         (OwnerReferences (imageMeta (fst image))) = Some ownerRef /\
    client.GetContentLibraryProvider c
      {| keyNamespace := ""; keyName := ownerName ownerRef |} = Ok clProvider /\
    snd image = clpUUID clProvider.
Proof.
  unfold getImageAndContentLibraryUUID, getContentLibraryProviderFromImage,
    getContentSourceFromCLProvider.
  go_run; cbn [fst]; intros H; inversion H; subst; cbn [fst snd]; eauto 10.
Qed.

Lemma getVMMetadata_returns P c (s : Reconciler P) md :
  returned (getVMMetadata c s) = Ok md -> metadata_from c (VM s) md.
Proof.
  unfold getVMMetadata, metadata_from. go_unfold.
  destruct (VmMetadata (Spec (VM s))) as [inMetadata|]; go_simpl;
    [|cbn [fst]; intros H; inversion H; reflexivity].
  destruct (String.eqb_spec (ConfigMapName inMetadata) "") as [Ecm|Ncm];
    destruct (String.eqb (SecretName inMetadata) ""); go_simpl;
    repeat (go_case; go_simpl); cbn [fst]; intros H; inversion H; subst;
    cbn [mdData mdTransport]; eauto.
Qed.

Lemma getStoragePolicyID_returns P c (s : Reconciler P) id :
  returned (getStoragePolicyID c s) = Ok id ->
  if String.eqb (StorageClass (Spec (VM s))) "" then id = ""
  else exists sc,
         client.GetStorageClass c
           {| keyNamespace := ""; keyName := StorageClass (Spec (VM s)) |} = Ok sc /\
         id = index (Parameters sc) "storagePolicyID".
Proof.
  unfold getStoragePolicyID. go_unfold.
  destruct (String.eqb (StorageClass (Spec (VM s))) ""); go_simpl;
    repeat (go_case; go_simpl); cbn [fst]; intros H; inversion H; subst; eauto.
Qed.

Lemma reconcileOnProvider_args P prov imports max args (s : Reconciler P) a r :
  In (ProviderCreateVirtualMachine a r)
     (calls (func (reconcileOnProvider prov imports max args) s)) \/
  In (ProviderUpdateVirtualMachine a r)
     (calls (func (reconcileOnProvider prov imports max args) s)) ->
  a = args.
Proof.
  unfold reconcileOnProvider. go_run; intros [Hin|Hin]; in_trace Hin;
    subst; try discriminate; reflexivity.
Qed.

(** Neither a create nor an update is among the calls of the stages that
    resolve the prerequisites. *)
Ltac not_resolving H :=
  exfalso; destruct H as [H|H];
  repeat (apply in_app_or in H; destruct H as [H|H]);
  match goal with
  | C : Forall _ ?l, H' : In _ ?l |- _ =>
      rewrite Forall_forall in C; specialize (C _ H'); discriminate C
  end.

(** X2. Whatever a pass of [createOrUpdateVM] hands to the provider's
    create or update is what the spec of the VirtualMachine names in the API
    server: the class and the image under their names, the UUID of the
    content library provider that the image's first owner reference of that
    kind names, the data of the ConfigMap or of the Secret with the
    transport of the metadata reference, the resource policy, and the
    storage policy parameter of the storage class (empty without one).
    All such calls of one pass are handed the same arguments. *)
Theorem provider_is_handed_what_the_spec_names P c prov imports max
    (s : Reconciler P) a r :
  let pass := createOrUpdateVM c prov imports max s in
  In (ProviderCreateVirtualMachine a r) (calls pass) \/
  In (ProviderUpdateVirtualMachine a r) (calls pass) ->
  resolved_from c (VM s) a /\
  (forall a' r',
     In (ProviderCreateVirtualMachine a' r') (calls pass) \/
     In (ProviderUpdateVirtualMachine a' r') (calls pass) -> a' = a).
Proof.
  intros pass. subst pass. rewrite createOrUpdateVM_stages.
  pose proof (@getVMClass_returns P c imports s) as R1.
  stage (@getVMClass_quiet P c imports s) (getVMClass c imports s).
  destruct r0 as [vmClass|err]; [|intros Hin; not_resolving Hin].
  stage (@reconcileInstanceStorageSpec_quiet P imports vmClass s0)
        (reconcileInstanceStorageSpec imports vmClass s0).
  destruct r0 as [err|]; [intros Hin; not_resolving Hin|].
  pose proof (@getImageAndContentLibraryUUID_returns P c imports s1) as R3.
  stage (@getImageAndContentLibraryUUID_quiet P c imports s1)
        (getImageAndContentLibraryUUID c imports s1).
  destruct r0 as [image|err]; [|intros Hin; not_resolving Hin].
  pose proof (@getVMMetadata_returns P c s2) as R4.
  stage (@getVMMetadata_quiet P c s2) (getVMMetadata c s2).
  destruct r0 as [vmMetadata|err]; [|intros Hin; not_resolving Hin].
  pose proof (@getResourcePolicy_returns P c prov imports s3) as R5.
  stage (@getResourcePolicy_quiet P c prov imports s3)
        (getResourcePolicy c prov imports s3).
  destruct r0 as [resourcePolicy|err]; [|intros Hin; not_resolving Hin].
  pose proof (@getStoragePolicyID_returns P c s4) as R6.
  stage (@getStoragePolicyID_quiet P c s4) (getStoragePolicyID c s4).
  destruct r0 as [storagePolicyID|err]; [|intros Hin; not_resolving Hin].
  cbv zeta.
  set (args := {| argVMClass := vmClass; argVMImage := fst image;
                  argVMMetadata := vmMetadata; argResourcePolicy := resourcePolicy;
                  argStorageProfileID := storagePolicyID;
                  argContentLibraryUUID := snd image |}).
  pose proof (@reconcileOnProvider_args P prov imports max args
                (with_VM s5 (conditions.MarkTrue (VM s5)
                               VirtualMachinePrereqReadyCondition))) as Rp.
  revert Rp. unfold calls.
  destruct (func _ _) as [[r7 s7] l7]. cbn [fst snd]. intros Rp Hin.
  assert (forall a' r',
            In (ProviderCreateVirtualMachine a' r')
               (l ++ l0 ++ l1 ++ l2 ++ l3 ++ l4 ++ l7) \/
            In (ProviderUpdateVirtualMachine a' r')
               (l ++ l0 ++ l1 ++ l2 ++ l3 ++ l4 ++ l7) -> a' = args) as Hsame.
  { intros a' r' H. apply (Rp a' r').
    destruct H as [H|H]; [left|right];
      repeat (apply in_app_or in H; destruct H as [H|H]); try assumption;
      exfalso;
      match goal with
      | C : Forall _ ?l, H' : In _ ?l |- _ =>
          rewrite Forall_forall in C; specialize (C _ H'); discriminate C
      end. }
  rewrite (Hsame a r Hin). split; [|exact Hsame].
  unfold returned in R1, R3, R4, R5, R6. cbn [fst snd] in R1, R3, R4, R5, R6.
  specialize (R1 _ eq_refl). specialize (R3 _ eq_refl). specialize (R4 _ eq_refl).
  specialize (R5 _ eq_refl). specialize (R6 _ eq_refl).
  assert (forget (VM s1) = forget (VM s)) as G1 by congruence.
  assert (forget (VM s2) = forget (VM s)) as G2 by congruence.
  assert (forget (VM s3) = forget (VM s)) as G3 by congruence.
  assert (forget (VM s4) = forget (VM s)) as G4 by congruence.
  pose proof (f_equal (fun v => ImageName (Spec v)) G1) as Eimg.
  pose proof (f_equal (fun v => VmMetadata (Spec v)) G2) as Emd.
  pose proof (f_equal (fun v => Namespace (vmMeta v)) G2) as Ens2.
  pose proof (f_equal (fun v => Namespace (vmMeta v)) G3) as Ens3.
  pose proof (f_equal (fun v => ResourcePolicyName (Spec v)) G3) as Erp.
  pose proof (f_equal (fun v => StorageClass (Spec v)) G4) as Esc.
  cbn beta in Eimg, Emd, Ens2, Ens3, Erp, Esc.
  cbn [forget set_Conditions set_Volumes Spec vmMeta ImageName VmMetadata
       ResourcePolicyName StorageClass] in Eimg, Emd, Ens2, Ens3, Erp, Esc.
  unfold resolved_from. subst args.
  cbn [argVMClass argVMImage argVMMetadata argResourcePolicy argStorageProfileID
       argContentLibraryUUID].
  destruct R3 as (R3 & R3').
  rewrite <- Eimg, <- Erp, <- Ens3, <- Esc.
  repeat split; try assumption.
  unfold metadata_from in R4 |- *. rewrite <- Emd, <- Ens2. exact R4.
Qed.

Lemma provider_is_handed_what_the_spec_names_witness :
  let args := {| argVMClass := Scenario.small; argVMImage := Scenario.photon;
                 argVMMetadata := {| mdData := []; mdTransport := "" |};
                 argResourcePolicy := None; argStorageProfileID := "";
                 argContentLibraryUUID := "cl-uuid" |} in
  In (ProviderCreateVirtualMachine args None)
     (calls (createOrUpdateVM (Scenario.apiserver Scenario.finalized)
               Scenario.infrastructure (Scenario.switches false) 1
               (Scenario.reconciler Scenario.finalized false 0))) /\
  resolved_from (Scenario.apiserver Scenario.finalized) Scenario.finalized args.
Proof.
  intros args.
  assert (In (ProviderCreateVirtualMachine args None)
            (calls (createOrUpdateVM (Scenario.apiserver Scenario.finalized)
                      Scenario.infrastructure (Scenario.switches false) 1
                      (Scenario.reconciler Scenario.finalized false 0)))) as Hin
    by in_computed_trace.
  split; [exact Hin|].
  exact (proj1 (@provider_is_handed_what_the_spec_names bool
                  (Scenario.apiserver Scenario.finalized) Scenario.infrastructure
                  (Scenario.switches false) 1
                  (Scenario.reconciler Scenario.finalized false 0)
                  args None (or_introl Hin))).
Defined.

(** ** The order of the calls on the provider *)

Lemma filter_resolving l :
  Forall (fun e => prereq_event e = true) l -> filter is_reconcile_call l = [].
Proof.
  induction 1 as [|e l He _ IH]; [reflexivity|].
  cbn [filter]. rewrite IH. destruct e; try discriminate He; reflexivity.
Qed.

(** The shapes of the provider's part of a pass. *)
Ltac pick_shape :=
  first
    [ solve [left; eexists; split; [reflexivity | cbv beta iota; auto]]
    | solve [right; left; do 2 eexists; split; reflexivity]
    | solve [right; right; left; do 2 eexists; split; reflexivity]
    | solve [right; right; right; do 2 eexists; split; reflexivity] ].

Lemma reconcileOnProvider_protocol P prov imports max args (s : Reconciler P) :
  let pass := func (reconcileOnProvider prov imports max args) s in
  let asked := filter is_reconcile_call (calls pass) in
  (exists x, asked = [ProviderDoesVirtualMachineExist x] /\
             match x with Err e => returned pass = Some e | Ok _ => True end) \/
  (exists a r, asked = [ProviderDoesVirtualMachineExist (Ok true);
                        ProviderUpdateVirtualMachine a r] /\ returned pass = r) \/
  (exists a r, asked = [ProviderDoesVirtualMachineExist (Ok false);
                        ProviderCreateVirtualMachine a r] /\ returned pass = r) \/
  (exists a r, asked = [ProviderDoesVirtualMachineExist (Ok false);
                        ProviderCreateVirtualMachine a None;
                        ProviderUpdateVirtualMachine a r] /\ returned pass = r).
Proof.
  cbv zeta. unfold reconcileOnProvider.
  go_run;
    try match goal with
        | E : negb ?a = _ |- _ => is_var a; destruct a; try discriminate E
        end;
    cbn [filter app is_reconcile_call is_exists is_create is_update orb];
    pick_shape.
Qed.

(** X3. The calls by which a pass of [createOrUpdateVM] reconciles the
    machine on the provider come in one of five shapes: none at all, when a
    prerequisite failed; the existence check alone; the check answered yes
    and one update; the check answered no and one create; or the check
    answered no, a create that succeeded and one update with the very same
    arguments.  So a pass creates at most once and only after the provider
    said that the machine is not there, updates at most once, and never
    updates after a create that failed.  When the last of these calls is a
    create or an update, what it returned is what the pass returns. *)
Theorem provider_calls_in_order P c prov imports max (s : Reconciler P) :
  let pass := createOrUpdateVM c prov imports max s in
  let asked := filter is_reconcile_call (calls pass) in
  (asked = [] /\ exists e, returned pass = Some e) \/
  (exists x, asked = [ProviderDoesVirtualMachineExist x] /\
             match x with Err e => returned pass = Some e | Ok _ => True end) \/
  (exists a r, asked = [ProviderDoesVirtualMachineExist (Ok true);
                        ProviderUpdateVirtualMachine a r] /\ returned pass = r) \/
  (exists a r, asked = [ProviderDoesVirtualMachineExist (Ok false);
                        ProviderCreateVirtualMachine a r] /\ returned pass = r) \/
  (exists a r, asked = [ProviderDoesVirtualMachineExist (Ok false);
                        ProviderCreateVirtualMachine a None;
                        ProviderUpdateVirtualMachine a r] /\ returned pass = r).
Proof.
  intros pass asked. subst asked pass. rewrite createOrUpdateVM_stages.
  unfold returned.
  stage (@getVMClass_quiet P c imports s) (getVMClass c imports s).
  destruct r as [vmClass|err].
  2:{ cbn [fst snd]. left. rewrite filter_resolving by assumption. eauto. }
  stage (@reconcileInstanceStorageSpec_quiet P imports vmClass s0)
        (reconcileInstanceStorageSpec imports vmClass s0).
  destruct r as [err|].
  1:{ cbn [fst snd]. left. rewrite !filter_app, !filter_resolving by assumption. eauto. }
  stage (@getImageAndContentLibraryUUID_quiet P c imports s1)
        (getImageAndContentLibraryUUID c imports s1).
  destruct r as [image|err].
  2:{ cbn [fst snd]. left. rewrite !filter_app, !filter_resolving by assumption. eauto. }
  stage (@getVMMetadata_quiet P c s2) (getVMMetadata c s2).
  destruct r as [vmMetadata|err].
  2:{ cbn [fst snd]. left. rewrite !filter_app, !filter_resolving by assumption. eauto. }
  stage (@getResourcePolicy_quiet P c prov imports s3)
        (getResourcePolicy c prov imports s3).
  destruct r as [resourcePolicy|err].
  2:{ cbn [fst snd]. left. rewrite !filter_app, !filter_resolving by assumption. eauto. }
  stage (@getStoragePolicyID_quiet P c s4) (getStoragePolicyID c s4).
  destruct r as [storagePolicyID|err].
  2:{ cbn [fst snd]. left. rewrite !filter_app, !filter_resolving by assumption. eauto. }
  cbv zeta. right.
  set (args := {| argVMClass := vmClass; argVMImage := fst image;
                  argVMMetadata := vmMetadata; argResourcePolicy := resourcePolicy;
                  argStorageProfileID := storagePolicyID;
                  argContentLibraryUUID := snd image |}).
  pose proof (@reconcileOnProvider_protocol P prov imports max args
                (with_VM s5 (conditions.MarkTrue (VM s5)
                               VirtualMachinePrereqReadyCondition))) as Hp.
  cbv zeta in Hp. revert Hp. unfold returned, calls.
  destruct (func _ _) as [[r7 s7] l7]. cbn [fst snd].
  rewrite !filter_app.
  rewrite (filter_resolving C), (filter_resolving C0), (filter_resolving C1),
    (filter_resolving C2), (filter_resolving C3), (filter_resolving C4).
  cbn [app]. exact (fun H => H).
Qed.

(** ** The count of creates in flight *)

Lemma wrap_int_release n :
  - 2 ^ 63 <= n < 2 ^ 63 -> wrap_int (wrap_int (n + 1) - 1) = n.
Proof.
  intros H. unfold wrap_int.
  replace ((n + 1 + 2 ^ 63) mod 2 ^ 64 - 2 ^ 63 - 1 + 2 ^ 63)
    with ((n + 1 + 2 ^ 63) mod 2 ^ 64 - 1) by lia.
  rewrite Zminus_mod_idemp_l.
  replace (n + 1 + 2 ^ 63 - 1) with (n + 2 ^ 63) by lia.
  rewrite Z.mod_small; lia.
Qed.

Lemma reconcileOnProvider_releases P prov imports max args (s : Reconciler P) :
  - 2 ^ 63 <= NumVMsBeingCreatedOnProvider s < 2 ^ 63 ->
  NumVMsBeingCreatedOnProvider (final (func (reconcileOnProvider prov imports max args) s))
  = NumVMsBeingCreatedOnProvider s.
Proof.
  intros H. unfold reconcileOnProvider.
  go_run; rewrite ?wrap_int_release by assumption; reflexivity.
Qed.

Lemma ReconcileDelete_count P prov (s : Reconciler P) :
  NumVMsBeingCreatedOnProvider (final (ReconcileDelete prov s))
  = NumVMsBeingCreatedOnProvider s.
Proof.
  unfold ReconcileDelete, deleteVM. go_run; reflexivity.
Qed.

(** X4. The slot a pass takes for a create is given back when the pass
    ends, however it ends: after [createOrUpdateVM], and after a whole pass
    of [Reconcile], the count of creates in flight (a Go [int]) is what it
    was before. *)
Theorem create_slot_is_released P c prov imports max req (s : Reconciler P) :
  - 2 ^ 63 <= NumVMsBeingCreatedOnProvider s < 2 ^ 63 ->
  NumVMsBeingCreatedOnProvider (final (createOrUpdateVM c prov imports max s))
  = NumVMsBeingCreatedOnProvider s /\
  NumVMsBeingCreatedOnProvider (final (Reconcile c prov imports max req s))
  = NumVMsBeingCreatedOnProvider s.
Proof.
  intros Hint.
  assert (forall s' : Reconciler P,
            NumVMsBeingCreatedOnProvider s' = NumVMsBeingCreatedOnProvider s ->
            NumVMsBeingCreatedOnProvider (final (createOrUpdateVM c prov imports max s'))
            = NumVMsBeingCreatedOnProvider s) as Hcreate.
  { intros s' Hs'.
    destruct (createOrUpdateVM_split c prov imports max s')
      as [(e & _ & _ & HN & _) | (args & s1 & l1 & (_ & HN & _) & Hpass)].
    - congruence.
    - pose proof (@reconcileOnProvider_releases P prov imports max args s1) as Hrel.
      rewrite Hpass. revert Hrel. unfold final.
      destruct (func (reconcileOnProvider prov imports max args) s1) as [[r s2] l2].
      cbn [fst snd]. intros Hrel. rewrite Hrel; [congruence | rewrite HN, Hs'; exact Hint]. }
  split; [apply Hcreate; reflexivity|].
  assert (forall s' : Reconciler P,
            NumVMsBeingCreatedOnProvider s' = NumVMsBeingCreatedOnProvider s ->
            NumVMsBeingCreatedOnProvider (final (ReconcileNormal c prov imports max s'))
            = NumVMsBeingCreatedOnProvider s) as Hnormal.
  { intros s' Hs'.
    destruct (controllerutil.ContainsFinalizer (vmMeta (VM s')) finalizerName) eqn:Hfin.
    - specialize (Hcreate s' Hs'). revert Hcreate.
      unfold ReconcileNormal. go_unfold. rewrite Hfin. go_simpl.
      destruct (createOrUpdateVM c prov imports max s') as [[r s1] l1].
      destruct r as [err|]; go_simpl; exact (fun H => H).
    - rewrite ReconcileNormal_adds_finalizer by exact Hfin. exact Hs'. }
  unfold Reconcile. go_unfold.
  destruct (client.GetVirtualMachine c req) as [vm|err]; go_simpl; [|reflexivity].
  destruct (lookup _ _); go_simpl; [reflexivity|].
  destruct (client.NewHelper c vm); go_simpl; [reflexivity|].
  destruct (IsZero (DeletionTimestamp (vmMeta vm))); go_simpl.
  - match goal with
    | |- context [ReconcileNormal c prov imports max ?st] =>
        pose proof (Hnormal st eq_refl) as Hc; revert Hc; unfold final;
        destruct (ReconcileNormal c prov imports max st) as [[r s1] l1]
    end.
    cbn [fst snd]. intros Hc.
    destruct r as [err|]; go_simpl;
      destruct (client.Patch c vm (VM s1)); go_simpl; exact Hc.
  - match goal with
    | |- context [ReconcileDelete prov ?st] =>
        pose proof (ReconcileDelete_count prov st) as Hc; revert Hc; unfold final;
        destruct (ReconcileDelete prov st) as [[r s1] l1]
    end.
    cbn [fst snd]. intros Hc.
    destruct r as [err|]; go_simpl;
      destruct (client.Patch c vm (VM s1)); go_simpl; exact Hc.
Qed.

Lemma create_slot_is_released_witness :
  NumVMsBeingCreatedOnProvider
    (final (Reconcile (Scenario.apiserver Scenario.finalized) Scenario.broken
              (Scenario.switches false) 2 Scenario.request
              (Scenario.reconciler emptyVM false 1))) = 1 /\
  In (ProviderCreateVirtualMachine
        {| argVMClass := Scenario.small; argVMImage := Scenario.photon;
           argVMMetadata := {| mdData := []; mdTransport := "" |};
           argResourcePolicy := None; argStorageProfileID := "";
           argContentLibraryUUID := "cl-uuid" |}
        (Some (Errorf "out of capacity")))
     (calls (Reconcile (Scenario.apiserver Scenario.finalized) Scenario.broken
               (Scenario.switches false) 2 Scenario.request
               (Scenario.reconciler emptyVM false 1))).
Proof.
  split; [|in_computed_trace].
  exact (proj2 (@create_slot_is_released bool (Scenario.apiserver Scenario.finalized)
                  Scenario.broken (Scenario.switches false) 2 Scenario.request
                  (Scenario.reconciler emptyVM false 1)
                  ltac:(cbn; lia))).
Defined.

(** ** Passes that stop early *)

(** X5. [Reconcile] stops after reading the object, with no call on the
    provider and no patch, in three cases.  When the read fails: a NotFound
    error is swallowed and the pass returns nil, any other error is
    returned.  When the object carries the pause annotation, whatever its
    value and even if the object is being deleted: the pass returns nil and
    the object is as read.  When the patch helper cannot be set up: the
    pass returns that error, wrapped. *)
Theorem gone_or_paused_is_left_alone P c prov imports max req (s : Reconciler P) :
  let pass := Reconcile c prov imports max req s in
  match client.GetVirtualMachine c req with
  | Err err =>
      pass = ((ctrl.emptyResult, if IsNotFound err then None else Some err),
              with_VM s emptyVM, [ClientGet "VirtualMachine" req])
  | Ok vm =>
      match lookup (PauseAnnotation imports) (Annotations (vmMeta vm)),
            client.NewHelper c vm with
      | Some _, _ =>
          pass = ((ctrl.emptyResult, None), with_VM s vm,
                  [ClientGet "VirtualMachine" req])
      | None, Some err =>
          pass = ((ctrl.emptyResult,
                   Some (Wrap err ("failed to init patch helper for "
                                   ++ NamespacedName (vmMeta vm))%string)),
                  with_VM s vm, [ClientGet "VirtualMachine" req])
      | None, None =>
          is_patch (last (calls pass) (ClientGet "VirtualMachine" req)) = true
      end
  end.
Proof.
  intros pass. subst pass. unfold Reconcile. go_unfold.
  destruct (client.GetVirtualMachine c req) as [vm|err]; go_simpl.
  - destruct (lookup _ _); go_simpl; [reflexivity|].
    destruct (client.NewHelper c vm); go_simpl; [reflexivity|].
    destruct (IsZero (DeletionTimestamp (vmMeta vm))); go_simpl.
    + destruct (ReconcileNormal c prov imports max _) as [[r s1] l1].
      destruct r as [err|]; go_simpl;
        (destruct (client.Patch c vm (VM s1)); go_simpl; cbn [calls snd];
         rewrite ?app_nil_r; repeat rewrite app_comm_cons; repeat rewrite app_assoc;
         rewrite last_last; reflexivity).
    + destruct (ReconcileDelete prov _) as [[r s1] l1].
      destruct r as [err|]; go_simpl;
        (destruct (client.Patch c vm (VM s1)); go_simpl; cbn [calls snd];
         rewrite ?app_nil_r; repeat rewrite app_comm_cons; repeat rewrite app_assoc;
         rewrite last_last; reflexivity).
  - unfold IgnoreNotFound. destruct (IsNotFound err); reflexivity.
Qed.

(** ** The patch at the end of a pass *)

Lemma createOrUpdateVM_no_patch P c prov imports max (s : Reconciler P) :
  Forall (fun e => is_patch e = false) (calls (createOrUpdateVM c prov imports max s)).
Proof.
  assert (forall l, Forall (fun e => prereq_event e = true) l ->
                    Forall (fun e => is_patch e = false) l) as Hweak.
  { intros l H. eapply Forall_impl; [|exact H].
    intros e He. destruct e; try discriminate He; reflexivity. }
  destruct (createOrUpdateVM_split c prov imports max s)
    as [(e & _ & _ & _ & Hall) | (args & s1 & l1 & (_ & _ & Hall & _) & Hpass)].
  - apply Hweak. exact Hall.
  - rewrite Hpass.
    assert (Forall (fun e => is_patch e = false)
                   (calls (func (reconcileOnProvider prov imports max args) s1))) as Hp.
    { unfold reconcileOnProvider. go_run; repeat constructor. }
    revert Hp. unfold calls.
    destruct (func (reconcileOnProvider prov imports max args) s1) as [[r s2] l2].
    cbn [fst snd]. intros Hp. apply Forall_app. split; [apply Hweak; exact Hall | exact Hp].
Qed.

Lemma delegate_no_patch P c prov imports max (s : Reconciler P) vm :
  Forall (fun e => is_patch e = false) (calls (delegate c prov imports max s vm)).
Proof.
  unfold delegate. destruct (IsZero (DeletionTimestamp (vmMeta vm))).
  - destruct (controllerutil.ContainsFinalizer (vmMeta (VM (with_VM s vm))) finalizerName)
      eqn:Hfin.
    + pose proof (createOrUpdateVM_no_patch c prov imports max (with_VM s vm)) as Hc.
      revert Hc. unfold ReconcileNormal. go_unfold. rewrite Hfin. go_simpl.
      destruct (createOrUpdateVM c prov imports max (with_VM s vm)) as [[r s1] l1].
      intros Hc. destruct r as [err|]; go_simpl; rewrite ?app_nil_r;
        [exact Hc | apply Forall_app; split; [exact Hc | repeat constructor]].
    + rewrite ReconcileNormal_adds_finalizer by exact Hfin. constructor.
  - unfold ReconcileDelete, deleteVM. go_run; repeat constructor.
Qed.

(** X6. A pass of [Reconcile] that gets as far as setting up the patch
    helper ends with exactly one patch, whether the work in between
    succeeded or not: its calls are the read, the calls of [ReconcileNormal]
    or, for an object with a deletion timestamp, of [ReconcileDelete], none
    of which is a patch, and last the patch of the object as that work left
    it.  The error of the work comes first: the error of the patch is
    returned only when the work returned none. *)
Theorem pass_ends_with_one_patch P c prov imports max req (s : Reconciler P) vm :
  client.GetVirtualMachine c req = Ok vm ->
  lookup (PauseAnnotation imports) (Annotations (vmMeta vm)) = None ->
  client.NewHelper c vm = None ->
  let work := delegate c prov imports max s vm in
  let pass := Reconcile c prov imports max req s in
  let patched := client.Patch c vm (VM (final work)) in
  calls pass =
    ClientGet "VirtualMachine" req :: calls work
      ++ [PatchHelperPatch (VM (final work)) patched] /\
  Forall (fun e => is_patch e = false) (calls work) /\
  final pass = final work /\
  snd (returned pass) =
    match returned work with
    | Some err => Some err
    | None => patched
    end.
Proof.
  intros Hget Hpause Hhelper work pass patched.
  split; [|split; [apply delegate_no_patch|]];
    subst patched pass work; unfold Reconcile, delegate; go_unfold;
    rewrite Hget; go_simpl; rewrite Hpause, Hhelper; go_simpl;
    fold (with_VM s vm);
    (destruct (IsZero (DeletionTimestamp (vmMeta vm))); go_simpl;
     [destruct (ReconcileNormal c prov imports max (with_VM s vm)) as [[r s1] l1]
     |destruct (ReconcileDelete prov (with_VM s vm)) as [[r s1] l1]];
     destruct r as [err|]; go_simpl;
     (destruct (client.Patch c vm (VM s1)); go_simpl;
      rewrite ?app_nil_r; auto)).
Qed.

Lemma pass_ends_with_one_patch_witness :
  client.GetVirtualMachine (Waiting.readonly Scenario.finalized) Scenario.request
    = Ok Scenario.finalized /\
  snd (returned (Reconcile (Waiting.readonly Scenario.finalized) Scenario.broken
                   (Scenario.switches false) 1 Scenario.request
                   (Scenario.reconciler emptyVM false 0))) =
    Some (Errorf "out of capacity") /\
  snd (returned (Reconcile (Waiting.readonly Scenario.finalized) Scenario.infrastructure
                   (Scenario.switches false) 1 Scenario.request
                   (Scenario.reconciler emptyVM false 0))) =
    Some (Errorf "the object has been modified").
Proof.
  split; [reflexivity|].
  destruct (@pass_ends_with_one_patch bool (Waiting.readonly Scenario.finalized)
              Scenario.broken (Scenario.switches false) 1 Scenario.request
              (Scenario.reconciler emptyVM false 0) Scenario.finalized
              eq_refl eq_refl eq_refl) as (_ & _ & _ & H1).
  destruct (@pass_ends_with_one_patch bool (Waiting.readonly Scenario.finalized)
              Scenario.infrastructure (Scenario.switches false) 1 Scenario.request
              (Scenario.reconciler emptyVM false 0) Scenario.finalized
              eq_refl eq_refl eq_refl) as (_ & _ & _ & H2).
  split; [rewrite H1 | rewrite H2]; reflexivity.
Defined.

(** ** Deleting what was never created *)

(** X7. [ReconcileDelete] on a VirtualMachine without the controller's
    finalizer does not touch the provider: it takes the machine off the
    prober and returns nil, leaving the object, its phase included, the
    provider and the count of creates as they were.  A pass of [Reconcile]
    on such an object under deletion reads it, takes it off the prober and
    patches it unchanged. *)
Theorem delete_without_finalizer P c prov imports max req (s : Reconciler P) :
  (controllerutil.ContainsFinalizer (vmMeta (VM s)) finalizerName = false ->
   ReconcileDelete prov s =
     (None, s, [ProberRemove (NamespacedName (vmMeta (VM s)))])) /\
  (forall vm,
     client.GetVirtualMachine c req = Ok vm ->
     lookup (PauseAnnotation imports) (Annotations (vmMeta vm)) = None ->
     client.NewHelper c vm = None ->
     IsZero (DeletionTimestamp (vmMeta vm)) = false ->
     controllerutil.ContainsFinalizer (vmMeta vm) finalizerName = false ->
     let pass := Reconcile c prov imports max req s in
     calls pass =
       [ClientGet "VirtualMachine" req;
        ProberRemove (NamespacedName (vmMeta vm));
        PatchHelperPatch vm (client.Patch c vm vm)] /\
     returned pass = (ctrl.emptyResult, client.Patch c vm vm) /\
     final pass = with_VM s vm).
Proof.
  assert (forall s' : Reconciler P,
            controllerutil.ContainsFinalizer (vmMeta (VM s')) finalizerName = false ->
            ReconcileDelete prov s' =
              (None, s', [ProberRemove (NamespacedName (vmMeta (VM s')))])) as Hdel.
  { intros s' Hfin. unfold ReconcileDelete. go_unfold. rewrite Hfin. go_simpl.
    destruct s'; reflexivity. }
  split; [apply Hdel|].
  intros vm Hget Hpause Hhelper Hzero Hfin pass. subst pass.
  unfold Reconcile. go_unfold. rewrite Hget. go_simpl.
  rewrite Hpause, Hhelper, Hzero. go_simpl. fold (with_VM s vm).
  rewrite (Hdel (with_VM s vm)) by exact Hfin. go_simpl. cbn [with_VM VM].
  destruct (client.Patch c vm vm); go_simpl; repeat split.
Qed.

Lemma delete_without_finalizer_witness :
  controllerutil.ContainsFinalizer (vmMeta Waiting.unseen) finalizerName = false /\
  calls (Reconcile (Scenario.apiserver Waiting.unseen) Scenario.infrastructure
           (Scenario.switches false) 1 Scenario.request
           (Scenario.reconciler emptyVM true 0)) =
  [ClientGet "VirtualMachine" Scenario.request;
   ProberRemove "dev/vm";
   PatchHelperPatch Waiting.unseen None].
Proof.
  split; [reflexivity|].
  destruct (@delete_without_finalizer bool (Scenario.apiserver Waiting.unseen)
              Scenario.infrastructure (Scenario.switches false) 1 Scenario.request
              (Scenario.reconciler emptyVM true 0)) as (_ & H).
  destruct (H Waiting.unseen eq_refl eq_refl eq_refl eq_refl eq_refl) as (H1 & _).
  exact H1.
Defined.

(** ** Instance storage *)

Lemma instanceStoragePVCs_spec imports storageClass volumes :
  forall n pvcs,
    match instanceStoragePVCs imports n storageClass volumes pvcs with
    | Ok out =>
        exists added,
          out = pvcs ++ added /\
          List.length added = List.length volumes /\
          forall i isv,
            nth_error volumes i = Some isv ->
            exists uuid,
              NewUUID imports (n + i) = Ok uuid /\
              nth_error added i =
                Some (instance_claim (InstanceStoragePVCNamePrefix imports ++ uuid)
                                     storageClass isv)
    | Err err =>
        exists i, (i < List.length volumes)%nat /\ NewUUID imports (n + i) = Err err
    end.
Proof.
  induction volumes as [|isv volumes IH]; intros n pvcs; cbn [instanceStoragePVCs].
  - exists []. rewrite app_nil_r. repeat split; auto.
    intros i isv H. destruct i; discriminate H.
  - destruct (NewUUID imports n) as [uuid|err] eqn:Euuid.
    + specialize (IH (S n) (pvcs ++ [instance_claim
                                       (InstanceStoragePVCNamePrefix imports ++ uuid)
                                       storageClass isv])).
      unfold instance_claim in IH at 1.
      destruct (instanceStoragePVCs imports (S n) storageClass volumes _) as [out|err].
      * destruct IH as (added & -> & Hlen & Hnth).
        exists (instance_claim (InstanceStoragePVCNamePrefix imports ++ uuid)
                               storageClass isv :: added).
        split; [rewrite <- app_assoc; reflexivity|].
        split; [cbn [List.length]; congruence|].
        intros [|i] isv' H; cbn [nth_error] in H |- *.
        -- injection H as <-. rewrite Nat.add_0_r. eauto.
        -- rewrite <- plus_n_Sm. apply (Hnth i isv' H).
      * destruct IH as (i & Hi & Herr). exists (S i).
        split; [cbn [List.length]; lia | rewrite <- plus_n_Sm; exact Herr].
    + exists 0%nat. split; [cbn [List.length]; lia | rewrite Nat.add_0_r; exact Euuid].
Qed.

(** X8. [addInstanceStorageSpec] is all or nothing.  When every UUID can
    be had, it appends to the volumes of the VirtualMachine, after those
    already there, one claim per instance volume of the class and in their
    order: the i-th is named by the prefix and the i-th UUID, claims under
    that same name, is not read-only, and asks for the size of the volume
    in the storage class of the class; nothing else of the object changes.
    When a UUID cannot be had, the error is returned and the object is left
    as it was, with none of the claims added.  No call is made. *)
Theorem instance_storage_claims_are_appended P imports instanceStorage
    (s : Reconciler P) :
  let pass := addInstanceStorageSpec imports instanceStorage s in
  calls pass = [] /\
  match returned pass with
  | None =>
      exists added,
        final pass = with_VM s (set_Volumes (VM s) (Volumes (Spec (VM s)) ++ added)) /\
        List.length added = List.length (isVolumes instanceStorage) /\
        forall i isv,
          nth_error (isVolumes instanceStorage) i = Some isv ->
          exists uuid,
            NewUUID imports i = Ok uuid /\
            nth_error added i =
              Some (instance_claim (InstanceStoragePVCNamePrefix imports ++ uuid)
                                   (isStorageClass instanceStorage) isv)
  | Some err =>
      final pass = s /\
      exists i, (i < List.length (isVolumes instanceStorage))%nat /\
                NewUUID imports i = Err err
  end.
Proof.
  intros pass. subst pass.
  pose proof (instanceStoragePVCs_spec imports (isStorageClass instanceStorage)
                (isVolumes instanceStorage) 0 []) as Hspec.
  unfold addInstanceStorageSpec. go_unfold.
  destruct (instanceStoragePVCs imports 0 (isStorageClass instanceStorage)
              (isVolumes instanceStorage) []) as [pvcs|err]; go_simpl.
  - split; [reflexivity|].
    destruct Hspec as (added & -> & Hlen & Hnth).
    exists added. cbn [app]. repeat split; assumption.
  - split; [reflexivity|]. split; [reflexivity | exact Hspec].
Qed.

Lemma addInstanceStorageSpec_claims P imports instanceStorage (s : Reconciler P) :
  returned (addInstanceStorageSpec imports instanceStorage s) = None ->
  exists added,
    final (addInstanceStorageSpec imports instanceStorage s) =
      with_VM s (set_Volumes (VM s) (Volumes (Spec (VM s)) ++ added)) /\
    (isVolumes instanceStorage <> [] ->
     exists v, nth_error added 0 = Some v /\ claims_instance_storage v = true).
Proof.
  pose proof (instanceStoragePVCs_spec imports (isStorageClass instanceStorage)
                (isVolumes instanceStorage) 0 []) as Hspec.
  unfold addInstanceStorageSpec. go_unfold.
  destruct (instanceStoragePVCs imports 0 (isStorageClass instanceStorage)
              (isVolumes instanceStorage) []) as [pvcs|err]; go_simpl;
    cbn [fst snd]; [intros _ | discriminate].
  destruct Hspec as (added & -> & Hlen & Hnth). exists added.
  split; [reflexivity|]. intros Hne.
  destruct (isVolumes instanceStorage) as [|isv volumes]; [contradiction|].
  destruct (Hnth 0%nat isv eq_refl) as (uuid & _ & H0).
  eexists. split; [exact H0 | reflexivity].
Qed.

Lemma existsb_claims_app l added :
  (exists v, nth_error added 0 = Some v /\ claims_instance_storage v = true) ->
  existsb claims_instance_storage (l ++ added) = true.
Proof.
  intros (v & Hnth & Hv). rewrite existsb_app. apply orb_true_iff. right.
  destruct added as [|v' added]; [discriminate Hnth|].
  injection Hnth as ->. cbn [existsb]. rewrite Hv. reflexivity.
Qed.

(** X9. [reconcileInstanceStorageSpec] adds the claims once.  Provided
    [instancestorage.IsConfigured] recognises a VirtualMachine one of whose
    volumes claims instance storage, a run that returned nil is followed by
    runs that change nothing and return nil.  A run also changes nothing
    when the switch is off, when the phase is Created, or when the class has
    no instance volumes. *)
Theorem instance_storage_is_added_once P imports vmClass (s : Reconciler P) :
  configured_by_claims imports ->
  let pass := reconcileInstanceStorageSpec imports vmClass s in
  (returned pass = None ->
   reconcileInstanceStorageSpec imports vmClass (final pass) = (None, final pass, [])) /\
  (IsInstanceStorageFSSEnabled imports = false \/
   Phase (Status (VM s)) = Created \/
   isVolumes (classInstanceStorage vmClass) = [] ->
   pass = (None, s, [])).
Proof.
  intros Hconf pass. subst pass.
  assert (forall s' : Reconciler P,
            IsInstanceStorageFSSEnabled imports = false \/
            phase_eqb (Phase (Status (VM s'))) Created = true \/
            IsConfigured imports (VM s') = true \/
            isVolumes (classInstanceStorage vmClass) = [] ->
            reconcileInstanceStorageSpec imports vmClass s' = (None, s', [])) as Hskip.
  { intros s' H. unfold reconcileInstanceStorageSpec. go_unfold.
    destruct (IsInstanceStorageFSSEnabled imports); go_simpl;
      [|destruct s'; reflexivity].
    destruct (phase_eqb (Phase (Status (VM s'))) Created); go_simpl;
      [destruct s'; reflexivity|].
    destruct (IsConfigured imports (VM s')); go_simpl; [destruct s'; reflexivity|].
    destruct H as [H|[H|[H|H]]]; try discriminate H.
    rewrite H. destruct s'; reflexivity. }
  split.
  - destruct (IsInstanceStorageFSSEnabled imports) eqn:Hfss;
      [|intros _; rewrite (Hskip s) by tauto; cbn [final fst snd]; apply Hskip; tauto].
    destruct (phase_eqb (Phase (Status (VM s))) Created) eqn:Hph;
      [intros _; rewrite (Hskip s) by tauto; cbn [final fst snd]; apply Hskip; tauto|].
    destruct (IsConfigured imports (VM s)) eqn:Hcfg;
      [intros _; rewrite (Hskip s) by tauto; cbn [final fst snd]; apply Hskip; tauto|].
    destruct (isVolumes (classInstanceStorage vmClass)) as [|isv volumes] eqn:Evol;
      [intros _; rewrite (Hskip s) by tauto; cbn [final fst snd]; apply Hskip; tauto|].
    pose proof (@addInstanceStorageSpec_claims P imports
                  (classInstanceStorage vmClass) s) as Hadd.
    assert (reconcileInstanceStorageSpec imports vmClass s =
            addInstanceStorageSpec imports (classInstanceStorage vmClass) s) as ->.
    { unfold reconcileInstanceStorageSpec. go_unfold. rewrite Hfss. go_simpl.
      rewrite Hph. go_simpl. rewrite Hcfg. go_simpl. rewrite Evol.
      cbn [List.length Nat.eqb]. go_simpl.
      destruct (addInstanceStorageSpec imports (classInstanceStorage vmClass) s)
        as [[r s1] l1].
      rewrite !app_nil_r. reflexivity. }
    intros Hr. destruct (Hadd Hr) as (added & Hfinal & Hfirst).
    apply Hskip. right. right. left. rewrite Hfinal.
    apply Hconf. cbn [with_VM VM set_Volumes Spec Volumes].
    apply existsb_claims_app. apply Hfirst. rewrite Evol. discriminate.
  - intros [H|[H|H]]; apply Hskip; auto.
    right. left. apply phase_eqb_eq. exact H.
Qed.

Lemma instance_storage_is_added_once_witness :
  configured_by_claims Storage.switches /\
  let pass := reconcileInstanceStorageSpec Storage.switches Storage.fast
                (Scenario.reconciler Scenario.finalized false 0) in
  map volName (Volumes (Spec (VM (final pass)))) = ["instance-pvc-0"; "instance-pvc-1"] /\
  reconcileInstanceStorageSpec Storage.switches Storage.fast (final pass)
    = (None, final pass, []).
Proof.
  assert (configured_by_claims Storage.switches) as Hc by (intros vm H; exact H).
  split; [exact Hc|]. intros pass. split; [reflexivity|].
  exact (proj1 (@instance_storage_is_added_once bool Storage.switches Storage.fast
                  (Scenario.reconciler Scenario.finalized false 0) Hc) eq_refl).
Defined.

(** ** The PrereqReady condition *)

Lemma getVMClass_outcome P c imports (s : Reconciler P) :
  match returned (getVMClass c imports s) with
  | Ok _ => VM (final (getVMClass c imports s)) = VM s
  | Err _ =>
      conditions.IsFalse (VM (final (getVMClass c imports s)))
                         VirtualMachinePrereqReadyCondition = true
  end.
Proof.
  unfold getVMClass. go_run; try reflexivity; apply IsFalse_MarkFalse.
Qed.

Lemma getImageAndContentLibraryUUID_outcome P c imports (s : Reconciler P) :
  match returned (getImageAndContentLibraryUUID c imports s) with
  | Ok _ => VM (final (getImageAndContentLibraryUUID c imports s)) = VM s
  | Err _ =>
      conditions.IsFalse (VM (final (getImageAndContentLibraryUUID c imports s)))
                         VirtualMachinePrereqReadyCondition = true \/
      VM (final (getImageAndContentLibraryUUID c imports s)) = VM s
  end.
Proof.
  unfold getImageAndContentLibraryUUID, getContentLibraryProviderFromImage,
    getContentSourceFromCLProvider.
  go_run; try reflexivity;
    first [right; reflexivity | left; apply IsFalse_MarkFalse].
Qed.

Lemma reconcileInstanceStorageSpec_volumes P imports vmClass (s : Reconciler P) :
  without_volumes (VM (final (reconcileInstanceStorageSpec imports vmClass s)))
  = without_volumes (VM s).
Proof.
  unfold reconcileInstanceStorageSpec, addInstanceStorageSpec.
  go_run; reflexivity.
Qed.

Lemma late_resolution_frame P c prov imports (s : Reconciler P) :
  VM (final (getVMMetadata c s)) = VM s /\
  VM (final (getResourcePolicy c prov imports s)) = VM s /\
  VM (final (getStoragePolicyID c s)) = VM s.
Proof.
  unfold getVMMetadata, getResourcePolicy, getStoragePolicyID.
  repeat split; go_run; reflexivity.
Qed.

Lemma reconcileOnProvider_asks P prov imports max args (s : Reconciler P) :
  exists r,
    In (ProviderDoesVirtualMachineExist r)
       (calls (func (reconcileOnProvider prov imports max args) s)).
Proof.
  unfold reconcileOnProvider. go_run; eexists; left; reflexivity.
Qed.

(** X10. A pass of [createOrUpdateVM] that does not get as far as asking
    the provider whether the machine exists has failed, and it leaves the
    PrereqReady condition in one of two ways: false, as the failures to
    resolve the class, the image or their bindings mark it; or, with all
    other conditions, exactly as it was before the pass.  The second is what
    a failure to resolve the bootstrap data, the resource policy or the
    storage policy does: [getVMMetadata], [getResourcePolicy] and
    [getStoragePolicyID] never write to the object. *)
Theorem prereq_condition_after_a_failure P c prov imports max (s : Reconciler P) :
  let pass := createOrUpdateVM c prov imports max s in
  (forall r, ~ In (ProviderDoesVirtualMachineExist r) (calls pass)) ->
  (exists e, returned pass = Some e) /\
  (conditions.IsFalse (VM (final pass)) VirtualMachinePrereqReadyCondition = true \/
   Conditions (Status (VM (final pass))) = Conditions (Status (VM s))) /\
  (forall s' : Reconciler P,
     VM (final (getVMMetadata c s')) = VM s' /\
     VM (final (getResourcePolicy c prov imports s')) = VM s' /\
     VM (final (getStoragePolicyID c s')) = VM s').
Proof.
  intros pass.
  assert ((forall r, ~ In (ProviderDoesVirtualMachineExist r) (calls pass)) ->
          (exists e, returned pass = Some e) /\
          (conditions.IsFalse (VM (final pass)) VirtualMachinePrereqReadyCondition = true \/
           Conditions (Status (VM (final pass))) = Conditions (Status (VM s)))) as Hmain.
  2:{ intros Hno. destruct (Hmain Hno) as [H1 H2].
      split; [exact H1|]. split; [exact H2|].
      intros s'. apply late_resolution_frame. }
  subst pass. rewrite createOrUpdateVM_stages. unfold returned, final, calls.
  pose proof (getVMClass_outcome c imports s) as O1. revert O1.
  unfold returned, final.
  destruct (getVMClass c imports s) as [[r1 s1] l1]. cbn [fst snd].
  destruct r1 as [vmClass|err]; cbn [fst snd]; intros O1; [|eauto].
  pose proof (reconcileInstanceStorageSpec_volumes imports vmClass s1) as O2.
  revert O2. unfold final.
  destruct (reconcileInstanceStorageSpec imports vmClass s1) as [[r2 s2] l2].
  cbn [fst snd]. intros O2.
  assert (Conditions (Status (VM s2)) = Conditions (Status (VM s))) as K2
    by (rewrite <- O1; exact (f_equal (fun v => Conditions (Status v)) O2)).
  destruct r2 as [err|]; cbn [fst snd]; [eauto|].
  pose proof (getImageAndContentLibraryUUID_outcome c imports s2) as O3.
  revert O3. unfold returned, final.
  destruct (getImageAndContentLibraryUUID c imports s2) as [[r3 s3] l3].
  cbn [fst snd].
  destruct r3 as [image|err]; cbn [fst snd]; intros O3.
  2:{ intros _. split; [eauto|]. destruct O3 as [O3|O3]; [left; exact O3|].
      right. rewrite O3. exact K2. }
  destruct (late_resolution_frame c prov imports s3) as (O4 & _). revert O4.
  unfold final.
  destruct (getVMMetadata c s3) as [[r4 s4] l4]. cbn [fst snd]. intros O4.
  destruct r4 as [vmMetadata|err]; cbn [fst snd];
    [|intros _; split; [eauto | right; congruence]].
  destruct (late_resolution_frame c prov imports s4) as (_ & O5 & _). revert O5.
  unfold final.
  destruct (getResourcePolicy c prov imports s4) as [[r5 s5] l5]. cbn [fst snd].
  intros O5.
  destruct r5 as [resourcePolicy|err]; cbn [fst snd];
    [|intros _; split; [eauto | right; congruence]].
  destruct (late_resolution_frame c prov imports s5) as (_ & _ & O6). revert O6.
  unfold final.
  destruct (getStoragePolicyID c s5) as [[r6 s6] l6]. cbn [fst snd]. intros O6.
  destruct r6 as [storagePolicyID|err]; cbn [fst snd];
    [|intros _; split; [eauto | right; congruence]].
  cbv zeta.
  match goal with
  | |- context [func (reconcileOnProvider prov imports max ?args) ?st] =>
      destruct (reconcileOnProvider_asks prov imports max args st) as (x & Hx);
      revert Hx; unfold calls;
      destruct (func (reconcileOnProvider prov imports max args) st) as [[r7 s7] l7]
  end.
  cbn [fst snd]. intros Hx Hno. exfalso. apply (Hno x).
  repeat (apply in_or_app; right). exact Hx.
Qed.

Lemma prereq_condition_after_a_failure_witness :
  (forall r,
     ~ In (ProviderDoesVirtualMachineExist r)
          (calls (createOrUpdateVM (Scenario.apiserver Scenario.twofold)
                    Scenario.infrastructure (Scenario.switches false) 1
                    (Scenario.reconciler Scenario.twofold false 0)))) /\
  Conditions (Status (VM (final
    (createOrUpdateVM (Scenario.apiserver Scenario.twofold)
       Scenario.infrastructure (Scenario.switches false) 1
       (Scenario.reconciler Scenario.twofold false 0))))) = [] /\
  exists e,
    returned (createOrUpdateVM (Scenario.apiserver Scenario.twofold)
                Scenario.infrastructure (Scenario.switches false) 1
                (Scenario.reconciler Scenario.twofold false 0)) = Some e.
Proof.
  assert (forall r,
            ~ In (ProviderDoesVirtualMachineExist r)
                 (calls (createOrUpdateVM (Scenario.apiserver Scenario.twofold)
                           Scenario.infrastructure (Scenario.switches false) 1
                           (Scenario.reconciler Scenario.twofold false 0)))) as Hno.
  { intros r H. vm_compute in H.
    repeat (destruct H as [H|H]; [discriminate H|]). exact H. }
  split; [exact Hno|]. split; [reflexivity|].
  exact (proj1 (@prereq_condition_after_a_failure bool
                  (Scenario.apiserver Scenario.twofold) Scenario.infrastructure
                  (Scenario.switches false) 1
                  (Scenario.reconciler Scenario.twofold false 0) Hno)).
Defined.

(** ** Content source bindings *)



(** * More about the endpoints of a service *)

Import virtualmachineservice.

(** ** Which machines are put behind a service *)

Lemma portSubsets_spec vmService vm ports :
  forall subsets,
    exists added,
      portSubsets vm (makeEndpointAddress vmService vm) ports subsets = subsets ++ added /\
      Forall (fun sub => exists servicePort,
                           In servicePort ports /\
                           subset_of vmService vm servicePort sub) added /\
      (forall servicePort portNum,
         In servicePort ports ->
         findPort vm (spTargetPort servicePort) (spProtocol servicePort) = Ok portNum ->
         exists sub, In sub added /\ subset_of vmService vm servicePort sub).
Proof.
  induction ports as [|servicePort ports IH]; intros subsets; cbn [portSubsets].
  - exists []. rewrite app_nil_r. repeat split; [constructor|].
    intros servicePort portNum [].
  - destruct (findPort vm (spTargetPort servicePort) (spProtocol servicePort))
      as [portNum|err] eqn:Eport.
    + destruct (IH (addEndpointSubset subsets (makeEndpointAddress vmService vm)
                      (Some {| eppName := spName servicePort;
                               eppPort := (portNum + 2 ^ 31) mod 2 ^ 32 - 2 ^ 31;
                               eppProtocol := spProtocol servicePort |})))
        as (added & -> & Hall & Hevery).
      unfold addEndpointSubset. rewrite <- app_assoc. cbn [app].
      eexists. split; [reflexivity|].
      assert (subset_of vmService vm servicePort
                {| Addresses := [makeEndpointAddress vmService vm];
                   epsPorts := [{| eppName := spName servicePort;
                                   eppPort := (portNum + 2 ^ 31) mod 2 ^ 32 - 2 ^ 31;
                                   eppProtocol := spProtocol servicePort |}] |}) as Hhead
        by (exists portNum; auto).
      split.
      * constructor; [exists servicePort; split; [left; reflexivity | exact Hhead]|].
        eapply Forall_impl; [|exact Hall].
        intros sub (sp & Hin & Hsub). exists sp. split; [right; exact Hin | exact Hsub].
      * intros sp pn [<-|Hin] Hpn.
        -- eexists. split; [left; reflexivity | exact Hhead].
        -- destruct (Hevery sp pn Hin Hpn) as (sub & Hsub & Hof).
           exists sub. split; [right; exact Hsub | exact Hof].
    + destruct (IH subsets) as (added & -> & Hall & Hevery).
      exists added. split; [reflexivity|]. split.
      * eapply Forall_impl; [|exact Hall].
        intros sub (sp & Hin & Hsub). exists sp. split; [right; exact Hin | exact Hsub].
      * intros sp pn [<-|Hin] Hpn; [congruence|].
        apply (Hevery sp pn Hin Hpn).
Qed.

Lemma only_ready_backends_more dial vmService service vm vms subsets :
  only_ready_backends dial vmService service vms subsets ->
  only_ready_backends dial vmService service (vm :: vms) subsets.
Proof.
  unfold only_ready_backends. intros H. eapply Forall_impl; [|exact H].
  intros sub (v & sp & Hin & Hrest). exists v, sp. split; [right; exact Hin | exact Hrest].
Qed.

Lemma selectEndpoints_spec dial vmService service items :
  forall n subsets,
    exists added,
      snd (returned (selectEndpoints dial vmService service items n subsets tt))
        = subsets ++ added /\
      only_ready_backends dial vmService service items added /\
      (forall vm servicePort portNum,
         In vm items -> ready_backend dial vmService vm ->
         In servicePort (svcPorts service) ->
         findPort vm (spTargetPort servicePort) (spProtocol servicePort) = Ok portNum ->
         exists sub, In sub added /\ subset_of vmService vm servicePort sub) /\
      Forall (fun e => is_endpoints_write e = false)
             (calls (selectEndpoints dial vmService service items n subsets tt)).
Proof.
  induction items as [|vm items IH]; intros n subsets.
  - exists []. cbn. rewrite app_nil_r. repeat split; try constructor.
    intros vm sp pn [].
  - assert (forall n' subsets',
              selectEndpoints dial vmService service (vm :: items) n subsets tt =
              selectEndpoints dial vmService service items n' subsets' tt ->
              subsets' = subsets ->
              ~ ready_backend dial vmService vm ->
              exists added,
                snd (returned (selectEndpoints dial vmService service (vm :: items)
                                 n subsets tt)) = subsets ++ added /\
                only_ready_backends dial vmService service (vm :: items) added /\
                (forall vm' servicePort portNum,
                   In vm' (vm :: items) -> ready_backend dial vmService vm' ->
                   In servicePort (svcPorts service) ->
                   findPort vm' (spTargetPort servicePort) (spProtocol servicePort)
                     = Ok portNum ->
                   exists sub, In sub added /\ subset_of vmService vm' servicePort sub) /\
                Forall (fun e => is_endpoints_write e = false)
                       (calls (selectEndpoints dial vmService service (vm :: items)
                                 n subsets tt))) as Hskip.
    { intros n' subsets' Heq -> Hnot. rewrite Heq.
      destruct (IH n' subsets) as (added & Hsub & Hsound & Hevery & Hw).
      exists added. split; [exact Hsub|]. split; [|split; [|exact Hw]].
      - apply only_ready_backends_more. exact Hsound.
      - intros vm' sp pn [<-|Hin] Hready; [contradiction|]. apply Hevery; assumption. }
    destruct (DeletionTimestamp (vmMeta vm)) as [t|] eqn:Edel.
    { apply (Hskip n subsets); [cbn [selectEndpoints]; rewrite Edel; reflexivity
                               | reflexivity |].
      intros (H & _). congruence. }
    destruct (Nat.eqb (String.length (VmIp (Status vm))) 0) eqn:Eip.
    { apply (Hskip n subsets);
        [cbn [selectEndpoints]; rewrite Edel, Eip; reflexivity | reflexivity |].
      intros (_ & H & _). apply H.
      destruct (VmIp (Status vm)); [reflexivity | discriminate Eip]. }
    destruct (String.eqb_spec (Host (Status vm)) "") as [Ehost|Nhost].
    { apply (Hskip n subsets);
        [cbn [selectEndpoints]; rewrite Edel, Eip, Ehost; reflexivity | reflexivity |].
      intros (_ & _ & H & _). apply H. exact Ehost. }
    clear Hskip. cbn [selectEndpoints]. rewrite Edel, Eip.
    rewrite (proj2 (String.eqb_neq _ _) Nhost).
    pose proof (runProbe_no_write dial vmService vm (ReadinessProbe (Spec vm))) as Hpw.
    assert (returned (runProbe dial vmService vm (ReadinessProbe (Spec vm)) tt) = None
            -> ready_backend dial vmService vm) as Hready.
    { intros Hr. repeat split; auto.
      intros H. rewrite H in Eip. discriminate Eip. }
    revert Hpw Hready. unfold returned at 1 2, calls at 1.
    destruct (runProbe dial vmService vm (ReadinessProbe (Spec vm)) tt)
      as [[err []] l1] eqn:Eprobe.
    cbn [fst snd]. intros Hpw Hready.
    destruct err as [err|].
    + destruct (IH (wrap_int (n + 1)) subsets) as (added & Hsub & Hsound & Hevery & Hw).
      revert Hsub Hw. unfold returned, calls.
      destruct (selectEndpoints dial vmService service items (wrap_int (n + 1))
                  subsets tt) as [[r s2] l2].
      cbn [fst snd]. intros Hsub Hw.
      exists added. split; [exact Hsub|]. split; [|split].
      * apply only_ready_backends_more. exact Hsound.
      * intros vm' sp pn [<-|Hin] Hr Hsp Hpn.
        -- destruct Hr as (_ & _ & _ & Hprobe).
           unfold returned in Hprobe. rewrite Eprobe in Hprobe.
           discriminate Hprobe.
        -- apply (Hevery vm' sp pn Hin Hr Hsp Hpn).
      * apply Forall_app. auto.
    + specialize (Hready eq_refl).
      destruct (portSubsets_spec vmService vm (svcPorts service) subsets)
        as (mine & Hmine & Hmsound & Hmevery).
      rewrite Hmine.
      destruct (IH n (subsets ++ mine)) as (added & Hsub & Hsound & Hevery & Hw).
      revert Hsub Hw. unfold returned, calls.
      destruct (selectEndpoints dial vmService service items n (subsets ++ mine) tt)
        as [[r s2] l2].
      cbn [fst snd]. intros Hsub Hw.
      exists (mine ++ added). split; [rewrite Hsub, app_assoc; reflexivity|].
      split; [|split].
      * unfold only_ready_backends. apply Forall_app. split.
        -- eapply Forall_impl; [|exact Hmsound].
           intros sub (sp & Hin & Hof). exists vm, sp.
           repeat split; try apply Hready; auto. left. reflexivity.
        -- apply only_ready_backends_more. exact Hsound.
      * intros vm' sp pn [<-|Hin] Hr Hsp Hpn.
        -- destruct (Hmevery sp pn Hsp Hpn) as (sub & Hsubin & Hof).
           exists sub. split; [apply in_or_app; left; exact Hsubin | exact Hof].
        -- destruct (Hevery vm' sp pn Hin Hr Hsp Hpn) as (sub & Hsubin & Hof).
           exists sub. split; [apply in_or_app; right; exact Hsubin | exact Hof].
      * apply Forall_app. auto.
Qed.

Lemma not_written e : is_endpoints_write e = false -> written_endpoints e = None.
Proof. destruct e; simpl; congruence. Qed.

(** A call that wrote Endpoints is none of the reads and dials at hand. *)
Ltac find_write Hin Hep Hw :=
  repeat match type of Hin with
         | In _ (_ ++ _) => apply in_app_or in Hin; destruct Hin as [Hin|Hin]
         | In _ (_ :: _) => destruct Hin as [Hin|Hin]; [subst; cbn in Hep|]
         | In _ [] => contradiction
         end;
  try discriminate Hep;
  try (rewrite Forall_forall in Hw; apply Hw, not_written in Hin; congruence).

(** X12. Whenever [updateEndpoints] writes an Endpoints object, created or
    updated, the object carries the metadata made from the service and
    lists exactly the ready machines among those selected: every subset
    holds the one address of a selected VirtualMachine that is not being
    deleted, has an IP address and a host and passes its readiness probe,
    with the one port of the service whose target port that machine
    resolves; and every such machine and port has its subset. *)
Theorem endpoints_list_the_ready_machines c dial AddAnnotations vmService service vms :
  client.ListVirtualMachines c (Namespace (vmsMeta vmService)) (vmsSelector vmService)
    = Ok vms ->
  let pass := updateEndpoints c dial AddAnnotations vmService service tt in
  forall e ep,
    In e (calls pass) -> written_endpoints e = Some ep ->
    epMeta ep = MakeObjectMeta AddAnnotations vmService /\
    only_ready_backends dial vmService service vms (Subsets ep) /\
    (forall vm servicePort portNum,
       In vm vms -> ready_backend dial vmService vm ->
       In servicePort (svcPorts service) ->
       findPort vm (spTargetPort servicePort) (spProtocol servicePort) = Ok portNum ->
       exists sub, In sub (Subsets ep) /\ subset_of vmService vm servicePort sub).
Proof.
  intros Hlist pass e ep. subst pass.
  destruct (selectEndpoints_spec dial vmService service vms 0 [])
    as (added & Hsub & Hsound & Hevery & Hw).
  unfold updateEndpoints. go_unfold. rewrite Hlist. go_simpl.
  revert Hsub Hw. unfold returned, calls.
  destruct (selectEndpoints dial vmService service vms 0 [] tt) as [[[n subsets] []] l1].
  cbn [fst snd app]. intros -> Hw. go_simpl.
  destruct (client.GetEndpoints c _) as [cur|err]; go_simpl.
  - destruct (DeepEqual (Subsets cur) added); go_simpl.
    + intros Hin Hep. find_write Hin Hep Hw.
    + destruct (Nat.eqb (String.length (ResourceVersion (epMeta cur))) 0); go_simpl;
        [destruct (client.CreateEndpoints c _) | destruct (client.UpdateEndpoints c _)];
        go_simpl; intros Hin Hep; find_write Hin Hep Hw;
        injection Hep as <-; cbn [makeEndpoints epMeta Subsets]; auto.
  - destruct (IsNotFound err); go_simpl.
    + cbn [epMeta ResourceVersion String.length Nat.eqb]. go_simpl.
      destruct (client.CreateEndpoints c _); go_simpl;
        intros Hin Hep; find_write Hin Hep Hw;
        injection Hep as <-; cbn [makeEndpoints epMeta Subsets]; auto.
    + intros Hin Hep. find_write Hin Hep Hw.
Qed.

Lemma endpoints_list_the_ready_machines_witness :
  client.ListVirtualMachines (Unserved.apiserver [Serving.backend; Serving.booting])
    "dev" [("app", "web")] = Ok [Serving.backend; Serving.booting] /\
  ready_backend Serving.reachable Serving.web Serving.backend /\
  only_ready_backends Serving.reachable Serving.web Serving.service
    [Serving.backend; Serving.booting]
    (Subsets Serving.current).
Proof.
  split; [reflexivity|].
  split; [repeat split; discriminate|].
  destruct (@endpoints_list_the_ready_machines
              (Unserved.apiserver [Serving.backend; Serving.booting]) Serving.reachable
              Serving.noAnnotations Serving.web Serving.service
              [Serving.backend; Serving.booting] eq_refl
              (ClientCreateEndpoints
                 {| epMeta := MakeObjectMeta Serving.noAnnotations Serving.web;
                    Subsets := Subsets Serving.current |} None)
              {| epMeta := MakeObjectMeta Serving.noAnnotations Serving.web;
                 Subsets := Subsets Serving.current |})
    as (_ & H & _); [in_computed_trace | reflexivity | exact H].
Defined.

(** ** When Endpoints are written *)

Lemma filter_no_write l :
  Forall (fun e => is_endpoints_write e = false) l -> filter is_endpoints_write l = [].
Proof.
  induction 1 as [|e l He _ IH]; [reflexivity|].
  cbn [filter]. rewrite He. exact IH.
Qed.

Lemma DeepEqual_eq a b : DeepEqual a b = true <-> a = b.
Proof.
  unfold DeepEqual. destruct (list_eq_dec EndpointSubset_eq_dec a b);
    split; congruence.
Qed.

(** X13. [updateEndpoints] writes the Endpoints object at most once in a
    pass, and not at all when there is nothing to change: when the object
    is there and its subsets are the ones just worked out, no create and no
    update is sent.  Nor is anything written when the selected machines
    cannot be listed.  An object that is not there, or is there without a
    resource version, is created; any other is updated. *)
Theorem endpoints_written_only_on_change c dial AddAnnotations vmService service :
  let pass := updateEndpoints c dial AddAnnotations vmService service tt in
  let writes := filter is_endpoints_write (calls pass) in
  let key := {| keyNamespace := Namespace (svcMeta service);
                keyName := Name (svcMeta service) |} in
  match client.ListVirtualMachines c (Namespace (vmsMeta vmService))
                                   (vmsSelector vmService) with
  | Err err => writes = [] /\ returned pass = Some (IsError err)
  | Ok vms =>
      let subsets :=
        snd (returned (selectEndpoints dial vmService service vms 0 [] tt)) in
      let new := makeEndpoints AddAnnotations vmService
                   {| epMeta := emptyMeta; Subsets := [] |} subsets in
      match client.GetEndpoints c key with
      | Ok cur =>
          if DeepEqual (Subsets cur) subsets then writes = []
          else if Nat.eqb (String.length (ResourceVersion (epMeta cur))) 0
               then writes = [ClientCreateEndpoints new (client.CreateEndpoints c new)]
               else writes = [ClientUpdateEndpoints new (client.UpdateEndpoints c new)]
      | Err err =>
          if IsNotFound err
          then writes = [ClientCreateEndpoints new (client.CreateEndpoints c new)]
          else writes = [] /\ returned pass = Some (IsError err)
      end
  end.
Proof.
  intros pass writes key. subst writes pass.
  unfold updateEndpoints, makeEndpoints. go_unfold.
  destruct (client.ListVirtualMachines c _ _) as [vms|err]; go_simpl;
    [|split; reflexivity].
  destruct (selectEndpoints_spec dial vmService service vms 0 [])
    as (added & _ & _ & _ & Hw).
  apply filter_no_write in Hw. revert Hw. unfold returned, calls.
  destruct (selectEndpoints dial vmService service vms 0 [] tt) as [[[n subsets] []] l1].
  cbn [fst snd]. intros Hw. go_simpl. fold key.
  destruct (client.GetEndpoints c key) as [cur|err]; go_simpl.
  - destruct (DeepEqual (Subsets cur) subsets); go_simpl.
    + cbn [filter is_endpoints_write]. rewrite !filter_app, Hw. reflexivity.
    + destruct (Nat.eqb (String.length (ResourceVersion (epMeta cur))) 0); go_simpl;
        [destruct (client.CreateEndpoints c _) eqn:Ew
        |destruct (client.UpdateEndpoints c _) eqn:Ew];
        go_simpl; cbn [filter is_endpoints_write];
        rewrite !filter_app, Hw; cbn [filter is_endpoints_write app];
        reflexivity.
  - destruct (IsNotFound err); go_simpl.
    + cbn [epMeta ResourceVersion String.length Nat.eqb]. go_simpl.
      destruct (client.CreateEndpoints c _) eqn:Ew; go_simpl;
        cbn [filter is_endpoints_write];
        rewrite !filter_app, Hw; cbn [filter is_endpoints_write app];
        reflexivity.
    + cbn [filter is_endpoints_write]. rewrite !filter_app, Hw. split; reflexivity.
Qed.

(** ** When a requeue is asked for *)

Lemma selectEndpoints_count dial vmService service items :
  forall n subsets,
    0 <= n ->
    n + Z.of_nat (List.length items) < 2 ^ 63 ->
    let count :=
      fst (returned (selectEndpoints dial vmService service items n subsets tt)) in
    n <= count <= n + Z.of_nat (List.length items) /\
    (count = n + Z.of_nat (List.length items) ->
     Forall (reaches_and_fails_probe dial vmService) items).
Proof.
  induction items as [|vm items IH]; intros n subsets Hn Hlen count; subst count.
  - cbn. split; [lia | constructor].
  - change (List.length (vm :: items)) with (S (List.length items)) in Hlen |- *.
    rewrite Nat2Z.inj_succ in Hlen |- *.
    assert (forall subsets',
              let count :=
                fst (returned (selectEndpoints dial vmService service items n
                                 subsets' tt)) in
              n <= count <= n + Z.succ (Z.of_nat (List.length items)) /\
              (count = n + Z.succ (Z.of_nat (List.length items)) ->
               Forall (reaches_and_fails_probe dial vmService) (vm :: items)))
      as Hskip.
    { intros subsets' count. subst count.
      destruct (IH n subsets' Hn ltac:(lia)) as [Hrange _].
      split; [lia | intros H; exfalso; lia]. }
    cbn [selectEndpoints].
    destruct (DeletionTimestamp (vmMeta vm)) as [t|] eqn:Edel; [apply Hskip|].
    destruct (Nat.eqb (String.length (VmIp (Status vm))) 0) eqn:Eip; [apply Hskip|].
    destruct (String.eqb_spec (Host (Status vm)) "") as [Ehost|Nhost]; [apply Hskip|].
    destruct (runProbe dial vmService vm (ReadinessProbe (Spec vm)) tt)
      as [[err []] l1] eqn:Eprobe.
    destruct err as [err|].
    + rewrite wrap_int_small by lia.
      destruct (IH (n + 1) subsets ltac:(lia) ltac:(lia)) as [Hrange Hall].
      revert Hrange Hall. unfold returned.
      destruct (selectEndpoints dial vmService service items (n + 1) subsets tt)
        as [[r s2] l2].
      cbn [fst snd]. intros Hrange Hall. split; [lia|].
      intros Hcount. constructor; [|apply Hall; lia].
      repeat split; auto.
      * intros H. rewrite H in Eip. discriminate Eip.
      * exists err. unfold returned. rewrite Eprobe. reflexivity.
    + specialize (Hskip (portSubsets vm (makeEndpointAddress vmService vm)
                           (svcPorts service) subsets)).
      cbv zeta in Hskip. revert Hskip. unfold returned.
      destruct (selectEndpoints dial vmService service items n _ tt) as [[r s2] l2].
      cbn [fst snd]. exact (fun H => H).
Qed.

(** X14. [updateEndpoints] asks for a requeue only when every selected
    machine failed its probe: when it returns a [RequeueAfterError], the
    delay is 10 seconds, the selection is not empty, and every selected
    VirtualMachine got as far as its readiness probe (it is not being
    deleted and has an IP address and a host) and failed it. *)
Theorem requeue_only_when_every_probe_failed c dial AddAnnotations vmService service
    vms requeueErr :
  client.ListVirtualMachines c (Namespace (vmsMeta vmService)) (vmsSelector vmService)
    = Ok vms ->
  Z.of_nat (List.length vms) < 2 ^ 63 ->
  returned (updateEndpoints c dial AddAnnotations vmService service tt)
    = Some (IsRequeueAfterError requeueErr) ->
  GetRequeueAfter requeueErr = 10 * Second /\
  vms <> [] /\
  Forall (reaches_and_fails_probe dial vmService) vms.
Proof.
  intros Hlist Hlen.
  destruct (@selectEndpoints_count dial vmService service vms 0 [] ltac:(lia) ltac:(lia))
    as [Hrange Hall].
  unfold updateEndpoints. go_unfold. rewrite Hlist. go_simpl.
  revert Hrange Hall. unfold returned.
  destruct (selectEndpoints dial vmService service vms 0 [] tt) as [[[n subsets] []] l1].
  cbn [fst snd]. intros Hrange Hall. go_simpl.
  assert ((if (n >? 0) && (n =? Z.of_nat (List.length vms))
           then Some (IsRequeueAfterError {| RequeueAfter := probeFailureRequeueTime |})
           else None) = Some (IsRequeueAfterError requeueErr) ->
          GetRequeueAfter requeueErr = 10 * Second /\
          vms <> [] /\
          Forall (reaches_and_fails_probe dial vmService) vms) as Hreq.
  { destruct ((n >? 0) && (n =? Z.of_nat (List.length vms))) eqn:Eall;
      [|discriminate].
    apply andb_true_iff in Eall. destruct Eall as [Hpos Heq].
    apply Z.gtb_lt in Hpos. apply Z.eqb_eq in Heq.
    intros H. injection H as <-. split; [reflexivity|]. split.
    - intros ->. cbn in Heq. lia.
    - apply Hall. lia. }
  destruct (client.GetEndpoints c _) as [cur|err]; go_simpl.
  - destruct (DeepEqual (Subsets cur) subsets); go_simpl; [exact Hreq|].
    destruct (Nat.eqb (String.length (ResourceVersion (epMeta cur))) 0); go_simpl;
      [destruct (client.CreateEndpoints c _) | destruct (client.UpdateEndpoints c _)];
      go_simpl; first [exact Hreq | discriminate].
  - destruct (IsNotFound err); go_simpl; [|discriminate].
    cbn [epMeta ResourceVersion String.length Nat.eqb]. go_simpl.
    destruct (client.CreateEndpoints c _); go_simpl; first [exact Hreq | discriminate].
Qed.

Lemma requeue_only_when_every_probe_failed_witness :
  returned (updateEndpoints (Serving.apiserver [Serving.backend]) Serving.unreachable
              Serving.noAnnotations Serving.web Serving.service tt)
    = Some (IsRequeueAfterError {| RequeueAfter := 10 * Second |}) /\
  Forall (reaches_and_fails_probe Serving.unreachable Serving.web) [Serving.backend].
Proof.
  split; [reflexivity|].
  apply (@requeue_only_when_every_probe_failed
           (Serving.apiserver [Serving.backend]) Serving.unreachable
           Serving.noAnnotations Serving.web Serving.service [Serving.backend]
           {| RequeueAfter := 10 * Second |} eq_refl ltac:(cbn; lia) eq_refl).
Defined.

(** ** The readiness probe *)

(** X15. [runProbe] makes at most one connection attempt.  Without a
    probe it makes none and the machine counts as ready.  With a TCP
    probe whose port resolves it dials once, over TCP, the host of the
    probe or, when that is empty, the IP address of the VirtualMachine, on
    the port resolved, with a timeout that is always positive: the
    seconds of the probe when positive, 10 seconds otherwise; the probe
    returns what the dial returned.  A probe without a TCP action, or
    whose port does not resolve, fails without a dial. *)
Theorem probe_dials_once_with_a_timeout dial vmService vm p :
  let pass := runProbe dial vmService vm p tt in
  match p with
  | None => pass = (None, tt, [])
  | Some probe =>
      match TCPSocket probe with
      | None => calls pass = [] /\ exists e, returned pass = Some e
      | Some tcp =>
          match findPort vm (tcpPort tcp) "TCP" with
          | Err e => pass = (Some e, tt, [])
          | Ok portNum =>
              let host := if String.eqb (tcpHost tcp) "" then VmIp (Status vm)
                          else tcpHost tcp in
              exists timeout,
                0 < timeout /\
                (0 < TimeoutSeconds probe -> timeout = TimeoutSeconds probe * Second) /\
                (TimeoutSeconds probe <= 0 -> timeout = 10 * Second) /\
                pass = (dial "tcp" (JoinHostPort host (Itoa portNum)) timeout, tt,
                        [DialTimeout "tcp" host (Itoa portNum) timeout])
          end
      end
  end.
Proof.
  intros pass. subst pass. unfold runProbe, checkConnection. go_unfold.
  destruct p as [probe|]; [|reflexivity].
  destruct (TCPSocket probe) as [tcp|]; go_simpl; [|split; eauto].
  destruct (findPort vm (tcpPort tcp) "TCP") as [portNum|e]; go_simpl; [|reflexivity].
  destruct (String.eqb (tcpHost tcp) ""); go_simpl;
    (destruct (Z.leb_spec (TimeoutSeconds probe) 0) as [Hle|Hgt];
     [exists defaultConnectTimeout | exists (TimeoutSeconds probe * Second)];
     (split; [unfold defaultConnectTimeout, Second; lia|]);
     (split; [intros; try reflexivity; lia|]);
     (split; [intros; try reflexivity; lia|]);
     match goal with
     | |- context [dial ?a ?b ?t] => destruct (dial a b t); reflexivity
     end).
Qed.

(** * The watches of the VirtualMachine controller *)

Import virtualmachine.




(** * The Service of a VirtualMachineService *)

Section ServiceController.
Import servicecontroller.

(** Unfolding a body of this part of the controller. *)
Ltac svc_unfold :=
  cbv beta iota zeta delta
    [func bind call return_ next gets modify emit defer when run_deferred
     perform lift calls returned final fst snd].

Lemma find_app A (f : A -> bool) l1 l2 :
  find f (l1 ++ l2) = match find f l1 with
                      | Some x => Some x
                      | None => find f l2
                      end.
Proof.
  induction l1 as [|a l1 IH]; cbn [app find]; [reflexivity|].
  destruct (f a); [reflexivity | exact IH].
Qed.

Lemma portNodePortMap_spec ports port :
  portNodePortMap ports port = nodePortIn ports port.
Proof.
  unfold portNodePortMap, nodePortIn.
  assert (forall (m : Z -> option Z),
            fold_left (fun m servicePort =>
                         fun port => if port =? spPort servicePort
                                     then Some (spNodePort servicePort)
                                     else m port) ports m port =
            match find (fun servicePort => spPort servicePort =? port) (rev ports) with
            | Some servicePort => Some (spNodePort servicePort)
            | None => m port
            end) as Hfold.
  { induction ports as [|servicePort ports IH]; intros m; cbn [fold_left rev];
      [reflexivity|].
    rewrite IH, find_app. cbn [find]. rewrite (Z.eqb_sym port).
    destruct (find _ (rev ports)); [reflexivity|].
    destruct (spPort servicePort =? port); reflexivity. }
  rewrite Hfold. reflexivity.
Qed.

Lemma keepNodePorts_translates AddAnnotations vmService current :
  Forall2 (translates current) (vmsPorts vmService)
          (keepNodePorts (portNodePortMap current)
             (svcPorts (svcObject (vmServiceToService AddAnnotations vmService)))).
Proof.
  unfold vmServiceToService. cbn [svcObject svcPorts].
  induction (vmsPorts vmService) as [|vmPort ports IH]; cbn [map keepNodePorts];
    constructor; [|exact IH].
  unfold translates. cbn [spPort]. rewrite portNodePortMap_spec.
  destruct (nodePortIn current (vmspPort vmPort)); reflexivity.
Qed.

Lemma keepNodePorts_unset current ports :
  Forall (fun servicePort => spNodePort servicePort = 0) current ->
  Forall (fun servicePort => spNodePort servicePort = 0) ports ->
  Forall (fun servicePort => spNodePort servicePort = 0)
         (keepNodePorts (portNodePortMap current) ports).
Proof.
  intros Hcurrent Hports. unfold keepNodePorts. apply Forall_map.
  eapply Forall_impl; [|exact Hports].
  intros servicePort Hzero. cbv beta.
  rewrite portNodePortMap_spec. unfold nodePortIn.
  destruct (find _ (rev current)) as [found|] eqn:Efind; [|exact Hzero].
  cbn [set_NodePort spNodePort].
  apply find_some in Efind. destruct Efind as [Hin _]. apply in_rev in Hin.
  rewrite Forall_forall in Hcurrent. apply Hcurrent. exact Hin.
Qed.

Lemma vmServiceToService_unset AddAnnotations vmService :
  Forall (fun servicePort => spNodePort servicePort = 0)
         (svcPorts (svcObject (vmServiceToService AddAnnotations vmService))).
Proof.
  unfold vmServiceToService. cbn [svcObject svcPorts]. apply Forall_map.
  apply Forall_forall. reflexivity.
Qed.

(** X18. What [createOrUpdateService] does with the Service translated
    from a VirtualMachineService.  It reads the Service of that name.  When
    there is none it creates one and records the event of the create; when
    the read fails otherwise it returns that error; when the last applied
    configuration of the one found matches, it writes nothing and returns
    the one found.  Otherwise it updates the one found (or creates it, when
    it has no resource version).  The Service it sends follows the
    VirtualMachineService in its type, its external name and its ports, in
    their order, and keeps from the one found the cluster IP and, for each
    port whose number the one found has, the node port of the last port
    with that number; a port with a new number, and every port of a new
    Service, has no node port.  ([pkg.AddAnnotations] is taken to leave the
    resource version alone.) *)
Theorem translated_service_keeps_node_ports w AddAnnotations
    VMServiceCompareToLastApplied vmService steps :
  (forall om, ResourceVersion (AddAnnotations om) = ResourceVersion om) ->
  let service := vmServiceToService AddAnnotations vmService in
  let key := {| keyNamespace := Namespace (svcMeta (svcObject service));
                keyName := Name (svcMeta (svcObject service)) |} in
  let read := steps ++ [Earlier (ClientGet "Service" key)] in
  let pass := createOrUpdateService w AddAnnotations VMServiceCompareToLastApplied
                vmService service steps in
  match GetService w key with
  | Err err =>
      if IsNotFound err then
        exists sent,
          follows vmService service sent /\
          Forall (fun servicePort => spNodePort servicePort = 0)
                 (svcPorts (svcObject sent)) /\
          final pass =
            read ++ [ClientCreateService sent (snd (CreateService w sent));
                     Earlier (RecorderEmitEvent OpCreate (snd (CreateService w sent)))]
      else pass = (Err err, read, [])
  | Ok current =>
      if fst (VMServiceCompareToLastApplied vmService
                (index (Annotations (svcMeta (svcObject current)))
                       LastAppliedConfigAnnotation))
      then pass = (Ok current, read, [])
      else
        exists sent,
          follows vmService current sent /\
          final pass =
            read ++
            (if Nat.eqb (String.length (ResourceVersion (svcMeta (svcObject current)))) 0
             then [ClientCreateService sent (snd (CreateService w sent));
                   Earlier (RecorderEmitEvent OpCreate (snd (CreateService w sent)))]
             else [ClientUpdateService sent (snd (UpdateService w sent))])
  end.
Proof.
  intros Hversion service key read pass. subst pass read.
  unfold createOrUpdateService. svc_unfold. fold service. fold key.
  destruct (GetService w key) as [current|err]; go_simpl.
  - destruct (VMServiceCompareToLastApplied vmService _) as [[|] cmpErr]; go_simpl;
      [reflexivity|].
    match goal with |- context [CreateService w ?x] => exists x end.
    split.
    + split; [reflexivity|]. split; [reflexivity|]. split; [reflexivity|].
      apply keepNodePorts_translates.
    + destruct (Nat.eqb (String.length (ResourceVersion (svcMeta (svcObject current)))) 0);
        go_simpl;
        [destruct (CreateService w _) as [created [err|]]
        |destruct (UpdateService w _) as [updated [err|]]];
        go_simpl; rewrite <- !app_assoc; reflexivity.
  - destruct (IsNotFound err); go_simpl; [|reflexivity].
    match goal with |- context [CreateService w ?x] => exists x end.
    split; [|split].
    + split; [reflexivity|]. split; [reflexivity|]. split; [reflexivity|].
      apply keepNodePorts_translates.
    + cbn [svcObject svcPorts].
      apply keepNodePorts_unset; apply vmServiceToService_unset.
    + assert (Nat.eqb (String.length (ResourceVersion (svcMeta (svcObject service)))) 0
              = true) as ->.
      { subst service. unfold vmServiceToService, MakeObjectMeta.
        cbn [svcObject svcMeta]. rewrite Hversion. reflexivity. }
      destruct (CreateService w _) as [created [err'|]];
        go_simpl; rewrite <- !app_assoc; reflexivity.
Qed.

Lemma translated_service_keeps_node_ports_witness :
  exists sent,
    follows Translated.front Translated.existing sent /\
    final (createOrUpdateService Translated.apiserver Translated.noAnnotations
             Translated.changed Translated.front
             (vmServiceToService Translated.noAnnotations Translated.front) [])
      = [Earlier (ClientGet "Service" {| keyNamespace := "dev"; keyName := "web" |});
         ClientUpdateService sent None].
Proof.
  exact (@translated_service_keeps_node_ports Translated.apiserver
           Translated.noAnnotations Translated.changed Translated.front []
           (fun om => eq_refl)).
Defined.

(** ** The finalizer of a VirtualMachineService *)

(** X19. A pass of [Reconcile] on a VirtualMachineService first reads it;
    a NotFound error ends the pass with nil, any other error is returned.
    An object that is being deleted is never reconciled: with the finalizer
    the pass records the delete event, writes the object with the finalizer
    removed and returns the error of that write, if any; without it the
    pass does nothing more.  An object that is not being deleted and lacks
    the finalizer is written with the finalizer appended before anything
    else is done, and when that write fails the pass returns its error;
    otherwise the pass goes on, in the same pass, to reconcile the object
    as the API server returned it.  What [reconcileVmService] returns
    becomes the result: a [RequeueAfterError] a requeue with no error. *)
Theorem service_finalizer_comes_first c w loadbalancerProvider dial AddAnnotations
    ContainsString RemoveString VMServiceCompareToLastApplied
    VirtualMachineServiceTypeLoadBalancer MarshalVirtualMachineServiceStatus
    MarshalServiceStatus request :
  let reconcile :=
    reconcileVmService c w loadbalancerProvider dial AddAnnotations
      VMServiceCompareToLastApplied VirtualMachineServiceTypeLoadBalancer
      MarshalVirtualMachineServiceStatus MarshalServiceStatus in
  let pass :=
    Reconcile c w loadbalancerProvider dial AddAnnotations ContainsString RemoveString
      VMServiceCompareToLastApplied VirtualMachineServiceTypeLoadBalancer
      MarshalVirtualMachineServiceStatus MarshalServiceStatus request [] in
  let read := [Earlier (ClientGet "VirtualMachineService" request)] in
  match GetVirtualMachineService w request with
  | Err err =>
      pass = ((ctrl.emptyResult, if IsNotFound err then None else Some (IsError err)),
              read, [])
  | Ok instance =>
      let om := vmsMeta (vmsObject instance) in
      let has := ContainsString (Finalizers om) finalizerName in
      if IsZero (DeletionTimestamp om) then
        let added :=
          set_vmsMeta instance (set_Finalizers om (Finalizers om ++ [finalizerName])) in
        let wrote :=
          read ++ [ClientUpdateVirtualMachineService added
                     (snd (UpdateVirtualMachineService w added))] in
        if has then
          returned pass = reconcileResult (returned (reconcile instance read)) /\
          final pass = final (reconcile instance read)
        else
          match snd (UpdateVirtualMachineService w added) with
          | Some err => pass = ((ctrl.emptyResult, Some (IsError err)), wrote, [])
          | None =>
              let updated := fst (UpdateVirtualMachineService w added) in
              returned pass = reconcileResult (returned (reconcile updated wrote)) /\
              final pass = final (reconcile updated wrote)
          end
      else
        let removed :=
          set_vmsMeta instance
            (set_Finalizers om (RemoveString (Finalizers om) finalizerName)) in
        let err := snd (UpdateVirtualMachineService w removed) in
        if has then
          pass = ((ctrl.emptyResult,
                   match err with Some err => Some (IsError err) | None => None end),
                  read ++ [Earlier (RecorderEmitEvent OpDelete None);
                           ClientUpdateVirtualMachineService removed err], [])
        else pass = ((ctrl.emptyResult, None), read, [])
  end.
Proof.
  intros reconcile pass read. subst pass read reconcile.
  unfold Reconcile, deleteVmService. svc_unfold.
  destruct (GetVirtualMachineService w request) as [instance|err]; go_simpl;
    [|destruct (IsNotFound err); reflexivity].
  destruct (IsZero (DeletionTimestamp (vmsMeta (vmsObject instance)))); go_simpl.
  - destruct (ContainsString (Finalizers (vmsMeta (vmsObject instance))) finalizerName);
      go_simpl.
    + destruct (reconcileVmService _ _ _ _ _ _ _ _ _ instance _) as [[err steps] l].
      rewrite app_nil_r. split; reflexivity.
    + destruct (UpdateVirtualMachineService w _) as [updated [err|]]; go_simpl;
        [reflexivity|].
      destruct (reconcileVmService _ _ _ _ _ _ _ _ _ updated _) as [[err steps] l].
      rewrite app_nil_r. split; reflexivity.
  - destruct (ContainsString (Finalizers (vmsMeta (vmsObject instance))) finalizerName);
      go_simpl; [|reflexivity].
    destruct (UpdateVirtualMachineService w _) as [updated [err|]]; reflexivity.
Qed.

(** ** The parts of a pass, in order *)

Lemma getVirtualNetworkName_steps c loadbalancerProvider vmService steps :
  let pass := getVirtualNetworkName c loadbalancerProvider vmService steps in
  exists part,
    final pass = steps ++ part /\
    Forall (fun st => lb_step st = true) part /\
    (existsb failed part = true -> exists e, returned pass = Err e).
Proof.
  cbv zeta. unfold getVirtualNetworkName. svc_unfold.
  destruct (client.ListVirtualMachines c _ _) as [items|err]; go_simpl.
  - destruct (GetNetworkName loadbalancerProvider items vmService) as [name|err];
      eexists; (split; [rewrite <- app_assoc; reflexivity|]);
      (split; [repeat constructor|]); cbn; eauto; discriminate.
  - eexists. split; [reflexivity|]. split; [repeat constructor|]. discriminate.
Qed.

Lemma createOrUpdateService_steps w AddAnnotations VMServiceCompareToLastApplied
    vmService service steps :
  let pass := createOrUpdateService w AddAnnotations VMServiceCompareToLastApplied
                vmService service steps in
  exists part,
    final pass = steps ++ part /\
    Forall (fun st => service_step st = true) part /\
    (existsb failed part = true -> exists e, returned pass = Err e).
Proof.
  cbv zeta. unfold createOrUpdateService. svc_unfold.
  destruct (GetService w _) as [current|err]; go_simpl.
  - destruct (VMServiceCompareToLastApplied vmService _) as [[|] cmpErr]; go_simpl.
    + eexists. split; [reflexivity|]. split; [repeat constructor|]. discriminate.
    + destruct (Nat.eqb _ 0); go_simpl;
        [destruct (CreateService w _) as [created [err|]]
        |destruct (UpdateService w _) as [updated [err|]]];
        go_simpl; eexists;
        (split; [rewrite <- !app_assoc; reflexivity|]);
        (split; [repeat constructor|]); cbn; eauto; discriminate.
  - destruct (IsNotFound err); go_simpl.
    + destruct (Nat.eqb _ 0); go_simpl;
        [destruct (CreateService w _) as [created [err'|]]
        |destruct (UpdateService w _) as [updated [err'|]]];
        go_simpl; eexists;
        (split; [rewrite <- !app_assoc; reflexivity|]);
        (split; [repeat constructor|]); cbn; eauto; discriminate.
    + eexists. split; [reflexivity|]. split; [repeat constructor|]. discriminate.
Qed.

Lemma updateVmServiceStatus_steps w AddAnnotations VirtualMachineServiceTypeLoadBalancer
    MarshalVirtualMachineServiceStatus MarshalServiceStatus vmService newService steps :
  let pass := updateVmServiceStatus w AddAnnotations
                VirtualMachineServiceTypeLoadBalancer
                MarshalVirtualMachineServiceStatus MarshalServiceStatus
                vmService newService steps in
  exists part,
    final pass = steps ++ part /\
    Forall (fun st => status_step st = true) part /\
    (existsb failed part = true -> exists e, returned pass = Err e).
Proof.
  cbv zeta. unfold updateVmServiceStatus. svc_unfold.
  destruct (String.eqb (vmsType vmService) VirtualMachineServiceTypeLoadBalancer
            && (0 <? Z.of_nat (List.length (svcIngress newService)))); go_simpl.
  - destruct (negb (String.eqb _ _)); go_simpl.
    + destruct (StatusUpdate w _) as [updated [err|]]; go_simpl;
        eexists; (split; [reflexivity|]); (split; [repeat constructor|]);
        cbn; eauto; discriminate.
    + exists []. rewrite app_nil_r. split; [reflexivity|]. split; [constructor|].
      discriminate.
  - exists []. rewrite app_nil_r. split; [reflexivity|]. split; [constructor|].
    discriminate.
Qed.

Lemma selectEndpoints_dials dial vmService service items :
  forall n subsets,
    Forall (fun e => endpoints_event e = true /\ is_endpoints_write e = false)
           (calls (selectEndpoints dial vmService service items n subsets tt)).
Proof.
  induction items as [|vm items IH]; intros n subsets; [constructor|].
  cbn [selectEndpoints].
  destruct (DeletionTimestamp (vmMeta vm)); [apply IH|].
  destruct (Nat.eqb _ 0); [apply IH|].
  destruct (String.eqb _ ""); [apply IH|].
  assert (Forall (fun e => endpoints_event e = true /\ is_endpoints_write e = false)
                 (calls (runProbe dial vmService vm (ReadinessProbe (Spec vm)) tt)))
    as Hprobe.
  { unfold runProbe, checkConnection. go_run; repeat constructor. }
  revert Hprobe. unfold calls.
  destruct (runProbe dial vmService vm (ReadinessProbe (Spec vm)) tt) as [[err []] l1].
  cbn [snd]. intros Hprobe.
  destruct err as [err|].
  - specialize (IH (wrap_int (n + 1)) subsets). revert IH. unfold calls.
    destruct (selectEndpoints dial vmService service items _ subsets tt) as [[r s2] l2].
    cbn [snd]. intros IH. apply Forall_app. auto.
  - match goal with
    | |- context [selectEndpoints dial vmService service items n ?sub tt] =>
        specialize (IH n sub); revert IH; unfold calls;
        destruct (selectEndpoints dial vmService service items n sub tt) as [[r s2] l2]
    end.
    cbn [snd]. intros IH. apply Forall_app. auto.
Qed.

(** Every call of a trace put together from the parts at hand is of the
    kind asked for. *)
Ltac all_events :=
  rewrite ?app_nil_r;
  repeat first [ assumption
               | apply Forall_nil
               | apply Forall_cons; [reflexivity|]
               | apply Forall_app; split ].

(** None of the calls but perhaps the last one failed. *)
Ltac none_failed Hnone :=
  rewrite ?app_nil_r;
  repeat (rewrite ?map_cons, ?map_app; cbn [existsb failed];
          rewrite ?existsb_app, ?Hnone);
  cbn [map existsb failed orb].

Lemma updateEndpoints_steps c dial AddAnnotations vmService service :
  let pass := updateEndpoints c dial AddAnnotations vmService service tt in
  Forall (fun e => endpoints_event e = true) (calls pass) /\
  (existsb failed (map Earlier (calls pass)) = true ->
   exists e, returned pass = Some (IsError e)).
Proof.
  cbv zeta. unfold updateEndpoints. go_unfold.
  destruct (client.ListVirtualMachines c _ _) as [vms|err]; go_simpl;
    [|split; [repeat constructor | discriminate]].
  pose proof (selectEndpoints_dials dial vmService service vms 0 []) as Hsel.
  revert Hsel. unfold calls.
  destruct (selectEndpoints dial vmService service vms 0 [] tt) as [[[n subsets] []] l1].
  cbn [snd]. intros Hsel.
  assert (Forall (fun e => endpoints_event e = true) l1) as Hev
    by (eapply Forall_impl; [|exact Hsel]; intros e [H _]; exact H).
  assert (existsb failed (map Earlier l1) = false) as Hnone.
  { clear Hev. induction Hsel as [|e l [_ He] _ IH]; [reflexivity|].
    cbn [map existsb]. rewrite IH, orb_false_r.
    destruct e; try reflexivity; discriminate He. }
  go_simpl. rewrite ?app_nil_r.
  destruct (client.GetEndpoints c _) as [cur|err]; go_simpl.
  - destruct (DeepEqual (Subsets cur) subsets); go_simpl.
    + split; [all_events | none_failed Hnone; discriminate].
    + destruct (Nat.eqb _ 0); go_simpl;
        [destruct (client.CreateEndpoints c _) | destruct (client.UpdateEndpoints c _)];
        go_simpl;
        (split; [all_events | none_failed Hnone; eauto; discriminate]).
  - destruct (IsNotFound err); go_simpl.
    + cbn [epMeta ResourceVersion String.length Nat.eqb]. go_simpl.
      destruct (client.CreateEndpoints c _); go_simpl;
        (split; [all_events | none_failed Hnone; eauto; discriminate]).
    + split; [all_events | none_failed Hnone; discriminate].
Qed.

Lemma reconcileTranslated_steps c w dial AddAnnotations VMServiceCompareToLastApplied
    VirtualMachineServiceTypeLoadBalancer MarshalVirtualMachineServiceStatus
    MarshalServiceStatus vmService steps :
  let pass :=
    func (reconcileTranslated c w dial AddAnnotations VMServiceCompareToLastApplied
            VirtualMachineServiceTypeLoadBalancer MarshalVirtualMachineServiceStatus
            MarshalServiceStatus vmService) steps in
  exists svcPart epPart statusPart,
    final pass = steps ++ svcPart ++ map Earlier epPart ++ statusPart /\
    Forall (fun st => service_step st = true) svcPart /\
    Forall (fun e => endpoints_event e = true) epPart /\
    Forall (fun st => status_step st = true) statusPart /\
    (existsb failed svcPart = true -> epPart = [] /\ statusPart = []) /\
    (existsb failed (map Earlier epPart) = true -> statusPart = []) /\
    (existsb failed (svcPart ++ map Earlier epPart ++ statusPart) = true ->
     exists e, returned pass = Some (IsError e)).
Proof.
  cbv zeta. unfold reconcileTranslated. rewrite func_bind_call.
  destruct (createOrUpdateService_steps w AddAnnotations VMServiceCompareToLastApplied
              vmService (vmServiceToService AddAnnotations vmService) steps)
    as (svcPart & Hfinal & Hkind & Hfail).
  revert Hfinal Hfail. unfold returned, final.
  destruct (createOrUpdateService w AddAnnotations VMServiceCompareToLastApplied
              vmService (vmServiceToService AddAnnotations vmService) steps)
    as [[r steps1] l1].
  cbn [fst snd]. intros -> Hfail.
  destruct r as [newService|err].
  2:{ rewrite func_bind_return. cbn [fst snd].
      exists svcPart, [], []. cbn [map]. rewrite !app_nil_r.
      repeat split; auto; eauto. }
  rewrite func_bind_next.
  destruct (updateEndpoints_steps c dial AddAnnotations (vmsObject vmService)
              (svcObject newService)) as (Hev & Hepfail).
  assert (existsb failed svcPart = false) as Hsvc.
  { destruct (existsb failed svcPart); [|reflexivity].
    destruct (Hfail eq_refl) as (e & He). discriminate He. }
  unfold func at 1, bind at 1, lift.
  revert Hev Hepfail. unfold returned, calls.
  destruct (updateEndpoints c dial AddAnnotations (vmsObject vmService)
              (svcObject newService) tt) as [[err []] epPart].
  cbn [fst snd]. intros Hev Hepfail.
  destruct err as [err|].
  - svc_unfold. go_simpl.
    exists svcPart, epPart, []. rewrite !app_nil_r, <- app_assoc.
    repeat split; auto; try discriminate; try congruence.
    rewrite existsb_app, Hsvc. cbn [orb]. intros H.
    destruct (Hepfail H) as (e & He). injection He as ->. eauto.
  - destruct (updateVmServiceStatus_steps w AddAnnotations
                VirtualMachineServiceTypeLoadBalancer
                MarshalVirtualMachineServiceStatus MarshalServiceStatus
                vmService newService ((steps ++ svcPart) ++ map Earlier epPart))
      as (statusPart & Hfinal & Hstatus & Hstfail).
    assert (existsb failed (map Earlier epPart) = false) as Hep.
    { destruct (existsb failed (map Earlier epPart)); [|reflexivity].
      destruct (Hepfail eq_refl) as (e & He). discriminate He. }
    revert Hfinal Hstfail. svc_unfold. go_simpl.
    destruct (updateVmServiceStatus w AddAnnotations
                VirtualMachineServiceTypeLoadBalancer
                MarshalVirtualMachineServiceStatus MarshalServiceStatus
                vmService newService ((steps ++ svcPart) ++ map Earlier epPart))
      as [[r steps3] l3].
    intros -> Hstfail.
    exists svcPart, epPart, statusPart.
    split; [destruct r; go_simpl; rewrite <- !app_assoc; reflexivity|].
    repeat split; auto; try congruence.
    rewrite !existsb_app, Hsvc, Hep. cbn [orb]. intros H.
    destruct (Hstfail H) as (e & ->). go_simpl. eauto.
Qed.

Lemma func_bind_assoc St R A B (m : M St R A) (f : A -> M St R B)
    (k : B -> M St R R) s :
  func (bind (bind m f) k) s = func (bind m (fun x => bind (f x) k)) s.
Proof.
  unfold func, bind.
  destruct (m s) as [[[o s1] l1] d1].
  destruct o as [a|r]; [|reflexivity].
  destruct (f a s1) as [[[o2 s2] l2] d2].
  destruct o2 as [b|r]; [|reflexivity].
  destruct (k b s2) as [[[o3 s3] l3] d3].
  rewrite !app_assoc. reflexivity.
Qed.

(** X20. The parts of [reconcileVmService] come in a fixed order, and a
    failure ends the pass.  The calls of a pass are, in this order: those
    for the load balancer (listing the selected machines, asking the
    provider for the network name and ensuring the load balancer), made only
    for a VirtualMachineService of the load balancer type; those for the
    Service (its read, its create or update and the event of a create);
    those of [updateEndpoints]; and the update of the status.  When a call
    on the load balancer provider fails, the Service and the Endpoints are
    not touched; when the write of the Service fails, the Endpoints are not
    touched; when the write of the Endpoints fails, the status is not
    updated.  In each of these cases the pass returns an error. *)
Theorem service_pass_in_order c w loadbalancerProvider dial AddAnnotations
    VMServiceCompareToLastApplied VirtualMachineServiceTypeLoadBalancer
    MarshalVirtualMachineServiceStatus MarshalServiceStatus vmService steps :
  let pass :=
    reconcileVmService c w loadbalancerProvider dial AddAnnotations
      VMServiceCompareToLastApplied VirtualMachineServiceTypeLoadBalancer
      MarshalVirtualMachineServiceStatus MarshalServiceStatus vmService steps in
  exists lbPart svcPart epPart statusPart,
    final pass = steps ++ lbPart ++ svcPart ++ map Earlier epPart ++ statusPart /\
    Forall (fun st => lb_step st = true) lbPart /\
    Forall (fun st => service_step st = true) svcPart /\
    Forall (fun e => endpoints_event e = true) epPart /\
    Forall (fun st => status_step st = true) statusPart /\
    (vmsType vmService <> VirtualMachineServiceTypeLoadBalancer -> lbPart = []) /\
    (existsb failed lbPart = true -> svcPart = [] /\ epPart = [] /\ statusPart = []) /\
    (existsb failed svcPart = true -> epPart = [] /\ statusPart = []) /\
    (existsb failed (map Earlier epPart) = true -> statusPart = []) /\
    (existsb failed (lbPart ++ svcPart ++ map Earlier epPart ++ statusPart) = true ->
     exists e, returned pass = Some (IsError e)).
Proof.
  intros pass. subst pass.
  assert (forall v lbPart,
            Forall (fun st => lb_step st = true) lbPart ->
            existsb failed lbPart = false ->
            (vmsType vmService <> VirtualMachineServiceTypeLoadBalancer -> lbPart = []) ->
            let pass :=
              func (reconcileTranslated c w dial AddAnnotations
                      VMServiceCompareToLastApplied
                      VirtualMachineServiceTypeLoadBalancer
                      MarshalVirtualMachineServiceStatus MarshalServiceStatus v)
                   (steps ++ lbPart) in
            exists lbPart svcPart epPart statusPart,
              final pass = steps ++ lbPart ++ svcPart ++ map Earlier epPart ++ statusPart /\
              Forall (fun st => lb_step st = true) lbPart /\
              Forall (fun st => service_step st = true) svcPart /\
              Forall (fun e => endpoints_event e = true) epPart /\
              Forall (fun st => status_step st = true) statusPart /\
              (vmsType vmService <> VirtualMachineServiceTypeLoadBalancer -> lbPart = []) /\
              (existsb failed lbPart = true ->
               svcPart = [] /\ epPart = [] /\ statusPart = []) /\
              (existsb failed svcPart = true -> epPart = [] /\ statusPart = []) /\
              (existsb failed (map Earlier epPart) = true -> statusPart = []) /\
              (existsb failed (lbPart ++ svcPart ++ map Earlier epPart ++ statusPart) = true ->
               exists e, returned pass = Some (IsError e))) as Htail.
  { intros v lbPart Hlb Hnone Htype pass.
    destruct (reconcileTranslated_steps c w dial AddAnnotations
                VMServiceCompareToLastApplied VirtualMachineServiceTypeLoadBalancer
                MarshalVirtualMachineServiceStatus MarshalServiceStatus v
                (steps ++ lbPart))
      as (svcPart & epPart & statusPart & Hfinal & H1 & H2 & H3 & H4 & H5 & H6).
    fold pass in Hfinal, H6.
    exists lbPart, svcPart, epPart, statusPart.
    split; [rewrite Hfinal, <- app_assoc; reflexivity|].
    repeat split; auto; try (intros; congruence); try (apply H4; assumption).
    rewrite existsb_app, Hnone. exact H6. }
  unfold reconcileVmService.
  destruct (String.eqb_spec (vmsType vmService) VirtualMachineServiceTypeLoadBalancer)
    as [Etype|Ntype].
  - rewrite func_bind_assoc, func_bind_call.
    destruct (getVirtualNetworkName_steps c loadbalancerProvider vmService steps)
      as (part & Hfinal & Hkind & Hfail).
    revert Hfinal Hfail. unfold returned, final.
    destruct (getVirtualNetworkName c loadbalancerProvider vmService steps)
      as [[r steps1] l1].
    cbn [fst snd]. intros -> Hfail.
    destruct r as [name|err].
    + rewrite func_bind_assoc, func_bind_next.
      assert (existsb failed part = false) as Hpart.
      { destruct (existsb failed part); [|reflexivity].
        destruct (Hfail eq_refl) as (e & He). discriminate He. }
      destruct (EnsureLoadBalancer loadbalancerProvider vmService name)
        as [ensured err] eqn:Ensure.
      rewrite func_bind_assoc. unfold perform. rewrite func_bind_modify.
      destruct err as [err|].
      * rewrite func_bind_return. cbn [fst snd].
        exists (part ++ [ProviderEnsureLoadBalancer name (Some err)]), [], [], [].
        cbn [map]. rewrite !app_nil_r, <- app_assoc.
        repeat split; auto; try discriminate; eauto; try (intros; congruence).
        apply Forall_app. split; [exact Hkind | repeat constructor].
      * rewrite func_bind_next.
        match goal with
        | |- context [func ?b ?st] =>
            change (func b st)
              with (func (reconcileTranslated c w dial AddAnnotations
                            VMServiceCompareToLastApplied
                            VirtualMachineServiceTypeLoadBalancer
                            MarshalVirtualMachineServiceStatus MarshalServiceStatus
                            ensured) st)
        end.
        rewrite <- app_assoc.
        assert (Forall (fun st => lb_step st = true)
                       (part ++ [ProviderEnsureLoadBalancer name None])) as Hlb
          by (apply Forall_app; split; [exact Hkind | repeat constructor]).
        assert (existsb failed (part ++ [ProviderEnsureLoadBalancer name None]) = false)
          as Hnone by (rewrite existsb_app, Hpart; reflexivity).
        specialize (Htail ensured _ Hlb Hnone ltac:(intros; congruence)).
        cbv zeta in Htail. unfold returned, final in Htail |- *.
        destruct (func (reconcileTranslated c w dial AddAnnotations
                          VMServiceCompareToLastApplied
                          VirtualMachineServiceTypeLoadBalancer
                          MarshalVirtualMachineServiceStatus MarshalServiceStatus
                          ensured) _) as [[r st'] l'].
        cbn [fst snd] in Htail |- *. exact Htail.
    + rewrite func_bind_assoc, func_bind_return. cbn [fst snd].
      exists part, [], [], []. cbn [map]. rewrite !app_nil_r.
      repeat split; auto; try discriminate; eauto; try (intros; congruence).
  - rewrite func_bind_next.
    specialize (Htail vmService [] ltac:(constructor) eq_refl (fun _ => eq_refl)).
    rewrite app_nil_r in Htail. exact Htail.
Qed.

(** ** From a VirtualMachine to the services that select it *)

Lemma matchingVmServices_spec c lookupVm items :
  forall matching steps,
    match returned (matchingVmServices c lookupVm items matching steps) with
    | Ok found =>
        forallb (listable c) items = true /\
        found = matching ++ filter (fun vmService => selects c vmService lookupVm) items
    | Err _ => forallb (listable c) items = false
    end.
Proof.
  induction items as [|vmService items IH]; intros matching steps.
  - cbn. rewrite app_nil_r. auto.
  - cbn [matchingVmServices forallb filter]. unfold listable at 1 3, selects at 1 2.
    svc_unfold.
    destruct (client.ListVirtualMachines c _ _) as [vms|err]; go_simpl;
      [|reflexivity].
    match goal with
    | |- context [matchingVmServices c lookupVm items ?m ?st] =>
        specialize (IH m st); revert IH; unfold returned;
        destruct (matchingVmServices c lookupVm items m st) as [[r st'] l]
    end.
    cbn [fst snd]. destruct r as [found|err]; go_simpl; [|exact (fun H => H)].
    intros [Hall ->]. split; [exact Hall|].
    destruct (existsb _ vms); [rewrite <- app_assoc|]; reflexivity.
Qed.

(** X21. An event on a VirtualMachine is mapped to requests for the
    VirtualMachineServices of its namespace that select it, in the order in
    which they are listed: those whose selected machines hold one with the
    namespace and the name of the VirtualMachine.  The mapping is all or
    nothing: when the services cannot be listed, or the machines of any one
    of them cannot, no request is made at all. *)
Theorem machine_wakes_the_services_that_select_it c w vm steps :
  let found := getVirtualMachineServicesSelectingVirtualMachine c w vm steps in
  let requests := returned (virtualMachineToVirtualMachineServiceMapper c w vm steps) in
  match ListVirtualMachineServices w (Namespace (vmMeta vm)) with
  | Err err => returned found = Err err /\ requests = []
  | Ok items =>
      if forallb (listable c) items then
        returned found = Ok (filter (fun vmService => selects c vmService vm) items) /\
        requests =
          map (fun vmService =>
                 {| keyNamespace := Namespace (vmsMeta (vmsObject vmService));
                    keyName := Name (vmsMeta (vmsObject vmService)) |})
              (filter (fun vmService => selects c vmService vm) items)
      else (exists err, returned found = Err err) /\ requests = []
  end.
Proof.
  intros found requests. subst found requests.
  unfold virtualMachineToVirtualMachineServiceMapper,
    getVirtualMachineServicesSelectingVirtualMachine.
  svc_unfold.
  destruct (ListVirtualMachineServices w (Namespace (vmMeta vm))) as [items|err];
    go_simpl; [|split; reflexivity].
  match goal with
  | |- context [matchingVmServices c vm items [] ?st] =>
      pose proof (matchingVmServices_spec c vm items [] st) as Hspec;
      revert Hspec; unfold returned;
      destruct (matchingVmServices c vm items [] st) as [[r st'] l]
  end.
  cbn [fst snd app]. destruct r as [found|err]; go_simpl.
  - intros [-> ->]. split; reflexivity.
  - intros ->. split; [eauto | reflexivity].
Qed.

End ServiceController.

(** * The validation webhook *)
Section ValidationWebhook.
Import validation.

Lemma existsb_eqb_In (name : string) (names : list string) :
  existsb (String.eqb name) names = true <-> In name names.
Proof.
  rewrite existsb_exists. split.
  - intros [x [Hin Heq]]. apply String.eqb_eq in Heq. subst. exact Hin.
  - intros Hin. exists name. split; [exact Hin | apply String.eqb_refl].
Qed.

Lemma existsb_eqb_not_In (name : string) (names : list string) :
  existsb (String.eqb name) names = false <-> ~ In name names.
Proof.
  rewrite <- existsb_eqb_In. destruct (existsb _ names); split; congruence.
Qed.

(** ** The network interfaces *)

Lemma validateNetworkInterfaces_app messages vsphere nifs :
  forall i networkNames validationErrs,
    validateNetworkInterfaces messages vsphere i nifs networkNames validationErrs
    = validationErrs
        ++ validateNetworkInterfaces messages vsphere i nifs networkNames [].
Proof.
  induction nifs as [|nif nifs IH]; intros i networkNames validationErrs;
    cbn [validateNetworkInterfaces].
  - rewrite app_nil_r. reflexivity.
  - match goal with
    | |- validateNetworkInterfaces _ _ _ _ _ ?e1
         = _ ++ validateNetworkInterfaces _ _ _ _ _ ?e0 =>
        rewrite (IH _ _ e1), (IH _ _ e0)
    end.
    rewrite app_assoc. f_equal.
    destruct (String.eqb (NetworkType nif) (NsxtNetworkType vsphere)
              || String.eqb (NetworkType nif) "");
      [|destruct (String.eqb (NetworkType nif) (VdsNetworkType vsphere));
        [destruct (String.eqb (NetworkName nif) "")|]];
      destruct (existsb (String.eqb (NetworkName nif)) networkNames);
      cbn [app]; rewrite ?app_nil_r, <- ?app_assoc; reflexivity.
Qed.

Lemma supported_dec vsphere nif :
  (if String.eqb (NetworkType nif) (NsxtNetworkType vsphere)
      || String.eqb (NetworkType nif) ""
   then true
   else if String.eqb (NetworkType nif) (VdsNetworkType vsphere)
        then negb (String.eqb (NetworkName nif) "")
        else false) = true
  <-> supported vsphere nif.
Proof.
  unfold supported.
  destruct (String.eqb_spec (NetworkType nif) (NsxtNetworkType vsphere)) as [E1|N1];
    cbn [orb]; [tauto|].
  destruct (String.eqb_spec (NetworkType nif) "") as [E2|N2]; [tauto|].
  destruct (String.eqb_spec (NetworkType nif) (VdsNetworkType vsphere)) as [E3|N3].
  - destruct (String.eqb_spec (NetworkName nif) "") as [E4|N4]; cbn [negb].
    + split; [discriminate|]. intros [H|[H|[_ H]]]; congruence.
    + tauto.
  - split; [discriminate|]. intros [H|[H|[H _]]]; congruence.
Qed.

Lemma validateNetworkInterfaces_nil messages vsphere nifs :
  forall i networkNames,
    validateNetworkInterfaces messages vsphere i nifs networkNames [] = []
    <-> Forall (supported vsphere) nifs /\
        NoDup (map NetworkName nifs) /\
        (forall name, In name (map NetworkName nifs) -> ~ In name networkNames).
Proof.
  induction nifs as [|nif nifs IH]; intros i networkNames;
    cbn [validateNetworkInterfaces map].
  - split; [intros _|reflexivity].
    split; [constructor|]. split; [constructor|]. intros name [].
  - rewrite validateNetworkInterfaces_app.
    pose proof (supported_dec vsphere nif) as Hsup.
    pose proof (existsb_eqb_In (NetworkName nif) networkNames) as Hdup.
    destruct (String.eqb (NetworkType nif) (NsxtNetworkType vsphere)
              || String.eqb (NetworkType nif) "");
      [|destruct (String.eqb (NetworkType nif) (VdsNetworkType vsphere));
        [destruct (String.eqb (NetworkName nif) "")|]];
      cbn [negb] in Hsup;
      destruct (existsb (String.eqb (NetworkName nif)) networkNames);
      cbn [app];
      try (split;
           [discriminate
           |intros (Hall & Hnodup & Hfresh); exfalso;
            first [ assert (false = true) as Habs
                      by (apply Hsup; inversion Hall; assumption);
                    discriminate Habs
                  | apply (Hfresh (NetworkName nif));
                    [left; reflexivity | apply Hdup; reflexivity] ]]).
    all: rewrite IH; split.
    all: try (intros (Hall & Hnodup & Hfresh);
              split; [constructor; [apply Hsup; reflexivity | exact Hall]|];
              split; [constructor; [|exact Hnodup];
                      intros Hin; apply (Hfresh _ Hin); left; reflexivity|];
              intros name [Hname|Hin];
              [subst name; intros Hin; apply Hdup in Hin; discriminate Hin
              |intros Hseen; apply (Hfresh _ Hin); right; exact Hseen]).
    all: intros (Hall & Hnodup & Hfresh);
      inversion Hall; subst; inversion Hnodup; subst;
      split; [assumption|]; split; [assumption|];
      intros name Hin [Hname|Hseen];
      [subst name; contradiction
      |apply (Hfresh name); [right; exact Hin | exact Hseen]].
Qed.

(** X22. [validateNetwork] has no message for a VirtualMachine exactly
    when each of its network interfaces is of type NSX-T, of no type, or of
    type VDS with the name of a network, and no two interfaces name the same
    network.  The empty name counts as a name: two interfaces that both
    leave the network out are refused. *)
Theorem network_interfaces_admitted messages vsphere vm :
  validateNetwork messages vsphere vm = []
  <-> Forall (supported vsphere) (NetworkInterfaces vm) /\
      NoDup (map NetworkName (NetworkInterfaces vm)).
Proof.
  unfold validateNetwork. rewrite validateNetworkInterfaces_nil.
  split; [intros (Hall & Hnodup & _); split; assumption|].
  intros [Hall Hnodup]. split; [exact Hall|]. split; [exact Hnodup|].
  intros name _ [].
Qed.

(** ** The volumes *)

Lemma validateSpecVolumes_app messages volumes :
  forall i volumeNames validationErrs,
    validateSpecVolumes messages i volumes volumeNames validationErrs
    = validationErrs ++ validateSpecVolumes messages i volumes volumeNames [].
Proof.
  induction volumes as [|[volume vsphereVolume] volumes IH];
    intros i volumeNames validationErrs; cbn [validateSpecVolumes].
  - rewrite app_nil_r. reflexivity.
  - match goal with
    | |- validateSpecVolumes _ _ _ _ ?e1
         = _ ++ validateSpecVolumes _ _ _ _ ?e0 =>
        rewrite (IH _ _ e1), (IH _ _ e0)
    end.
    rewrite app_assoc. f_equal.
    destruct (negb (String.eqb (volName volume) ""));
      destruct (existsb (String.eqb (volName volume)) volumeNames);
      destruct (PersistentVolumeClaim volume) as [pvc|];
      destruct vsphereVolume as [vsphereVolume|];
      try destruct (String.eqb (ClaimName pvc) "");
      cbn [app]; rewrite ?app_nil_r, <- ?app_assoc; reflexivity.
Qed.

Lemma whole_mebibytes n : (Z.rem n 1048576 =? 0) = true <-> (1048576 | n).
Proof.
  rewrite Z.eqb_eq. split.
  - intros H. exists (Z.quot n 1048576).
    pose proof (Z.quot_rem' n 1048576) as Hq. rewrite H in Hq. lia.
  - intros [q Hq]. subst n. apply Z.rem_mul. discriminate.
Qed.

Lemma validateSpecVolumes_nil messages volumes :
  forall i volumeNames,
    validateSpecVolumes messages i volumes volumeNames [] = []
    <-> Forall well_formed volumes /\
        NoDup (map (fun entry => volName (fst entry)) volumes) /\
        (forall name, In name (map (fun entry => volName (fst entry)) volumes) ->
                      ~ In name volumeNames).
Proof.
  induction volumes as [|[volume vsphereVolume] volumes IH]; intros i volumeNames;
    cbn [validateSpecVolumes map fst].
  - split; [intros _|reflexivity].
    split; [constructor|]. split; [constructor|]. intros name [].
  - rewrite validateSpecVolumes_app.
    pose proof (existsb_eqb_In (volName volume) volumeNames) as Hdup.
    assert (Forall well_formed ((volume, vsphereVolume) :: volumes)
            <-> well_formed (volume, vsphereVolume) /\ Forall well_formed volumes)
      as ->
      by (split; [intros H; inversion H; split; assumption
                 |intros [? ?]; constructor; assumption]).
    unfold well_formed at 1. cbn [fst snd].
    assert (NoDup (volName volume :: map (fun entry => volName (fst entry)) volumes)
            <-> ~ In (volName volume) (map (fun entry => volName (fst entry)) volumes)
                /\ NoDup (map (fun entry => volName (fst entry)) volumes)) as ->
      by (split; [intros H; inversion H; split; assumption
                 |intros [? ?]; constructor; assumption]).
    unfold validateVsphereVolume.
    destruct (String.eqb_spec (volName volume) "") as [Ename|Nname]; cbn [negb andb].
    { split; [|intros (((Hname & _) & _) & _); contradiction].
      destruct (PersistentVolumeClaim volume) as [pvc|];
        destruct vsphereVolume as [vsphereVolume|];
        try destruct (String.eqb (ClaimName pvc) "");
        cbn [app]; discriminate. }
    destruct (existsb (String.eqb (volName volume)) volumeNames) eqn:Eseen;
      cbn [negb andb].
    { split;
        [|intros (_ & _ & Hfresh); exfalso;
          apply (Hfresh (volName volume)); [left; reflexivity | apply Hdup; reflexivity]].
      destruct (PersistentVolumeClaim volume) as [pvc|];
        destruct vsphereVolume as [vsphereVolume|];
        try destruct (String.eqb (ClaimName pvc) "");
        cbn [app]; discriminate. }
    assert (~ In (volName volume) volumeNames) as Hnew
      by (intros Hin; apply Hdup in Hin; discriminate Hin).
    assert (forall source : Prop,
              (source /\
               validateSpecVolumes messages (i + 1) volumes
                 (volName volume :: volumeNames) [] = []) <->
              ((volName volume <> "" /\ source) /\ Forall well_formed volumes) /\
              (~ In (volName volume)
                    (map (fun entry => volName (fst entry)) volumes) /\
               NoDup (map (fun entry => volName (fst entry)) volumes)) /\
              (forall name,
                 volName volume = name \/
                 In name (map (fun entry => volName (fst entry)) volumes) ->
                 ~ In name volumeNames)) as Hstep.
    { intros source. rewrite IH. split.
      - intros (Hsource & Hall & Hnodup & Hfresh).
        split; [tauto|]. split.
        + split; [|exact Hnodup]. intros Hin. apply (Hfresh _ Hin). left. reflexivity.
        + intros name [Hname|Hin]; [subst name; exact Hnew|].
          intros Hseen. apply (Hfresh _ Hin). right. exact Hseen.
      - intros (((_ & Hsource) & Hall) & (Hnotin & Hnodup) & Hfresh).
        split; [exact Hsource|]. split; [exact Hall|]. split; [exact Hnodup|].
        intros name Hin [Hname|Hseen].
        + subst name. contradiction.
        + apply (Hfresh name); [right; exact Hin | exact Hseen]. }
    destruct (PersistentVolumeClaim volume) as [pvc|];
      destruct vsphereVolume as [vsphereVolume|]; cbn [app].
    + split; [|tauto].
      destruct (negb (Z.rem (StorageEphemeral vsphereVolume) 1048576 =? 0));
        cbn [app]; discriminate.
    + destruct (String.eqb_spec (ClaimName pvc) "") as [Eclaim|Nclaim]; cbn [app].
      * split; [discriminate | tauto].
      * etransitivity; [|apply (Hstep (ClaimName pvc <> ""))]. tauto.
    + pose proof (whole_mebibytes (StorageEphemeral vsphereVolume)) as Hmb.
      destruct (Z.rem (StorageEphemeral vsphereVolume) 1048576 =? 0);
        cbn [negb app].
      * etransitivity;
          [|apply (Hstep (1048576 | StorageEphemeral vsphereVolume))].
        intuition.
      * split; [discriminate|].
        intros (((_ & Hdiv) & _) & _). apply Hmb in Hdiv. discriminate Hdiv.
    + split; [discriminate | tauto].
Qed.

(** X23. [validateVolumes] has no message for a VirtualMachine exactly
    when every volume has a name, the names are pairwise distinct, and
    every volume has one source and not two: a claim with a name, or a
    vSphere volume whose capacity is a whole number of mebibytes. *)
Theorem volumes_admitted messages vm :
  validateVolumes messages vm = []
  <-> Forall well_formed (SpecVolumes vm) /\
      NoDup (map (fun entry => volName (fst entry)) (SpecVolumes vm)).
Proof.
  unfold validateVolumes. rewrite validateSpecVolumes_nil.
  split; [intros (Hall & Hnodup & _); split; assumption|].
  intros [Hall Hnodup]. split; [exact Hall|]. split; [exact Hnodup|].
  intros name _ [].
Qed.

(** ** An update *)

Lemma changed_fields_nil vm oldVM :
  changed_fields vm oldVM = []
  <-> ImageName (Spec (object vm)) = ImageName (Spec (object oldVM)) /\
      ClassName (Spec (object vm)) = ClassName (Spec (object oldVM)) /\
      StorageClass (Spec (object vm)) = StorageClass (Spec (object oldVM)).
Proof.
  unfold changed_fields.
  destruct (String.eqb_spec (ImageName (Spec (object vm)))
                            (ImageName (Spec (object oldVM))));
    destruct (String.eqb_spec (ClassName (Spec (object vm)))
                              (ClassName (Spec (object oldVM))));
    destruct (String.eqb_spec (StorageClass (Spec (object vm)))
                              (StorageClass (Spec (object oldVM))));
    cbn [app]; split; try discriminate; try tauto; auto.
Qed.

(** X24. [ValidateUpdate] answers with a bad request when the new or the
    old object cannot be decoded, the new one first.  Otherwise it builds
    its answer from no message when the image name, the class name and the
    storage class are what they were, whatever else of the VirtualMachine
    has changed; and from one message, made of the names of those of the
    three fields that have changed, in that order, when one has. *)
Theorem update_keeps_three_fields messages Response
    (Errored : Z -> error -> Response)
    (BuildValidationResponse : list string -> Response)
    Unstructured (FromUnstructured : Unstructured -> result Decoded) obj oldObj :
  let response := ValidateUpdate messages Errored BuildValidationResponse
                    FromUnstructured obj oldObj in
  match FromUnstructured obj, FromUnstructured oldObj with
  | Err err, _ => response = Errored 400 err
  | Ok _, Err err => response = Errored 400 err
  | Ok vm, Ok oldVM =>
      (changed_fields vm oldVM = []
       <-> ImageName (Spec (object vm)) = ImageName (Spec (object oldVM)) /\
           ClassName (Spec (object vm)) = ClassName (Spec (object oldVM)) /\
           StorageClass (Spec (object vm)) = StorageClass (Spec (object oldVM))) /\
      response =
        BuildValidationResponse
          (match changed_fields vm oldVM with
           | [] => []
           | fieldNames => [UpdatingImmutableFieldsNotAllowed messages fieldNames]
           end)
  end.
Proof.
  intros response. subst response. unfold ValidateUpdate, vmFromUnstructured.
  destruct (FromUnstructured obj) as [vm|err]; [|reflexivity].
  destruct (FromUnstructured oldObj) as [oldVM|err]; [|reflexivity].
  split; [apply changed_fields_nil|].
  unfold validateAllowedChanges, changed_fields. cbn [app]. f_equal.
  destruct (String.eqb (ImageName (Spec (object vm))) (ImageName (Spec (object oldVM))));
    destruct (String.eqb (ClassName (Spec (object vm)))
                         (ClassName (Spec (object oldVM))));
    destruct (String.eqb (StorageClass (Spec (object vm)))
                         (StorageClass (Spec (object oldVM))));
    reflexivity.
Qed.

(** ** A create *)

Lemma validateMetadata_nil messages vsphere vm :
  validateMetadata messages vsphere vm = [] <-> metadata_admitted vsphere vm.
Proof.
  unfold validateMetadata, metadata_admitted.
  destruct (VmMetadata (Spec (object vm))) as [metadata|]; [|tauto].
  destruct (String.eqb_spec (Transport metadata)
                            (VirtualMachineMetadataExtraConfigTransport vsphere));
    destruct (String.eqb_spec (Transport metadata)
                              (VirtualMachineMetadataOvfEnvTransport vsphere));
    destruct (String.eqb_spec (ConfigMapName metadata) "");
    cbn [negb andb app]; split; try discriminate; try tauto; auto.
Qed.

Lemma validateImage_nil c messages vsphere vm :
  validateImage c messages vsphere vm = [] <-> image_admitted c vsphere vm.
Proof.
  unfold validateImage, image_admitted.
  destruct (String.eqb_spec (ImageName (Spec (object vm))) "") as [Eimage|Nimage];
    [split; [discriminate | tauto]|].
  destruct (String.eqb_spec
              (index (Annotations (vmMeta (object vm)))
                     (VMOperatorVMGOSCustomizeCheckKey vsphere))
              (VMOperatorVMGOSCustomizeDisable vsphere)) as [Eoff|Non]; cbn [negb];
    [tauto|].
  destruct (client.GetVirtualMachineImage c _) as [image|err]; cbn [app].
  - destruct (GuestOSCustomizable vsphere image) as [[|]|] eqn:Eflag; cbn [app].
    + split; [|reflexivity]. intros _. split; [exact Nimage|]. right.
      exists image. split; [reflexivity|]. rewrite Eflag. discriminate.
    + split; [discriminate|]. intros [_ [Hoff|[image' [Hget Hflag]]]];
        [contradiction|]. inversion Hget; subst image'. contradiction.
    + split; [|reflexivity]. intros _. split; [exact Nimage|]. right.
      exists image. split; [reflexivity|]. rewrite Eflag. discriminate.
  - split; [discriminate|]. intros [_ [Hoff|[image [Hget _]]]];
      [contradiction | discriminate Hget].
Qed.

Lemma validateVmVolumeProvisioningOptions_nil messages vm :
  validateVmVolumeProvisioningOptions messages vm = [] <-> ~ thin_and_eager vm.
Proof.
  unfold validateVmVolumeProvisioningOptions, thin_and_eager.
  destruct (AdvancedOptions vm) as [advanced|] eqn:Eadvanced;
    [|split; [intros _ (a & o & H & _); discriminate H | reflexivity]].
  destruct (DefaultVolumeProvisioningOptions advanced) as [provOpts|] eqn:Eopts;
    [|split; [intros _ (a & o & Ha & Ho & _); inversion Ha; subst; congruence
             | reflexivity]].
  destruct (ThinProvisioned provOpts) as [[|]|] eqn:Ethin;
    destruct (EagerZeroed provOpts) as [[|]|] eqn:Eeager;
    (split;
     [ try discriminate;
       intros _ (a & o & Ha & Ho & Ht & He); inversion Ha; subst;
       rewrite Eopts in Ho; inversion Ho; subst; congruence
     | try reflexivity;
       intros Hnot; exfalso; apply Hnot; exists advanced, provOpts; auto ]).
Qed.

(** X25. [ValidateCreate] answers with a bad request when the object
    cannot be decoded.  Otherwise it builds its answer from the messages of
    its six checks, and there is none exactly when: the bootstrap data, if
    any, names a transport that is known and a ConfigMap; the image is
    named and, unless the annotation of the VirtualMachine turns the check
    off, is in the API server and not marked as one whose guest cannot be
    customized; the class is named; the network interfaces and the volumes
    pass their checks; and the default provisioning of volumes does not ask
    for thin and eager-zeroed at once.  A Secret named for the bootstrap
    data is not looked at. *)
Theorem create_is_admitted_when_well_formed c messages vsphere Response
    (Errored : Z -> error -> Response)
    (BuildValidationResponse : list string -> Response)
    Unstructured (FromUnstructured : Unstructured -> result Decoded) obj :
  let response := ValidateCreate c messages vsphere Errored BuildValidationResponse
                    FromUnstructured obj in
  match FromUnstructured obj with
  | Err err => response = Errored 400 err
  | Ok vm =>
      exists validationErrs,
        response = BuildValidationResponse validationErrs /\
        (validationErrs = []
         <-> metadata_admitted vsphere vm /\
             image_admitted c vsphere vm /\
             ClassName (Spec (object vm)) <> "" /\
             (Forall (supported vsphere) (NetworkInterfaces vm) /\
              NoDup (map NetworkName (NetworkInterfaces vm))) /\
             (Forall well_formed (SpecVolumes vm) /\
              NoDup (map (fun entry => volName (fst entry)) (SpecVolumes vm))) /\
             ~ thin_and_eager vm)
  end.
Proof.
  intros response. subst response. unfold ValidateCreate, vmFromUnstructured.
  destruct (FromUnstructured obj) as [vm|err]; [|reflexivity].
  eexists. split; [reflexivity|]. cbn [app].
  rewrite <- (validateMetadata_nil messages), <- (validateImage_nil c messages).
  rewrite <- (validateVmVolumeProvisioningOptions_nil messages).
  assert (validateNetwork messages vsphere vm = []
          <-> Forall (supported vsphere) (NetworkInterfaces vm) /\
              NoDup (map NetworkName (NetworkInterfaces vm))) as <-.
  { unfold validateNetwork. rewrite validateNetworkInterfaces_nil.
    split; [intros (Hall & Hnodup & _); split; assumption|].
    intros [Hall Hnodup]. split; [exact Hall|]. split; [exact Hnodup|].
    intros name _ []. }
  assert (validateVolumes messages vm = []
          <-> Forall well_formed (SpecVolumes vm) /\
              NoDup (map (fun entry => volName (fst entry)) (SpecVolumes vm))) as <-.
  { unfold validateVolumes. rewrite validateSpecVolumes_nil.
    split; [intros (Hall & Hnodup & _); split; assumption|].
    intros [Hall Hnodup]. split; [exact Hall|]. split; [exact Hnodup|].
    intros name _ []. }
  assert (validateClass messages vm = [] <-> ClassName (Spec (object vm)) <> "") as <-.
  { unfold validateClass.
    destruct (String.eqb_spec (ClassName (Spec (object vm))) "");
      split; try discriminate; try tauto; auto. }
  split.
  - intros H.
    repeat (apply app_eq_nil in H; destruct H as [H ?]). repeat split; assumption.
  - intros (H1 & H2 & H3 & H4 & H5 & H6).
    rewrite H1, H2, H3, H4, H5, H6. reflexivity.
Qed.

End ValidationWebhook.

(** ** The webhook and the controller *)

Lemma forget_keeps_metadata (vm vm' : VirtualMachine) :
  forget vm = forget vm' -> VmMetadata (Spec vm) = VmMetadata (Spec vm').
Proof.
  intros H. apply (f_equal (fun v => VmMetadata (Spec v))) in H. exact H.
Qed.

Lemma getVMMetadata_twofold P c (s : Reconciler P) metadata :
  VmMetadata (Spec (VM s)) = Some metadata ->
  ConfigMapName metadata <> "" ->
  SecretName metadata <> "" ->
  getVMMetadata c s =
    (Err (Errorf
       "failed to get VM metadata. Both configMapName and secretName are specified"),
     s, []).
Proof.
  intros Hmd Hcm Hsecret. unfold getVMMetadata. go_unfold. rewrite Hmd.
  destruct (String.eqb_spec (ConfigMapName metadata) ""); [contradiction|].
  destruct (String.eqb_spec (SecretName metadata) ""); [contradiction|].
  go_simpl. reflexivity.
Qed.

(** X26. The webhook and the controller disagree on bootstrap data in a
    Secret.  [validateMetadata] asks for the name of a ConfigMap and does
    not look at the name of a Secret; [getVMMetadata] refuses a
    VirtualMachine that names both.  So a VirtualMachine whose bootstrap
    data passed the webhook and names a Secret is never handed to the
    provider: every pass of [createOrUpdateVM] on it fails, at the
    bootstrap data or earlier, having made no call but reads of the API
    server. *)
Theorem admitted_secret_is_never_deployed P c prov imports max messages vsphere
    (s : Reconciler P) (vm : validation.Decoded) metadata :
  validation.object vm = VM s ->
  validation.validateMetadata messages vsphere vm = [] ->
  VmMetadata (Spec (VM s)) = Some metadata ->
  SecretName metadata <> "" ->
  let pass := createOrUpdateVM c prov imports max s in
  returned (getVMMetadata c s) =
    Err (Errorf
      "failed to get VM metadata. Both configMapName and secretName are specified") /\
  returned pass <> None /\
  Forall (fun e => client_read e = true) (calls pass).
Proof.
  intros Hobject Hadmitted Hmd Hsecret pass. subst pass.
  apply validateMetadata_nil in Hadmitted. unfold metadata_admitted in Hadmitted.
  rewrite Hobject, Hmd in Hadmitted. destruct Hadmitted as [_ Hcm].
  split; [rewrite (getVMMetadata_twofold c s Hmd Hcm Hsecret); reflexivity|].
  rewrite createOrUpdateVM_stages.
  stage (@getVMClass_reads P c imports s) (getVMClass c imports s).
  destruct r as [vmClass|err];
    [|unfold returned, calls; cbn [fst snd]; split; [discriminate | exact C]].
  stage (@reconcileInstanceStorageSpec_reads P imports vmClass s0)
        (reconcileInstanceStorageSpec imports vmClass s0).
  destruct r as [err|];
    [unfold returned, calls; cbn [fst snd]; split;
     [discriminate | apply Forall_app; split; assumption]|].
  stage (@getImageAndContentLibraryUUID_reads P c imports s1)
        (getImageAndContentLibraryUUID c imports s1).
  destruct r as [image|err];
    [|unfold returned, calls; cbn [fst snd]; split;
      [discriminate | repeat (apply Forall_app; split); assumption]].
  assert (VmMetadata (Spec (VM s2)) = Some metadata) as Hmd2.
  { rewrite <- Hmd.
    etransitivity; [apply forget_keeps_metadata; eassumption|].
    etransitivity; [apply forget_keeps_metadata; eassumption|].
    apply forget_keeps_metadata; eassumption. }
  rewrite (getVMMetadata_twofold c s2 Hmd2 Hcm Hsecret).
  unfold returned, calls; cbn [fst snd]. split; [discriminate|].
  repeat (apply Forall_app; split); try assumption. constructor.
Qed.

Lemma admitted_secret_is_never_deployed_witness :
  returned (createOrUpdateVM (Scenario.apiserver Scenario.twofold) Scenario.infrastructure
              (Scenario.switches false) 16 (Scenario.reconciler Scenario.twofold false 0))
    <> None /\
  validation.validateMetadata Admission.messages Admission.vsphere
    (Admission.decoded Scenario.twofold) = [].
Proof.
  split; [|reflexivity].
  apply (@admitted_secret_is_never_deployed bool
           (Scenario.apiserver Scenario.twofold) Scenario.infrastructure
           (Scenario.switches false) 16 Admission.messages Admission.vsphere
           (Scenario.reconciler Scenario.twofold false 0)
           (Admission.decoded Scenario.twofold)
           {| ConfigMapName := "cm"; SecretName := "secret";
              Transport := "ExtraConfig" |}
           eq_refl eq_refl eq_refl ltac:(discriminate)).
Defined.
